(** * Hatari YM2149 sound core (src/sound.c, table-driven path)

    A shallow embedding of the fixed-point PSG emulation: the step
    computations, the envelope table, the register-write dispatch, the
    per-sample synthesizer, the frame scheduler with its ring buffer and
    the recording entry point, followed by the properties checked against
    them.

    C integers are kept as [Z] with the conversions written out:
    [u8]/[u16]/[u32] for the unsigned typedefs (ymu8, ymu16, ymu32),
    [s16]/[s32] for yms16 (ymsample) and int.  Where C leaves signed
    overflow undefined the model wraps in two's complement; the theorems
    below stay inside the range where no such overflow happens.  C's [/]
    on integers truncates towards zero and is written [Z.quot]. *)

From Stdlib Require Import ZArith Lia List Bool String Ascii.
From stdpp Require Import base list strings.
From coqutil Require Import Z.bitblast.

Local Open Scope Z_scope.

(** ** Machine integers *)

Definition u8  (z : Z) : Z := z mod 2^8.
Definition u16 (z : Z) : Z := z mod 2^16.
Definition u32 (z : Z) : Z := z mod 2^32.
Definition s16 (z : Z) : Z := (z + 2^15) mod 2^16 - 2^15.
Definition s32 (z : Z) : Z := (z + 2^31) mod 2^32 - 2^31.

(** A value that fits the ymu8 / Uint8 parameters of the source. *)
Definition is_byte (z : Z) : Prop := 0 <= z < 256.

(** ** Envelope shapes *)

Inductive env_block := ENV_GODOWN | ENV_GOUP | ENV_DOWN | ENV_UP.

Definition YmEnvDef : list (list env_block) :=
  [ [ENV_GODOWN; ENV_DOWN; ENV_DOWN];
    [ENV_GODOWN; ENV_DOWN; ENV_DOWN];
    [ENV_GODOWN; ENV_DOWN; ENV_DOWN];
    [ENV_GODOWN; ENV_DOWN; ENV_DOWN];
    [ENV_GOUP; ENV_DOWN; ENV_DOWN];
    [ENV_GOUP; ENV_DOWN; ENV_DOWN];
    [ENV_GOUP; ENV_DOWN; ENV_DOWN];
    [ENV_GOUP; ENV_DOWN; ENV_DOWN];
    [ENV_GODOWN; ENV_GODOWN; ENV_GODOWN];
    [ENV_GODOWN; ENV_DOWN; ENV_DOWN];
    [ENV_GODOWN; ENV_GOUP; ENV_GODOWN];
    [ENV_GODOWN; ENV_UP; ENV_UP];
    [ENV_GOUP; ENV_GOUP; ENV_GOUP];
    [ENV_GOUP; ENV_UP; ENV_UP];
    [ENV_GOUP; ENV_GODOWN; ENV_GOUP];
    [ENV_GOUP; ENV_DOWN; ENV_DOWN] ].

(** ** Volume tables and voice packing *)

Definition ymout1c5bit : list Z :=
  [ 0; 369; 438; 521; 619; 735; 874; 1039;
    1234; 1467; 1744; 2072; 2463; 2927; 3479; 4135;
    4914; 5841; 6942; 8250; 9806; 11654; 13851; 16462;
    19565; 23253; 27636; 32845; 39037; 46395; 55141; 65535 ].

Definition YmVolume4to5 : list Z :=
  [0; 2; 5; 7; 9; 11; 13; 15; 17; 19; 21; 23; 25; 27; 29; 31].

Definition YM_ATARI_CLOCK : Z := 2000000.

Definition YM_MERGE_VOICE (C B A : Z) : Z :=
  Z.lor (Z.lor (Z.shiftl C 10) (Z.shiftl B 5)) A.

Definition YM_MASK_1VOICE : Z := 0x1f.
Definition YM_MASK_A : Z := 0x1f.
Definition YM_MASK_B : Z := Z.shiftl 0x1f 5.
Definition YM_MASK_C : Z := Z.shiftl 0x1f 10.

Definition DC_ADJUST_BUFFERLEN : Z := 512.

(** ** Emulator state

    The file-level variables of sound.c, grouped by generator. *)

Record tone_vars := mkTone {
  stepA : Z; stepB : Z; stepC : Z;
  posA : Z; posB : Z; posC : Z }.

Record mixer_vars := mkMixer {
  mixerTA : Z; mixerTB : Z; mixerTC : Z;
  mixerNA : Z; mixerNB : Z; mixerNC : Z }.

Record noise_vars := mkNoise {
  noiseStep : Z; noisePos : Z; currentNoise : Z; RndRack : Z }.

Record env_vars := mkEnv {
  envStep : Z; envPos : Z; envShape : Z }.

Record vol_vars := mkVol {
  EnvMask3Voices : Z; Vol3Voices : Z }.

Record filter_vars := mkFilter {
  dc_buffer : list Z; dc_pos : Z; dc_sum : Z;
  m_lowPassFilter : Z * Z }.

Record ym2149 := mkYm {
  SoundRegs : list Z;
  tone : tone_vars;
  mixer : mixer_vars;
  noise : noise_vars;
  env : env_vars;
  vols : vol_vars;
  filt : filter_vars;
  bEnvelopeFreqFlag : bool;
  UseLowPassFilter : bool }.

Definition set_regs (r : list Z) (y : ym2149) : ym2149 :=
  mkYm r (tone y) (mixer y) (noise y) (env y) (vols y) (filt y)
       (bEnvelopeFreqFlag y) (UseLowPassFilter y).
Definition set_tone (t : tone_vars) (y : ym2149) : ym2149 :=
  mkYm (SoundRegs y) t (mixer y) (noise y) (env y) (vols y) (filt y)
       (bEnvelopeFreqFlag y) (UseLowPassFilter y).
Definition set_mixer (m : mixer_vars) (y : ym2149) : ym2149 :=
  mkYm (SoundRegs y) (tone y) m (noise y) (env y) (vols y) (filt y)
       (bEnvelopeFreqFlag y) (UseLowPassFilter y).
Definition set_noise (n : noise_vars) (y : ym2149) : ym2149 :=
  mkYm (SoundRegs y) (tone y) (mixer y) n (env y) (vols y) (filt y)
       (bEnvelopeFreqFlag y) (UseLowPassFilter y).
Definition set_env (e : env_vars) (y : ym2149) : ym2149 :=
  mkYm (SoundRegs y) (tone y) (mixer y) (noise y) e (vols y) (filt y)
       (bEnvelopeFreqFlag y) (UseLowPassFilter y).
Definition set_vols (v : vol_vars) (y : ym2149) : ym2149 :=
  mkYm (SoundRegs y) (tone y) (mixer y) (noise y) (env y) v (filt y)
       (bEnvelopeFreqFlag y) (UseLowPassFilter y).
Definition set_filt (f : filter_vars) (y : ym2149) : ym2149 :=
  mkYm (SoundRegs y) (tone y) (mixer y) (noise y) (env y) (vols y) f
       (bEnvelopeFreqFlag y) (UseLowPassFilter y).
Definition set_flag (b : bool) (y : ym2149) : ym2149 :=
  mkYm (SoundRegs y) (tone y) (mixer y) (noise y) (env y) (vols y) (filt y)
       b (UseLowPassFilter y).

(** SoundRegs[i], and the contents of the array after SoundRegs[i] = v. *)
Definition reg (y : ym2149) (i : nat) : Z := SoundRegs y !!! i.
Definition store_reg (i : nat) (v : Z) (y : ym2149) : ym2149 :=
  set_regs (<[i := v]> (SoundRegs y)) y.

(** ** Envelope table construction *)

Definition env_block_start (b : env_block) : Z * Z :=
  match b with
  | ENV_GODOWN => (31, -1)
  | ENV_GOUP => (0, 1)
  | ENV_DOWN => (0, 0)
  | ENV_UP => (31, 0)
  end.

(** The inner loop of YM2149_EnvBuild: [n] volumes starting at [vol]. *)
Fixpoint env_block_fill (n : nat) (vol inc : Z) : list Z :=
  match n with
  | O => []
  | S n' => u16 (YM_MERGE_VOICE vol vol vol) :: env_block_fill n' (vol + inc) inc
  end.

Definition YM2149_EnvBuild : list (list Z) :=
  map (fun blocks =>
         concat (map (fun b => let '(vol, inc) := env_block_start b in
                               env_block_fill 32 vol inc) blocks))
      YmEnvDef.

Definition YmEnvWaves : list (list Z) := Eval vm_compute in YM2149_EnvBuild.

(** ** Step computation *)

Section StepCompute.

  (** SoundPlayBackFrequencies[OutputAudioFreqIndex]: the table lives in
      the audio backend, so the replay frequency is a parameter here. *)
Variable YM_REPLAY_FREQ : Z.

  (** The period assembled from the two tone registers. *)
Definition tone_period (rHigh rLow : Z) : Z :=
    let per := Z.land rHigh 15 in
    s32 (Z.shiftl per 8 + rLow).

Definition Ym2149_ToneStepCompute (rHigh rLow : Z) : Z :=
    let per := tone_period rHigh rLow in
    if per <=? 5 then 0
    else
      let step := YM_ATARI_CLOCK in
      let step := Z.shiftl step (15 + 16 - 3) in
      let step := Z.quot step (s32 (per * YM_REPLAY_FREQ)) in
      u32 step.

Definition Ym2149_NoiseStepCompute (rNoise : Z) : Z :=
    let per := Z.land rNoise 0x1f in
    if per <? 3 then 0
    else
      let step := YM_ATARI_CLOCK in
      let step := Z.shiftl step (16 - 1 - 3) in
      let step := Z.quot step (s32 (per * YM_REPLAY_FREQ)) in
      u32 step.

Definition Ym2149_EnvStepCompute (rHigh rLow : Z) : Z :=
    let per := rHigh in
    let per := Z.shiftl per 8 + rLow in
    let step := YM_ATARI_CLOCK in
    let step := Z.shiftl step 24 in
    let step :=
      if 0 <? per then Z.quot step (8 * per * YM_REPLAY_FREQ)
      else Z.quot step (s32 (Z.quot (8 * 1) 2 * YM_REPLAY_FREQ)) in
    u32 step.

End StepCompute.

(** ** Register writes *)

Section RegisterInterface.

Variable YM_REPLAY_FREQ : Z.

  (** The sentinel of a pinned tone output: posX = 1u<<31 when stepX is 0. *)
Definition pin_pos (step pos : Z) : Z :=
    if step =? 0 then Z.shiftl 1 31 else pos.

Definition mixer_mask (data : Z) (bit : Z) : Z :=
    if Z.land data (Z.shiftl 1 bit) =? 0 then 0 else 0xffff.

Definition Sound_WriteReg (r : Z) (data : Z) (y : ym2149) : ym2149 :=
    match r with
    | 0 =>
        let y := store_reg 0 data y in
        let s := Ym2149_ToneStepCompute YM_REPLAY_FREQ (reg y 1) (reg y 0) in
        let t := tone y in
        set_tone (mkTone s (stepB t) (stepC t)
                         (pin_pos s (posA t)) (posB t) (posC t)) y
    | 1 =>
        let y := store_reg 1 (Z.land data 0x0f) y in
        let s := Ym2149_ToneStepCompute YM_REPLAY_FREQ (reg y 1) (reg y 0) in
        let t := tone y in
        set_tone (mkTone s (stepB t) (stepC t)
                         (pin_pos s (posA t)) (posB t) (posC t)) y
    | 2 =>
        let y := store_reg 2 data y in
        let s := Ym2149_ToneStepCompute YM_REPLAY_FREQ (reg y 3) (reg y 2) in
        let t := tone y in
        set_tone (mkTone (stepA t) s (stepC t)
                         (posA t) (pin_pos s (posB t)) (posC t)) y
    | 3 =>
        let y := store_reg 3 (Z.land data 0x0f) y in
        let s := Ym2149_ToneStepCompute YM_REPLAY_FREQ (reg y 3) (reg y 2) in
        let t := tone y in
        set_tone (mkTone (stepA t) s (stepC t)
                         (posA t) (pin_pos s (posB t)) (posC t)) y
    | 4 =>
        let y := store_reg 4 data y in
        let s := Ym2149_ToneStepCompute YM_REPLAY_FREQ (reg y 5) (reg y 4) in
        let t := tone y in
        set_tone (mkTone (stepA t) (stepB t) s
                         (posA t) (posB t) (pin_pos s (posC t))) y
    | 5 =>
        let y := store_reg 5 (Z.land data 0x0f) y in
        let s := Ym2149_ToneStepCompute YM_REPLAY_FREQ (reg y 5) (reg y 4) in
        let t := tone y in
        set_tone (mkTone (stepA t) (stepB t) s
                         (posA t) (posB t) (pin_pos s (posC t))) y
    | 6 =>
        let y := store_reg 6 (Z.land data 0x1f) y in
        let s := Ym2149_NoiseStepCompute YM_REPLAY_FREQ (reg y 6) in
        let n := noise y in
        if s =? 0
        then set_noise (mkNoise s 0 0xffff (RndRack n)) y
        else set_noise (mkNoise s (noisePos n) (currentNoise n) (RndRack n)) y
    | 7 =>
        let y := store_reg 7 (Z.land data 0x3f) y in
        set_mixer (mkMixer (mixer_mask data 0) (mixer_mask data 1)
                           (mixer_mask data 2) (mixer_mask data 3)
                           (mixer_mask data 4) (mixer_mask data 5)) y
    | 8 =>
        let y := store_reg 8 (Z.land data 0x1f) y in
        let v := vols y in
        if negb (Z.land data 0x10 =? 0)
        then set_vols (mkVol (u16 (Z.lor (EnvMask3Voices v) YM_MASK_A))
                             (u16 (Z.land (Vol3Voices v) (Z.lnot YM_MASK_A)))) y
        else
          let vol := u16 (Z.land (Vol3Voices v) (Z.lnot YM_MASK_A)) in
          set_vols (mkVol (u16 (Z.land (EnvMask3Voices v) (Z.lnot YM_MASK_A)))
                          (u16 (Z.lor vol (YmVolume4to5 !!! Z.to_nat (reg y 8))))) y
    | 9 =>
        let y := store_reg 9 (Z.land data 0x1f) y in
        let v := vols y in
        if negb (Z.land data 0x10 =? 0)
        then set_vols (mkVol (u16 (Z.lor (EnvMask3Voices v) YM_MASK_B))
                             (u16 (Z.land (Vol3Voices v) (Z.lnot YM_MASK_B)))) y
        else
          let vol := u16 (Z.land (Vol3Voices v) (Z.lnot YM_MASK_B)) in
          set_vols (mkVol (u16 (Z.land (EnvMask3Voices v) (Z.lnot YM_MASK_B)))
                          (u16 (Z.lor vol
                                  (Z.shiftl (YmVolume4to5 !!! Z.to_nat (reg y 9)) 5)))) y
    | 10 =>
        let y := store_reg 10 (Z.land data 0x1f) y in
        let v := vols y in
        if negb (Z.land data 0x10 =? 0)
        then set_vols (mkVol (u16 (Z.lor (EnvMask3Voices v) YM_MASK_C))
                             (u16 (Z.land (Vol3Voices v) (Z.lnot YM_MASK_C)))) y
        else
          let vol := u16 (Z.land (Vol3Voices v) (Z.lnot YM_MASK_C)) in
          set_vols (mkVol (u16 (Z.land (EnvMask3Voices v) (Z.lnot YM_MASK_C)))
                          (u16 (Z.lor vol
                                  (Z.shiftl (YmVolume4to5 !!! Z.to_nat (reg y 10)) 10)))) y
    | 11 =>
        let y := store_reg 11 data y in
        let e := env y in
        set_env (mkEnv (Ym2149_EnvStepCompute YM_REPLAY_FREQ (reg y 12) (reg y 11))
                       (envPos e) (envShape e)) y
    | 12 =>
        let y := store_reg 12 data y in
        let e := env y in
        set_env (mkEnv (Ym2149_EnvStepCompute YM_REPLAY_FREQ (reg y 12) (reg y 11))
                       (envPos e) (envShape e)) y
    | 13 =>
        let y := store_reg 13 (Z.land data 0xf) y in
        let e := env y in
        set_flag true (set_env (mkEnv (envStep e) 0 (reg y 13)) y)
    | _ => y
    end.

  (** A run of register writes, oldest first. *)
Definition write_regs (ws : list (Z * Z)) (y : ym2149) : ym2149 :=
    fold_left (fun y w => Sound_WriteReg (fst w) (snd w) y) ws y.

  (** ** DC adjuster and low-pass filter *)

Definition DcAdjuster_Reset (f : filter_vars) : filter_vars :=
    mkFilter (replicate (Z.to_nat DC_ADJUST_BUFFERLEN) 0) 0 0 (m_lowPassFilter f).

Definition DcAdjuster_AddSample (sample : Z) (f : filter_vars) : filter_vars :=
    let i := Z.to_nat (dc_pos f) in
    let sum := s32 (dc_sum f - dc_buffer f !!! i) in
    let sum := s32 (sum + sample) in
    mkFilter (<[i := sample]> (dc_buffer f))
             (Z.land (dc_pos f + 1) (DC_ADJUST_BUFFERLEN - 1))
             sum (m_lowPassFilter f).

Definition DcAdjuster_GetDcLevel (f : filter_vars) : Z :=
    s16 (Z.quot (dc_sum f) DC_ADJUST_BUFFERLEN).

Definition LowPassFilter_Reset (f : filter_vars) : filter_vars :=
    mkFilter (dc_buffer f) (dc_pos f) (dc_sum f) (0, 0).

Definition LowPassFilter (inp : Z) (f : filter_vars) : Z * filter_vars :=
    let '(l0, l1) := m_lowPassFilter f in
    let out := s16 (Z.shiftr l0 2 + Z.shiftr l1 1 + Z.shiftr inp 2) in
    (out, mkFilter (dc_buffer f) (dc_pos f) (dc_sum f) (l1, inp)).

  (** ** Reset *)

Definition Ym2149_Reset (y : ym2149) : ym2149 :=
    let y := fold_left (fun y i => Sound_WriteReg i 0 y)
                       (map Z.of_nat (seq 0 14)) y in
    let y := Sound_WriteReg 7 0xff y in
    let n := noise y in
    let y := set_noise (mkNoise (noiseStep n) (noisePos n) 0xffff 1) y in
    let e := env y in
    let y := set_env (mkEnv (envStep e) 0 0) y in
    set_filt (LowPassFilter_Reset (DcAdjuster_Reset (filt y))) y.

  (** The variables as the C start-up code leaves them (all statics zero). *)
Definition ym_zero : ym2149 :=
    mkYm (replicate 14 0) (mkTone 0 0 0 0 0 0) (mkMixer 0 0 0 0 0 0)
         (mkNoise 0 0 0 0) (mkEnv 0 0 0) (mkVol 0 0)
         (mkFilter (replicate (Z.to_nat DC_ADJUST_BUFFERLEN) 0) 0 0 (0, 0))
         false false.

End RegisterInterface.

(** ** Sample synthesis *)

Section Synthesizer.

(** The normalised 32*32*32 D/A table that Ym2149_Init leaves in ymout5;
    its contents come from the measured table of ym2149_fixed_vol.h,
    which is not part of sound.c, so the finished table is a parameter. *)
Variable ymout5 : Z -> Z.

Definition YM2149_RndCompute (n : noise_vars) : Z * noise_vars :=
  let bit := Z.lxor (Z.land (RndRack n) 1) (Z.land (Z.shiftr (RndRack n) 2) 1) in
  let rack := u32 (Z.lor (Z.shiftr (RndRack n) 1) (Z.shiftl bit 16)) in
  (if bit =? 0 then 0xffff else 0,
   mkNoise (noiseStep n) (noisePos n) (currentNoise n) rack).

(** First statement of YM2149_NextSample: advance the noise generator when
    the integer part of noisePos is not zero. *)
Definition noise_tick (n : noise_vars) : noise_vars :=
  if negb (Z.land (noisePos n) 0xffff0000 =? 0)
  then
    let '(rnd, n) := YM2149_RndCompute n in
    mkNoise (noiseStep n) (Z.land (noisePos n) 0xffff)
            (u32 (Z.lxor (currentNoise n) rnd)) (RndRack n)
  else n.

(** YmEnvWaves[ envShape ][ envPos>>24 ] *)
Definition env_lookup (e : env_vars) : Z :=
  (YmEnvWaves !!! Z.to_nat (envShape e)) !!! Z.to_nat (Z.shiftr (envPos e) 24).

(** bt for one voice: ((((yms32)pos)>>31) | mixerT) & (bn | mixerN) *)
Definition voice_bt (pos mixerT mixerN bn : Z) : Z :=
  s32 (Z.land (Z.lor (u32 (Z.shiftr (s32 pos) 31)) mixerT) (Z.lor bn mixerN)).

(** The value of Tone3Voices used to index ymout5, from the variables as
    they are after the noise update. *)
Definition Tone3Voices (y : ym2149) : Z :=
  let bn := currentNoise (noise y) in
  let Env3Voices := env_lookup (env y) in
  let Env3Voices := u16 (Z.land Env3Voices (EnvMask3Voices (vols y))) in
  let t := tone y in
  let m := mixer y in
  let bt := voice_bt (posA t) (mixerTA m) (mixerNA m) bn in
  let Tone3Voices := u16 (Z.land bt YM_MASK_1VOICE) in
  let bt := voice_bt (posB t) (mixerTB m) (mixerNB m) bn in
  let Tone3Voices := u16 (Z.lor Tone3Voices (Z.shiftl (Z.land bt YM_MASK_1VOICE) 5)) in
  let bt := voice_bt (posC t) (mixerTC m) (mixerNC m) bn in
  let Tone3Voices := u16 (Z.lor Tone3Voices (Z.shiftl (Z.land bt YM_MASK_1VOICE) 10)) in
  u16 (Z.land Tone3Voices (Z.lor Env3Voices (Vol3Voices (vols y)))).

(** envPos += envStep, then the wrap back into blocks 1 and 2. *)
Definition env_advance (e : env_vars) : env_vars :=
  let p := u32 (envPos e + envStep e) in
  let p := if Z.shiftl (3 * 32) 24 <=? p then u32 (p - Z.shiftl (2 * 32) 24) else p in
  mkEnv (envStep e) p (envShape e).

Definition YM2149_NextSample (y : ym2149) : Z * ym2149 :=
  let y := set_noise (noise_tick (noise y)) y in
  let sample := ymout5 (Tone3Voices y) in
  let t := tone y in
  let y := set_tone (mkTone (stepA t) (stepB t) (stepC t)
                            (u32 (posA t + stepA t)) (u32 (posB t + stepB t))
                            (u32 (posC t + stepC t))) y in
  let n := noise y in
  let y := set_noise (mkNoise (noiseStep n) (u32 (noisePos n + noiseStep n))
                              (currentNoise n) (RndRack n)) y in
  let y := set_env (env_advance (env y)) y in
  if UseLowPassFilter y
  then
    let f := DcAdjuster_AddSample sample (filt y) in
    let '(out, f) := LowPassFilter (s16 (sample - DcAdjuster_GetDcLevel f)) f in
    (out, set_filt f y)
  else (sample, y).

(** [n] consecutive calls, returning the samples in order. *)
Fixpoint next_samples (n : nat) (y : ym2149) : list Z * ym2149 :=
  match n with
  | O => ([], y)
  | S n' =>
      let '(s, y) := YM2149_NextSample y in
      let '(l, y) := next_samples n' y in
      (s :: l, y)
  end.

End Synthesizer.

(** ** Frame scheduler and ring buffer *)

Record sound := mkSound {
  ym : ym2149;
  MixBuffer : list (Z * Z);
  nGeneratedSamples : Z;
  nSamplesToGenerate : Z;
  ActiveSndBufIdx : Z;
  (** the counter behind Cycles_GetCounter(CYCLES_COUNTER_SOUND) *)
  nSoundCycles : Z }.

Section Scheduler.

Variable YM_REPLAY_FREQ : Z.
Variable nScreenRefreshRate : Z.
Variable CYCLES_PER_FRAME : Z.
Variable MIXBUFFER_SIZE : Z.
Variable ymout5 : Z -> Z.
(** DMA sound is mixed into the freshly written range by dmaSnd.c. *)
Variable DmaSnd_GenerateSamples : Z -> Z -> list (Z * Z) -> list (Z * Z).

Definition SAMPLES_PER_FRAME : Z :=
  Z.quot (s32 (YM_REPLAY_FREQ + 35)) nScreenRefreshRate.

(** nSamplesToGenerate after the clamp to one frame, before the clamp to
    the room left in the ring buffer. *)
Definition frame_samples (cycles : Z) : Z :=
  let nSamplesPerFrame := SAMPLES_PER_FRAME in
  let n := Z.quot (s32 (cycles * nSamplesPerFrame)) CYCLES_PER_FRAME in
  if nSamplesPerFrame <? n then nSamplesPerFrame else n.

Definition Sound_SetSamplesPassed (s : sound) : sound :=
  let nSoundCycles0 := nSoundCycles s in
  let nSamplesPerFrame := SAMPLES_PER_FRAME in
  let n := frame_samples nSoundCycles0 in
  let nSampleCycles := Z.quot (s32 (n * CYCLES_PER_FRAME)) nSamplesPerFrame in
  let nSoundCycles1 := s32 (nSoundCycles0 - nSampleCycles) in
  let room := s32 (MIXBUFFER_SIZE - nGeneratedSamples s) in
  let n :=
    if room <? n
    then (if room <? 0 then 0 else room)
    else n in
  mkSound (ym s) (MixBuffer s) (nGeneratedSamples s) n (ActiveSndBufIdx s)
          nSoundCycles1.

(** The ring-buffer slots the loop of Sound_GenerateSamples writes, in
    order. *)
Definition generated_slots (s : sound) : list Z :=
  if nSamplesToGenerate s <=? 0 then []
  else map (fun i => Z.rem (s32 (ActiveSndBufIdx s + Z.of_nat i)) MIXBUFFER_SIZE)
           (seq 0 (Z.to_nat (nSamplesToGenerate s))).

Definition Sound_GenerateSamples (s : sound) : sound :=
  if nSamplesToGenerate s <=? 0 then s
  else
    let '(y, buf) :=
      fold_left
        (fun '(y, buf) idx =>
           let '(sample, y) := YM2149_NextSample ymout5 y in
           (y, <[Z.to_nat idx := (sample, sample)]> buf))
        (generated_slots s) (ym s, MixBuffer s) in
    let buf := DmaSnd_GenerateSamples (ActiveSndBufIdx s) (nSamplesToGenerate s) buf in
    mkSound y buf
            (s32 (nGeneratedSamples s + nSamplesToGenerate s))
            (nSamplesToGenerate s)
            (Z.rem (s32 (ActiveSndBufIdx s + nSamplesToGenerate s)) MIXBUFFER_SIZE)
            (nSoundCycles s).

Definition Sound_Update (s : sound) : sound :=
  Sound_GenerateSamples (Sound_SetSamplesPassed s).

End Scheduler.

(** ** Recording entry point *)

Inductive log_event :=
| Log_Printf (msg : string)
| Log_AlertDlg (msg : string).

Section Recording.

(** The state owned by the two recorders (ymFormat.c, wavFormat.c). *)
Variable recorder : Type.
Variable File_DoesFileExtensionMatch : string -> string -> bool.
Variable YMFormat_BeginRecording : string -> recorder -> bool * recorder.
Variable WAVFormat_OpenFile : string -> recorder -> bool * recorder.

(** [None] is the NULL pointer.  The result is the returned flag, the
    emulator and recorder states afterwards and what was logged. *)
Definition Sound_BeginRecording (pszCaptureFileName : option string)
    (s : sound) (r : recorder) : bool * sound * recorder * list log_event :=
  match pszCaptureFileName with
  | None => (false, s, r, [Log_Printf "Illegal sound recording file name!"])
  | Some name =>
      if (String.length name <=? 3)%nat
      then (false, s, r, [Log_Printf "Illegal sound recording file name!"])
      else if File_DoesFileExtensionMatch name ".ym"
      then let '(bRet, r) := YMFormat_BeginRecording name r in (bRet, s, r, [])
      else if File_DoesFileExtensionMatch name ".wav"
      then let '(bRet, r) := WAVFormat_OpenFile name r in (bRet, s, r, [])
      else (false, s, r, [Log_AlertDlg "Unknown Sound Recording format."])
  end.

End Recording.

(** Letter case folding for the comparison of extensions. *)
Definition lower (c : ascii) : ascii :=
  let n := nat_of_ascii c in
  if ((65 <=? n) && (n <=? 90))%nat then ascii_of_nat (n + 32) else c.

Fixpoint lower_string (s : string) : string :=
  match s with
  | EmptyString => EmptyString
  | String c s' => String (lower c) (lower_string s')
  end.

(** Modelled from the spec: File_DoesFileExtensionMatch belongs to file.c,
    which is not in the excerpt; a name matches an extension when it ends
    with it, letter case ignored. *)
Definition file_ext_match (name ext : string) : bool :=
  let ln := String.length name in
  let le := String.length ext in
  if (ln <? le)%nat then false
  else String.eqb (lower_string (substring (ln - le) le name)) (lower_string ext).

(** ** Notions used in the statements *)

Definition tone_clock : Z := Z.shiftl YM_ATARI_CLOCK (15 + 16 - 3).

Definition env_clock : Z := Z.shiftl YM_ATARI_CLOCK 24.

Definition regs_ok (y : ym2149) : Prop := length (SoundRegs y) = 14%nat.

Definition noise_clock : Z := Z.shiftl YM_ATARI_CLOCK (16 - 1 - 3).

(** The five bits of voice [k] (0 = A, 1 = B, 2 = C) in a packed word. *)
Definition voice_mask (k : Z) : Z := Z.shiftl 0x1f (5 * k).
Definition voice_field (k w : Z) : Z := Z.land (Z.shiftr w (5 * k)) 0x1f.

Definition voice_exclusive (v : vol_vars) : Prop :=
  forall k, 0 <= k < 3 ->
    voice_field k (EnvMask3Voices v) = 0 \/ voice_field k (Vol3Voices v) = 0.

(** Cases 8, 9 and 10 of Sound_WriteReg, with the voice as a number. *)
Definition amp_write (k data : Z) (v : vol_vars) : vol_vars :=
  if negb (Z.land data 0x10 =? 0)
  then mkVol (u16 (Z.lor (EnvMask3Voices v) (voice_mask k)))
             (u16 (Z.land (Vol3Voices v) (Z.lnot (voice_mask k))))
  else mkVol (u16 (Z.land (EnvMask3Voices v) (Z.lnot (voice_mask k))))
             (u16 (Z.lor (u16 (Z.land (Vol3Voices v) (Z.lnot (voice_mask k))))
                         (Z.shiftl (YmVolume4to5 !!! Z.to_nat (Z.land data 0x1f))
                                   (5 * k)))).

(** A word whose bits all lie in the three 5-bit voice fields. *)
Definition fits15 (w : Z) : Prop := Z.land w (Z.ones 15) = w.

Definition env_pos_ok (e : env_vars) : Prop :=
  0 <= envPos e < Z.shiftl (3 * 32) 24.

Definition env_step_ok (e : env_vars) : Prop :=
  0 <= envStep e < Z.shiftl (2 * 32) 24.

(** The index envPos>>24 into a row of YmEnvWaves. *)
Definition env_index (e : env_vars) : Z := Z.shiftr (envPos e) 24.

(** ** Register widths *)

(** The bits of [data] that case [r] of Sound_WriteReg keeps in
    SoundRegs[r]. *)
Definition reg_mask (r : Z) : Z :=
  match r with
  | 1 | 3 | 5 | 13 => 0x0f
  | 6 | 8 | 9 | 10 => 0x1f
  | 7 => 0x3f
  | _ => 0xff
  end.

Definition regs_in_width (y : ym2149) : Prop :=
  regs_ok y /\
  forall r, 0 <= r <= 13 -> 0 <= reg y (Z.to_nat r) <= reg_mask r.

(** ** Per-voice views of the mixer state *)

(** A gate word of the mixer: all zeroes or all ones on 16 bits. *)
Definition gate_word (w : Z) : Prop := w = 0 \/ w = 0xffff.

Definition voice_pos (k : Z) (t : tone_vars) : Z :=
  match k with 0 => posA t | 1 => posB t | _ => posC t end.

Definition voice_step (k : Z) (t : tone_vars) : Z :=
  match k with 0 => stepA t | 1 => stepB t | _ => stepC t end.

Definition voice_gateT (k : Z) (m : mixer_vars) : Z :=
  match k with 0 => mixerTA m | 1 => mixerTB m | _ => mixerTC m end.

Definition voice_gateN (k : Z) (m : mixer_vars) : Z :=
  match k with 0 => mixerNA m | 1 => mixerNB m | _ => mixerNC m end.

Definition mixer_ok (m : mixer_vars) : Prop :=
  forall k, 0 <= k < 3 -> gate_word (voice_gateT k m) /\ gate_word (voice_gateN k m).

(** The mixer of the chip as boolean logic: a voice sounds when (its
    square wave is high or its tone is disabled) and (the noise output is
    high or its noise is disabled). *)
Definition voice_on (k : Z) (y : ym2149) : bool :=
  ((2^31 <=? voice_pos k (tone y)) || negb (voice_gateT k (mixer y) =? 0))
  && (negb (currentNoise (noise y) =? 0) || negb (voice_gateN k (mixer y) =? 0)).

(** ** Runs of register writes and samples *)

Inductive ym_op :=
| OpWrite (r data : Z)
| OpSample
| OpReset.

Definition run_op (freq : Z) (ymout5 : Z -> Z) (y : ym2149) (o : ym_op) : ym2149 :=
  match o with
  | OpWrite r data => Sound_WriteReg freq r data y
  | OpSample => snd (YM2149_NextSample ymout5 y)
  | OpReset => Ym2149_Reset freq y
  end.

Definition run_ops (freq : Z) (ymout5 : Z -> Z) (ops : list ym_op) (y : ym2149)
  : ym2149 :=
  fold_left (run_op freq ymout5) ops y.

Definition op_is_byte (o : ym_op) : Prop :=
  match o with OpWrite _ data => is_byte data | _ => True end.

(** What holds of the emulator variables in every state reached from
    start-up. *)
Definition ym_inv (y : ym2149) : Prop :=
  regs_in_width y /\
  mixer_ok (mixer y) /\
  gate_word (currentNoise (noise y)) /\
  0 <= RndRack (noise y) < 2^17 /\
  (forall j, 0 <= j < 3 -> 0 <= voice_pos j (tone y) < 2^32) /\
  env_pos_ok (env y) /\ env_step_ok (env y) /\
  0 <= envShape (env y) <= 15 /\
  fits15 (EnvMask3Voices (vols y)) /\ fits15 (Vol3Voices (vols y)) /\
  voice_exclusive (vols y).

(** Assignment of step and position of voice [k], as cases 0 to 5 of
    Sound_WriteReg do it: a zero step pins the position. *)
Definition tone_set (k s : Z) (t : tone_vars) : tone_vars :=
  match k with
  | 0 => mkTone s (stepB t) (stepC t) (pin_pos s (posA t)) (posB t) (posC t)
  | 1 => mkTone (stepA t) s (stepC t) (posA t) (pin_pos s (posB t)) (posC t)
  | _ => mkTone (stepA t) (stepB t) s (posA t) (posB t) (pin_pos s (posC t))
  end.

(** ** DC adjuster history *)

Definition zsum (l : list Z) : Z := fold_right Z.add 0 l.

Definition is_sample (v : Z) : Prop := - 32768 <= v <= 32767.

(** The history holds DC_ADJUST_BUFFERLEN samples, dc_pos indexes it and
    dc_sum is the sum of its entries. *)
Definition dc_ok (f : filter_vars) : Prop :=
  length (dc_buffer f) = 512%nat /\
  0 <= dc_pos f < 512 /\
  Forall is_sample (dc_buffer f) /\
  dc_sum f = zsum (dc_buffer f).

(** ** Volume table interpolation *)

(** (y1 * 4 + y2 * 6) / 10u: the sum is an int, the division unsigned. *)
Definition volumetable_interpolate (y1 y2 : Z) : Z :=
  let erpolate := s32 (u32 (s32 (y1 * 4 + y2 * 6)) / 10) in
  let erpolate := if 65535 <? erpolate then 65535 else erpolate in
  let erpolate := if erpolate <? 0 then 0 else erpolate in
  erpolate.

(** ** Checks over the envelope table *)

(** Block [b] of shape [s] in YmEnvDef. *)
Definition env_def (s b : nat) : env_block := nth b (nth s YmEnvDef []) ENV_DOWN.

(** The volume at step [i] of a block: a ramp down from 31, a ramp up
    from 0, or a held level. *)
Definition env_block_vol (blk : env_block) (i : nat) : Z :=
  match blk with
  | ENV_GODOWN => 31 - Z.of_nat i
  | ENV_GOUP => Z.of_nat i
  | ENV_DOWN => 0
  | ENV_UP => 31
  end.

Definition env_entry_ok (s b i : nat) : bool :=
  let v := env_block_vol (env_def s b) i in
  (0 <=? v) && (v <=? 31)
  && ((YmEnvWaves !!! s) !!! (32 * b + i)%nat =? YM_MERGE_VOICE v v v).

(** ** Construction of the D/A table *)

Definition YM_OUTPUT_LEVEL : Z := 0x7fff.
Definition YM_OUTPUT_CENTERED : bool := false.

(** The offset i + 32*j + 32*32*k of volumetable_set. *)
Definition vol_index (i j k : Z) : nat := Z.to_nat (i + 32 * j + 32 * 32 * k).

Definition volumetable_set (volumetable : list Z) (i j k val : Z) : list Z :=
  <[vol_index i j k := u16 val]> volumetable.

(** The value YM2149_BuildLinearVolumeTable computes for one entry. *)
Definition linear_mean (i j k : Z) : Z :=
  Z.quot (ymout1c5bit !!! Z.to_nat i + ymout1c5bit !!! Z.to_nat j
          + ymout1c5bit !!! Z.to_nat k) 3.

Definition YM2149_BuildLinearVolumeTable (out : list Z) : list Z :=
  fold_left (fun out i =>
    fold_left (fun out j =>
      fold_left (fun out k =>
        let res := linear_mean (Z.of_nat i) (Z.of_nat j) (Z.of_nat k) in
        volumetable_set out (Z.of_nat i) (Z.of_nat j) (Z.of_nat k) res)
        (seq 0 32) out)
      (seq 0 32) out)
    (seq 0 32) out.

(** One entry of YM2149_Normalise_5bit_Table: tmp * Level / Max in
    unsigned arithmetic, then the optional centring, stored as yms16. *)
Definition normalise_entry (Level Max : Z) (DoCenter : bool) (tmp : Z) : Z :=
  let Center := Z.shiftr Level 1 in
  let res := s32 (u32 (tmp * Level) / u32 Max) in
  let res := if DoCenter then s32 (res - Center) else res in
  s16 res.

(** in_5bit and out_5bit are the same array in Ym2149_Init, so the table
    is rewritten in place: entry h is read before it is replaced, and Max
    is read before the loop.  With Level = 0 nothing is written and the
    unsigned entries are read back through the signed pointer. *)
Definition YM2149_Normalise_5bit_Table
    (in_5bit : list Z) (Level : Z) (DoCenter : bool) : list Z :=
  if Level =? 0 then map s16 in_5bit
  else
    let Max := in_5bit !!! Z.to_nat 0x7fff in
    fold_left (fun arr h =>
                 <[h := normalise_entry Level Max DoCenter (arr !!! h)]> arr)
              (seq 0 (32 * 32 * 32)) in_5bit.

(** The table Ym2149_Init builds with YM_LINEAR_MIXING, from the zeroed
    static array. *)
Definition linear_ymout5 : list Z :=
  YM2149_Normalise_5bit_Table
    (YM2149_BuildLinearVolumeTable (replicate (32 * 32 * 32) 0))
    YM_OUTPUT_LEVEL YM_OUTPUT_CENTERED.

(** ** The loop of Sound_GenerateSamples *)

(** One turn of the loop: the next sample goes to both channels of slot
    [idx]. *)
Definition gen_step (ymout5 : Z -> Z)
    : ym2149 * list (Z * Z) -> Z -> ym2149 * list (Z * Z) :=
  fun '(y, buf) idx =>
    let '(sample, y) := YM2149_NextSample ymout5 y in
    (y, <[Z.to_nat idx := (sample, sample)]> buf).

(** * Properties *)

(** ** Machine-integer facts *)

Lemma u32_small z : 0 <= z < 2^32 -> u32 z = z.
Proof. intros H. unfold u32. now apply Z.mod_small. Qed.

Lemma u16_small z : 0 <= z < 2^16 -> u16 z = z.
Proof. intros H. unfold u16. now apply Z.mod_small. Qed.

Lemma s32_small z : - 2^31 <= z < 2^31 -> s32 z = z.
Proof. intros H. unfold s32. rewrite Z.mod_small; lia. Qed.

Lemma u16_land z : u16 z = Z.land z (Z.ones 16).
Proof. unfold u16. now rewrite Z.land_ones by lia. Qed.

Lemma land_low_bits z n : 0 <= n -> 0 <= Z.land z (Z.ones n) < 2^n.
Proof. intros Hn. rewrite Z.land_ones by lia. apply Z.mod_pos_bound. lia. Qed.

(** ** Tone step *)

Lemma tone_period_eq rHigh rLow :
  is_byte rLow -> tone_period rHigh rLow = Z.land rHigh 15 * 256 + rLow.
Proof.
  intros Hl. unfold tone_period, is_byte in *.
  pose proof (land_low_bits rHigh 4 ltac:(lia)) as Hb.
  change (Z.ones 4) with 15 in Hb. change (2^4) with 16 in Hb.
  rewrite Z.shiftl_mul_pow2 by lia. change (2^8) with 256.
  apply s32_small. lia.
Qed.

Lemma tone_period_range rHigh rLow :
  is_byte rLow -> 0 <= tone_period rHigh rLow <= 4095.
Proof.
  intros Hl. rewrite tone_period_eq by assumption. unfold is_byte in Hl.
  pose proof (land_low_bits rHigh 4 ltac:(lia)) as Hb.
  change (Z.ones 4) with 15 in Hb. change (2^4) with 16 in Hb. lia.
Qed.

Lemma tone_step_div freq rHigh rLow :
  1 <= freq <= 524415 -> is_byte rLow -> 5 < tone_period rHigh rLow ->
  Ym2149_ToneStepCompute freq rHigh rLow
  = u32 (tone_clock / (tone_period rHigh rLow * freq)).
Proof.
  intros Hf Hl Hp. pose proof (tone_period_range rHigh rLow Hl) as Hr.
  unfold Ym2149_ToneStepCompute.
  destruct (Z.leb_spec (tone_period rHigh rLow) 5) as [H|_]; [lia|].
  rewrite s32_small by (change (2^31) with 2147483648; nia).
  rewrite Z.quot_div_nonneg; [reflexivity| now vm_compute | nia].
Qed.

Lemma tone_quotient_decreasing freq p p' :
  1 <= freq <= 524415 -> 1 <= p -> p < p' -> p' <= 4095 ->
  tone_clock / (p' * freq) < tone_clock / (p * freq).
Proof.
  intros Hf Hp Hlt Hp'.
  assert (Hc : tone_clock = 536870912000000) by reflexivity.
  set (q := tone_clock / (p' * freq)).
  assert (Hq : (p' * freq) * q <= tone_clock)
    by (apply Z.mul_div_le; nia).
  assert (Hqp : p <= q).
  { unfold q. apply Z.div_le_lower_bound; [nia|]. rewrite Hc.
    assert (p' * freq <= 4095 * 524415) by (apply Z.mul_le_mono_nonneg; lia).
    assert (p' * freq * p <= 4095 * 524415 * 4095)
      by (apply Z.mul_le_mono_nonneg; nia).
    lia. }
  apply Z.lt_le_trans with (q + 1); [lia|].
  apply Z.div_le_lower_bound; [nia|].
  assert (H1 : (p + 1) * (freq * q) <= p' * (freq * q))
    by (apply Z.mul_le_mono_nonneg_r; nia).
  assert (H2 : freq * p <= freq * q)
    by (apply Z.mul_le_mono_nonneg_l; lia).
  lia.
Qed.

Lemma tone_quotient_fits freq p :
  1 <= freq <= 524415 -> 5 < p <= 4095 -> 125000 < p * freq ->
  0 < tone_clock / (p * freq) < 2^32.
Proof.
  intros Hf Hp Hpf.
  assert (Hc : tone_clock = 536870912000000) by reflexivity.
  assert (Hhi : p * freq <= 4095 * 524415) by (apply Z.mul_le_mono_nonneg; lia).
  split.
  - apply Z.div_str_pos. rewrite Hc. lia.
  - apply Z.div_lt_upper_bound; [lia|]. rewrite Hc.
    change (2^32) with 4294967296. lia.
Qed.

Lemma tone_quotient_overflows freq p :
  1 <= freq -> 5 < p -> p * freq <= 125000 ->
  2^32 <= tone_clock / (p * freq).
Proof.
  intros Hf Hp Hpf.
  assert (Hc : tone_clock = 125000 * 2^32) by reflexivity.
  apply Z.div_le_lower_bound; [nia|]. rewrite Hc.
  apply Z.mul_le_mono_nonneg_r; [now vm_compute | exact Hpf].
Qed.

Lemma tone_threshold_from_20834 freq p :
  20834 <= freq -> 5 < p -> 125000 < p * freq.
Proof.
  intros Hf Hp.
  assert (Hlo : 6 * 20834 <= p * freq) by (apply Z.mul_le_mono_nonneg; lia).
  lia.
Qed.

Lemma tone_step_above_threshold freq rHigh rLow :
  is_byte rLow -> 1 <= freq <= 524415 -> 5 < tone_period rHigh rLow ->
  125000 < tone_period rHigh rLow * freq ->
  0 < Ym2149_ToneStepCompute freq rHigh rLow /\
  forall rHigh' rLow', is_byte rLow' ->
    tone_period rHigh rLow < tone_period rHigh' rLow' ->
    Ym2149_ToneStepCompute freq rHigh' rLow'
    < Ym2149_ToneStepCompute freq rHigh rLow.
Proof.
  intros Hl Hf Hp Hpf.
  pose proof (tone_period_range rHigh rLow Hl) as Hr.
  rewrite tone_step_div by assumption.
  pose proof (tone_quotient_fits freq _ Hf (conj Hp (proj2 Hr)) Hpf) as Hq.
  rewrite u32_small by lia. split; [lia|].
  intros rHigh' rLow' Hl' Hlt.
  pose proof (tone_period_range rHigh' rLow' Hl') as Hr'.
  rewrite tone_step_div by (assumption || lia).
  assert (Hpf' : 125000 < tone_period rHigh' rLow' * freq).
  { apply Z.lt_le_trans with (1 := Hpf).
    apply Z.mul_le_mono_nonneg_r; lia. }
  pose proof (tone_quotient_fits freq (tone_period rHigh' rLow') Hf
                ltac:(lia) Hpf') as Hq'.
  rewrite u32_small by lia.
  apply tone_quotient_decreasing; lia.
Qed.

Lemma tone_step_positive_at_11025 rHigh rLow :
  is_byte rLow -> 5 < tone_period rHigh rLow ->
  0 < Ym2149_ToneStepCompute 11025 rHigh rLow.
Proof.
  intros Hl Hp. pose proof (tone_period_range rHigh rLow Hl) as Hr.
  destruct (Z_le_gt_dec 12 (tone_period rHigh rLow)) as [H12|H12].
  - apply tone_step_above_threshold; try assumption; lia.
  - unfold Ym2149_ToneStepCompute.
    generalize dependent (tone_period rHigh rLow). intros p Hp _ H12.
    assert (Hc : p = 6 \/ p = 7 \/ p = 8 \/ p = 9 \/ p = 10 \/ p = 11) by lia.
    destruct Hc as [-> | [-> | [-> | [-> | [-> | ->]]]]];
      vm_compute; reflexivity.
Qed.

(** C1, as the code has it: a tone period p of at most 5 gives step 0 at
    every replay frequency.  For a replay frequency from 1 Hz to 524415 Hz
    and p > 5 the step is the quotient (YM_ATARI_CLOCK << 28) / (p * freq)
    returned modulo 2^32.  Whenever p * freq exceeds 125000 the quotient
    fits, the step is strictly positive, and every larger period gives a
    strictly smaller step; this holds for every p > 5 from 20834 Hz on
    (22050, 44100 and 48000 Hz among them) and from p = 12 on at 11025 Hz.
    When p * freq is at most 125000 the quotient is 2^32 or more and loses
    its high bits; at 11025 Hz the step is still positive for every
    p > 5. *)
Theorem tone_step_pinned_then_decreasing (freq rHigh rLow : Z) :
  is_byte rLow ->
  (tone_period rHigh rLow <= 5 -> Ym2149_ToneStepCompute freq rHigh rLow = 0) /\
  (1 <= freq <= 524415 -> 5 < tone_period rHigh rLow ->
   Ym2149_ToneStepCompute freq rHigh rLow
   = (tone_clock / (tone_period rHigh rLow * freq)) mod 2^32) /\
  (1 <= freq <= 524415 -> 5 < tone_period rHigh rLow ->
   125000 < tone_period rHigh rLow * freq ->
   0 < Ym2149_ToneStepCompute freq rHigh rLow /\
   forall rHigh' rLow', is_byte rLow' ->
     tone_period rHigh rLow < tone_period rHigh' rLow' ->
     Ym2149_ToneStepCompute freq rHigh' rLow'
     < Ym2149_ToneStepCompute freq rHigh rLow) /\
  (20834 <= freq <= 524415 -> 5 < tone_period rHigh rLow ->
   0 < Ym2149_ToneStepCompute freq rHigh rLow /\
   forall rHigh' rLow', is_byte rLow' ->
     tone_period rHigh rLow < tone_period rHigh' rLow' ->
     Ym2149_ToneStepCompute freq rHigh' rLow'
     < Ym2149_ToneStepCompute freq rHigh rLow) /\
  (1 <= freq -> 5 < tone_period rHigh rLow ->
   tone_period rHigh rLow * freq <= 125000 ->
   2^32 <= tone_clock / (tone_period rHigh rLow * freq)) /\
  (5 < tone_period rHigh rLow ->
   0 < Ym2149_ToneStepCompute 11025 rHigh rLow).
Proof.
  intros Hl. split; [|split; [|split; [|split; [|split]]]].
  - intros Hp. unfold Ym2149_ToneStepCompute.
    destruct (Z.leb_spec (tone_period rHigh rLow) 5); [reflexivity | lia].
  - intros Hf Hp. apply tone_step_div; assumption.
  - intros Hf Hp Hpf. apply tone_step_above_threshold; assumption.
  - intros Hf Hp. apply tone_step_above_threshold; try assumption; [lia|].
    apply tone_threshold_from_20834; lia.
  - intros Hf Hp Hpf. apply tone_quotient_overflows; assumption.
  - intros Hp. apply tone_step_positive_at_11025; assumption.
Qed.

Lemma tone_step_pinned_then_decreasing_witness :
  is_byte 12 /\
  0 < Ym2149_ToneStepCompute 11025 0 12 /\
  Ym2149_ToneStepCompute 11025 0 13 < Ym2149_ToneStepCompute 11025 0 12 /\
  0 < Ym2149_ToneStepCompute 44100 0 12 /\
  Ym2149_ToneStepCompute 44100 0 13 < Ym2149_ToneStepCompute 44100 0 12.
Proof.
  assert (Hb : is_byte 12) by (unfold is_byte; lia).
  assert (Hb' : is_byte 13) by (unfold is_byte; lia).
  split; [exact Hb|].
  destruct (tone_step_pinned_then_decreasing 11025 0 12 Hb)
    as (_ & _ & H & _).
  destruct (H ltac:(lia) ltac:(vm_compute; reflexivity)
              ltac:(vm_compute; reflexivity)) as [Hpos Hdec].
  split; [exact Hpos|].
  split; [apply Hdec; [exact Hb' | vm_compute; reflexivity]|].
  destruct (tone_step_pinned_then_decreasing 44100 0 12 Hb)
    as (_ & _ & _ & H' & _).
  destruct (H' ltac:(lia) ltac:(vm_compute; reflexivity)) as [Hpos' Hdec'].
  split; [exact Hpos'|].
  apply Hdec'; [exact Hb' | vm_compute; reflexivity].
Defined.

(** At 11025 Hz the quotient for periods 6 to 11 no longer fits the 32-bit
    return type: the step of period 11 is smaller than that of period 12. *)
Lemma tone_step_wraps_at_11025 :
  5 < tone_period 0 11 /\ tone_period 0 11 < tone_period 0 12 /\
  Ym2149_ToneStepCompute 11025 0 11 = 131921279 /\
  Ym2149_ToneStepCompute 11025 0 12 = 4057981194 /\
  ~ (Ym2149_ToneStepCompute 11025 0 12 < Ym2149_ToneStepCompute 11025 0 11).
Proof. vm_compute. repeat split; discriminate. Qed.

(** ** Envelope step *)

Lemma env_step_period0 freq :
  1 <= freq < 2^29 ->
  Ym2149_EnvStepCompute freq 0 0 = u32 (env_clock / (4 * freq)).
Proof.
  intros Hf. change (2^29) with 536870912 in Hf.
  unfold Ym2149_EnvStepCompute. cbv zeta.
  change (0 <? Z.shiftl 0 8 + 0) with false. cbv iota.
  change (Z.quot (8 * 1) 2) with 4.
  rewrite s32_small by (change (2^31) with 2147483648; lia).
  rewrite Z.quot_div_nonneg; [reflexivity | now vm_compute | lia].
Qed.

Lemma env_step_period freq rHigh rLow :
  1 <= freq -> is_byte rHigh -> is_byte rLow -> 0 < rHigh * 256 + rLow ->
  Ym2149_EnvStepCompute freq rHigh rLow
  = u32 (env_clock / (8 * (rHigh * 256 + rLow) * freq)).
Proof.
  intros Hf Hh Hl Hp. unfold is_byte in *. unfold Ym2149_EnvStepCompute.
  rewrite Z.shiftl_mul_pow2 by lia. change (2^8) with 256.
  destruct (Z.ltb_spec 0 (rHigh * 256 + rLow)) as [_|H]; [|lia].
  rewrite Z.quot_div_nonneg; [reflexivity | now vm_compute | nia].
Qed.

(** C2, as the code has it: period 0 is computed with half the divisor of
    period 1 (a period of one half), so for a replay frequency from 1954 Hz
    up to 2^29 Hz the step of period 1 is the step of period 0 halved by
    integer division; the step of period 0 is twice the step of period 1,
    or one more. *)
Theorem env_step_period0_is_half_period (freq : Z) :
  1954 <= freq < 2^29 ->
  Ym2149_EnvStepCompute freq 0 0 = env_clock / (4 * freq) /\
  Ym2149_EnvStepCompute freq 0 1 = Ym2149_EnvStepCompute freq 0 0 / 2 /\
  2 * Ym2149_EnvStepCompute freq 0 1 <= Ym2149_EnvStepCompute freq 0 0
    <= 2 * Ym2149_EnvStepCompute freq 0 1 + 1.
Proof.
  intros Hf. change (2^29) with 536870912 in Hf.
  assert (Hc : env_clock = 33554432000000) by reflexivity.
  assert (H0 : 0 <= env_clock / (4 * freq) < 2^32).
  { split; [apply Z.div_pos; lia|].
    apply Z.div_lt_upper_bound; [lia|]. rewrite Hc.
    change (2^32) with 4294967296. lia. }
  rewrite env_step_period0 by (change (2^29) with 536870912; lia).
  rewrite env_step_period by (unfold is_byte; lia).
  rewrite (u32_small (env_clock / (4 * freq))) by exact H0.
  replace (8 * (0 * 256 + 1) * freq) with (4 * freq * 2) by lia.
  rewrite <- (Z.div_div env_clock (4 * freq) 2) by lia.
  assert (H1 : 0 <= env_clock / (4 * freq) / 2 < 2^32).
  { split; [apply Z.div_pos; lia|].
    apply Z.div_lt_upper_bound; lia. }
  rewrite u32_small by exact H1.
  split; [reflexivity|]. split; [reflexivity|].
  pose proof (Z.div_mod (env_clock / (4 * freq)) 2 ltac:(lia)) as Hd.
  pose proof (Z.mod_pos_bound (env_clock / (4 * freq)) 2 ltac:(lia)).
  lia.
Qed.

Lemma env_step_period0_is_half_period_witness :
  1954 <= 44100 < 2^29 /\
  Ym2149_EnvStepCompute 44100 0 1 = Ym2149_EnvStepCompute 44100 0 0 / 2.
Proof.
  assert (Hf : 1954 <= 44100 < 2^29) by (change (2^29) with 536870912; lia).
  split; [exact Hf|].
  exact (proj1 (proj2 (env_step_period0_is_half_period 44100 Hf))).
Defined.

(** At 44.1 kHz the step of period 0 is 190217868 and that of period 1 is
    95108934: period 0 gives the double, not the half. *)
Lemma env_step_period0_not_half_step :
  Ym2149_EnvStepCompute 44100 0 0 = 190217868 /\
  Ym2149_EnvStepCompute 44100 0 1 = 95108934 /\
  Ym2149_EnvStepCompute 44100 0 0 <> Ym2149_EnvStepCompute 44100 0 1 / 2 /\
  2 * Ym2149_EnvStepCompute 44100 0 0 <> Ym2149_EnvStepCompute 44100 0 1.
Proof. vm_compute. repeat split; discriminate. Qed.

(** ** Fixed volume table *)

(** C8: YmVolume4to5 maps 0 to 0 and 15 to 31 and is strictly increasing
    over its 16 entries. *)
Theorem YmVolume4to5_endpoints_and_monotone :
  YmVolume4to5 !!! 0%nat = 0 /\ YmVolume4to5 !!! 15%nat = 31 /\
  length YmVolume4to5 = 16%nat /\
  forall i j : nat, (i < j)%nat -> (j <= 15)%nat ->
    YmVolume4to5 !!! i < YmVolume4to5 !!! j.
Proof.
  repeat split.
  intros i j Hij Hj.
  do 16 (destruct i as [|i];
         [ do 16 (destruct j as [|j]; [ first [ lia | now vm_compute ] |]); lia |]).
  lia.
Qed.

Lemma YmVolume4to5_endpoints_and_monotone_witness :
  YmVolume4to5 !!! 3%nat < YmVolume4to5 !!! 4%nat.
Proof.
  apply (proj2 (proj2 (proj2 YmVolume4to5_endpoints_and_monotone))); lia.
Defined.

(** ** Register file *)

Lemma reg_store_same i v y :
  (i < length (SoundRegs y))%nat -> reg (store_reg i v y) i = v.
Proof.
  intros Hi. unfold reg, store_reg, set_regs. cbn [SoundRegs].
  now apply list_lookup_total_insert_eq.
Qed.

Lemma regs_ok_store i v y : regs_ok y -> regs_ok (store_reg i v y).
Proof.
  unfold regs_ok, store_reg, set_regs. cbn [SoundRegs].
  now rewrite length_insert.
Qed.

(** ** Noise step *)

Lemma noise_period_range rNoise : 0 <= Z.land rNoise 0x1f <= 31.
Proof.
  pose proof (land_low_bits rNoise 5 ltac:(lia)) as H.
  change (Z.ones 5) with 31 in H. change (2^5) with 32 in H. lia.
Qed.

Lemma noise_step_below_floor freq rNoise :
  Z.land rNoise 0x1f < 3 -> Ym2149_NoiseStepCompute freq rNoise = 0.
Proof.
  intros Hp. unfold Ym2149_NoiseStepCompute.
  destruct (Z.ltb_spec (Z.land rNoise 31) 3); [reflexivity | lia].
Qed.

Lemma noise_step_above_floor freq rNoise :
  1 <= freq <= 69273666 -> 3 <= Z.land rNoise 0x1f ->
  0 < Ym2149_NoiseStepCompute freq rNoise.
Proof.
  intros Hf Hp. pose proof (noise_period_range rNoise) as Hr.
  unfold Ym2149_NoiseStepCompute.
  destruct (Z.ltb_spec (Z.land rNoise 31) 3) as [H|_]; [lia|].
  set (p := Z.land rNoise 31) in *.
  assert (Hlo : 3 * 1 <= p * freq) by (apply Z.mul_le_mono_nonneg; lia).
  assert (Hhi : p * freq <= 31 * 69273666) by (apply Z.mul_le_mono_nonneg; lia).
  rewrite s32_small by (change (2^31) with 2147483648; lia).
  change (Z.shiftl YM_ATARI_CLOCK (16 - 1 - 3)) with 8192000000.
  rewrite Z.quot_div_nonneg by lia.
  assert (Hq : 0 < 8192000000 / (p * freq) < 2^32).
  { split; [apply Z.div_str_pos; lia|].
    apply Z.div_lt_upper_bound; [lia|]. change (2^32) with 4294967296. lia. }
  rewrite u32_small; lia.
Qed.

Lemma noise_period_idem rNoise :
  Z.land (Z.land rNoise 0x1f) 0x1f = Z.land rNoise 0x1f.
Proof. rewrite <- Z.land_assoc. reflexivity. Qed.

Lemma noise_step_masked freq rNoise :
  Ym2149_NoiseStepCompute freq (Z.land rNoise 0x1f)
  = Ym2149_NoiseStepCompute freq rNoise.
Proof. unfold Ym2149_NoiseStepCompute. now rewrite noise_period_idem. Qed.

(** C6: a noise period (register 6, low five bits) below 3 gives step 0,
    and the write of register 6 then clears noisePos and sets currentNoise
    to 0xffff; a period of 3 or more gives a strictly positive step, which
    the write stores, leaving noisePos and currentNoise as they were. *)
Theorem noise_step_floor (freq data : Z) (y : ym2149) :
  1 <= freq <= 69273666 -> regs_ok y ->
  (Z.land data 0x1f < 3 ->
     Ym2149_NoiseStepCompute freq data = 0 /\
     noiseStep (noise (Sound_WriteReg freq 6 data y)) = 0 /\
     noisePos (noise (Sound_WriteReg freq 6 data y)) = 0 /\
     currentNoise (noise (Sound_WriteReg freq 6 data y)) = 0xffff) /\
  (3 <= Z.land data 0x1f ->
     0 < Ym2149_NoiseStepCompute freq data /\
     noiseStep (noise (Sound_WriteReg freq 6 data y))
       = Ym2149_NoiseStepCompute freq data /\
     noisePos (noise (Sound_WriteReg freq 6 data y)) = noisePos (noise y) /\
     currentNoise (noise (Sound_WriteReg freq 6 data y)) = currentNoise (noise y)).
Proof.
  intros Hf Hy.
  assert (Hw : Sound_WriteReg freq 6 data y =
               let y1 := store_reg 6 (Z.land data 0x1f) y in
               let s := Ym2149_NoiseStepCompute freq data in
               if s =? 0
               then set_noise (mkNoise s 0 0xffff (RndRack (noise y1))) y1
               else set_noise (mkNoise s (noisePos (noise y1))
                                       (currentNoise (noise y1))
                                       (RndRack (noise y1))) y1).
  { unfold Sound_WriteReg. cbv zeta.
    rewrite reg_store_same by (rewrite Hy; lia).
    now rewrite noise_step_masked. }
  rewrite Hw. cbv zeta. split.
  - intros Hp. rewrite (noise_step_below_floor freq data Hp).
    cbn. repeat split; reflexivity.
  - intros Hp. pose proof (noise_step_above_floor freq data Hf Hp) as Hs.
    destruct (Z.eqb_spec (Ym2149_NoiseStepCompute freq data) 0) as [E|_]; [lia|].
    cbn. repeat split; assumption || reflexivity.
Qed.

Lemma noise_step_floor_witness :
  (1 <= 44100 <= 69273666) /\ regs_ok (ym_zero) /\
  noisePos (noise (Sound_WriteReg 44100 6 2 ym_zero)) = 0 /\
  0 < Ym2149_NoiseStepCompute 44100 3.
Proof.
  assert (Hf : 1 <= 44100 <= 69273666) by lia.
  assert (Hy : regs_ok ym_zero) by reflexivity.
  split; [exact Hf|]. split; [exact Hy|]. split.
  - destruct (noise_step_floor 44100 2 ym_zero Hf Hy) as [H _].
    destruct (H ltac:(vm_compute; reflexivity)) as (_ & _ & Hp & _).
    exact Hp.
  - destruct (noise_step_floor 44100 3 ym_zero Hf Hy) as [_ H].
    destruct (H ltac:(vm_compute; discriminate)) as (Hp & _).
    exact Hp.
Defined.

(** ** Amplitude registers *)

Lemma write_amp_vols freq k data y :
  regs_ok y -> 0 <= k < 3 ->
  vols (Sound_WriteReg freq (8 + k) data y) = amp_write k data (vols y).
Proof.
  intros Hy Hk. unfold regs_ok in Hy.
  assert (Hc : k = 0 \/ k = 1 \/ k = 2) by lia.
  destruct Hc as [-> | [-> | ->]];
    [ change (8 + 0) with 8 | change (8 + 1) with 9 | change (8 + 2) with 10 ];
    unfold Sound_WriteReg, amp_write; cbv zeta;
    rewrite reg_store_same by (rewrite Hy; lia);
    destruct (negb (Z.land data 16 =? 0)); reflexivity.
Qed.

Lemma write_other_vols freq r data y :
  r <> 8 -> r <> 9 -> r <> 10 ->
  vols (Sound_WriteReg freq r data y) = vols y.
Proof.
  intros H8 H9 H10.
  destruct r as [|p|p]; try reflexivity.
  do 4 (try destruct p as [p|p|]); try reflexivity; try lia.
  unfold Sound_WriteReg. cbv zeta.
  destruct (_ =? 0); reflexivity.
Qed.

Lemma write_regs_ok freq r data y :
  regs_ok y -> regs_ok (Sound_WriteReg freq r data y).
Proof.
  intros Hy.
  destruct r as [|p|p]; try assumption;
    [ now apply regs_ok_store |].
  do 4 (try destruct p as [p|p|]); try assumption;
    unfold Sound_WriteReg; cbv zeta;
    repeat match goal with |- context [if ?c then _ else _] => destruct c end;
    now apply regs_ok_store.
Qed.

Lemma volume_entry_range n : 0 <= YmVolume4to5 !!! n < 32.
Proof.
  do 16 (destruct n as [|n]; [vm_compute; split; [discriminate | reflexivity] |]).
  vm_compute. split; [discriminate | reflexivity].
Qed.

Section VoiceFields.

Variables (k : Z) (Hk : 0 <= k < 3).

Lemma field_env_on e : voice_field k (u16 (Z.lor e (voice_mask k))) = 0x1f.
Proof.
  unfold voice_field, voice_mask. rewrite u16_land.
  change 0x1f with (Z.ones 5). Z.bitblast.
Qed.

Lemma field_cleared w : voice_field k (u16 (Z.land w (Z.lnot (voice_mask k)))) = 0.
Proof.
  unfold voice_field, voice_mask. rewrite u16_land.
  change 0x1f with (Z.ones 5). Z.bitblast.
Qed.

Lemma field_vol_on w t :
  0 <= t < 32 ->
  voice_field k (u16 (Z.lor (u16 (Z.land w (Z.lnot (voice_mask k))))
                            (Z.shiftl t (5 * k)))) = t.
Proof.
  intros Ht. unfold voice_field, voice_mask. rewrite !u16_land.
  change 0x1f with (Z.ones 5).
  replace t with (Z.land t (Z.ones 5)) at 1 2
    by (rewrite Z.land_ones by lia; apply Z.mod_small;
        change (2^5) with 32; lia).
  Z.bitblast.
Qed.

Variables (j : Z) (Hj : 0 <= j < 3) (Hjk : j <> k).

Lemma field_env_on_other e :
  voice_field j (u16 (Z.lor e (voice_mask k))) = voice_field j e.
Proof.
  unfold voice_field, voice_mask. rewrite u16_land.
  change 0x1f with (Z.ones 5). Z.bitblast.
Qed.

Lemma field_cleared_other w :
  voice_field j (u16 (Z.land w (Z.lnot (voice_mask k)))) = voice_field j w.
Proof.
  unfold voice_field, voice_mask. rewrite u16_land.
  change 0x1f with (Z.ones 5). Z.bitblast.
Qed.

Lemma field_vol_on_other w t :
  0 <= t < 32 ->
  voice_field j (u16 (Z.lor (u16 (Z.land w (Z.lnot (voice_mask k))))
                            (Z.shiftl t (5 * k)))) = voice_field j w.
Proof.
  intros Ht. unfold voice_field, voice_mask. rewrite !u16_land.
  change 0x1f with (Z.ones 5).
  replace t with (Z.land t (Z.ones 5))
    by (rewrite Z.land_ones by lia; apply Z.mod_small;
        change (2^5) with 32; lia).
  Z.bitblast.
Qed.

End VoiceFields.

Lemma fixed_mode_index data :
  Z.land data 0x10 = 0 -> Z.land data 0x1f = Z.land data 0x0f.
Proof.
  intros H.
  assert (H4 : Z.testbit data 4 = false).
  { apply (f_equal (fun z => Z.testbit z 4)) in H.
    rewrite Z.land_spec in H. cbn in H. now rewrite andb_true_r in H. }
  change 0x1f with (Z.ones 5). change 0x0f with (Z.ones 4).
  apply Z.bits_inj'. intros n Hn.
  rewrite !Z.land_spec, !Z.testbit_ones_nonneg by lia.
  destruct (Z.eq_dec n 4) as [-> | Hne]; [now rewrite H4|].
  destruct (Z.ltb_spec n 5), (Z.ltb_spec n 4); try reflexivity; lia.
Qed.

Lemma amp_write_fields k data v :
  0 <= k < 3 ->
  (Z.land data 0x10 <> 0 ->
     voice_field k (EnvMask3Voices (amp_write k data v)) = 0x1f /\
     voice_field k (Vol3Voices (amp_write k data v)) = 0) /\
  (Z.land data 0x10 = 0 ->
     voice_field k (EnvMask3Voices (amp_write k data v)) = 0 /\
     voice_field k (Vol3Voices (amp_write k data v))
       = YmVolume4to5 !!! Z.to_nat (Z.land data 0x0f)) /\
  (forall j, 0 <= j < 3 -> j <> k ->
     voice_field j (EnvMask3Voices (amp_write k data v))
       = voice_field j (EnvMask3Voices v) /\
     voice_field j (Vol3Voices (amp_write k data v))
       = voice_field j (Vol3Voices v)).
Proof.
  intros Hk. unfold amp_write.
  destruct (Z.eqb_spec (Z.land data 16) 0) as [E|E]; cbn [negb];
    cbn [EnvMask3Voices Vol3Voices].
  - split; [intros Hc; contradiction|]. split.
    + intros _. split; [now apply field_cleared|].
      rewrite (fixed_mode_index data E).
      apply field_vol_on; [assumption | apply volume_entry_range].
    + intros j Hj Hjk. split; [now apply field_cleared_other|].
      apply field_vol_on_other; try assumption. apply volume_entry_range.
  - split; [intros _; split; [now apply field_env_on | now apply field_cleared]|].
    split; [intros Hc; contradiction|].
    intros j Hj Hjk.
    split; [now apply field_env_on_other | now apply field_cleared_other].
Qed.

Lemma amp_write_exclusive k data v :
  0 <= k < 3 -> voice_exclusive v -> voice_exclusive (amp_write k data v).
Proof.
  intros Hk Hv j Hj.
  destruct (amp_write_fields k data v Hk) as (Hon & Hoff & Hother).
  destruct (Z.eq_dec j k) as [-> | Hjk].
  - destruct (Z.eq_dec (Z.land data 0x10) 0) as [E|E].
    + left. apply (Hoff E).
    + right. apply (Hon E).
  - destruct (Hother j Hj Hjk) as [-> ->]. now apply Hv.
Qed.

Lemma write_exclusive freq r data y :
  regs_ok y -> voice_exclusive (vols y) ->
  voice_exclusive (vols (Sound_WriteReg freq r data y)).
Proof.
  intros Hy Hv.
  destruct (Z.eq_dec r 8) as [-> | H8];
    [ pose proof (write_amp_vols freq 0 data y Hy ltac:(lia)) as E;
      change (8 + 0) with 8 in E; rewrite E;
      apply amp_write_exclusive; [lia | assumption] |].
  destruct (Z.eq_dec r 9) as [-> | H9];
    [ pose proof (write_amp_vols freq 1 data y Hy ltac:(lia)) as E;
      change (8 + 1) with 9 in E; rewrite E;
      apply amp_write_exclusive; [lia | assumption] |].
  destruct (Z.eq_dec r 10) as [-> | H10];
    [ pose proof (write_amp_vols freq 2 data y Hy ltac:(lia)) as E;
      change (8 + 2) with 10 in E; rewrite E;
      apply amp_write_exclusive; [lia | assumption] |].
  now rewrite write_other_vols.
Qed.

Lemma write_regs_exclusive freq ws y :
  regs_ok y -> voice_exclusive (vols y) ->
  regs_ok (write_regs freq ws y) /\
  voice_exclusive (vols (write_regs freq ws y)).
Proof.
  revert y. induction ws as [|[r data] ws IH]; intros y Hy Hv.
  - now split.
  - cbn [write_regs fold_left fst snd]. apply IH.
    + now apply write_regs_ok.
    + now apply write_exclusive.
Qed.

(** C7: from the start-up state, and from every state in which it holds,
    every run of Sound_WriteReg calls leaves each voice with at most one of
    its envelope-mask field and its fixed-volume field nonzero.  A write to
    register 8+k with bit 4 set makes the envelope field of voice k 0x1f
    and its volume field 0; with bit 4 clear it makes the envelope field 0
    and the volume field YmVolume4to5[data & 15]; the fields of the other
    two voices keep their values. *)
Theorem amplitude_write_exclusive (freq : Z) :
  (forall ws, voice_exclusive (vols (write_regs freq ws ym_zero))) /\
  (forall ws y, regs_ok y -> voice_exclusive (vols y) ->
     voice_exclusive (vols (write_regs freq ws y))) /\
  (forall y k data, regs_ok y -> 0 <= k < 3 ->
     (Z.land data 0x10 <> 0 ->
        voice_field k (EnvMask3Voices (vols (Sound_WriteReg freq (8 + k) data y)))
          = 0x1f /\
        voice_field k (Vol3Voices (vols (Sound_WriteReg freq (8 + k) data y)))
          = 0) /\
     (Z.land data 0x10 = 0 ->
        voice_field k (EnvMask3Voices (vols (Sound_WriteReg freq (8 + k) data y)))
          = 0 /\
        voice_field k (Vol3Voices (vols (Sound_WriteReg freq (8 + k) data y)))
          = YmVolume4to5 !!! Z.to_nat (Z.land data 0x0f)) /\
     (forall j, 0 <= j < 3 -> j <> k ->
        voice_field j (EnvMask3Voices (vols (Sound_WriteReg freq (8 + k) data y)))
          = voice_field j (EnvMask3Voices (vols y)) /\
        voice_field j (Vol3Voices (vols (Sound_WriteReg freq (8 + k) data y)))
          = voice_field j (Vol3Voices (vols y)))).
Proof.
  split; [|split].
  - intros ws. apply write_regs_exclusive; [reflexivity|].
    intros k _. left. unfold voice_field, ym_zero.
    cbn [vols EnvMask3Voices]. now rewrite Z.shiftr_0_l.
  - intros ws y Hy Hv. now apply write_regs_exclusive.
  - intros y k data Hy Hk. rewrite (write_amp_vols freq k data y Hy Hk).
    now apply amp_write_fields.
Qed.

Lemma amplitude_write_exclusive_witness :
  regs_ok ym_zero /\ 0 <= 1 < 3 /\ Z.land 0x1c 0x10 <> 0 /\
  voice_field 1 (EnvMask3Voices (vols (Sound_WriteReg 44100 (8 + 1) 0x1c ym_zero)))
    = 0x1f.
Proof.
  assert (Hy : regs_ok ym_zero) by reflexivity.
  assert (Hk : 0 <= 1 < 3) by lia.
  assert (Hd : Z.land 0x1c 0x10 <> 0) by (vm_compute; discriminate).
  repeat (split; [assumption|]).
  destruct (amplitude_write_exclusive 44100) as (_ & _ & H).
  destruct (H ym_zero 1 0x1c Hy Hk) as (Hon & _ & _).
  exact (proj1 (Hon Hd)).
Defined.

(** ** Index into the D/A table *)

Lemma fits15_range w : fits15 w -> 0 <= w < 32 * 32 * 32.
Proof.
  unfold fits15. intros <-. change (32 * 32 * 32) with (2^15).
  apply land_low_bits. lia.
Qed.

Lemma Tone3Voices_fits15 y : fits15 (Tone3Voices y).
Proof.
  unfold fits15, Tone3Voices. cbv zeta.
  set (a := voice_bt (posA _) _ _ _).
  set (b := voice_bt (posB _) _ _ _).
  set (c := voice_bt (posC _) _ _ _).
  set (e := env_lookup _). set (m := EnvMask3Voices _). set (v := Vol3Voices _).
  rewrite !u16_land. unfold YM_MASK_1VOICE. change 0x1f with (Z.ones 5).
  Z.bitblast.
Qed.

Lemma voice_bits_range bt : 0 <= Z.land bt YM_MASK_1VOICE <= 31.
Proof.
  pose proof (land_low_bits bt 5 ltac:(lia)) as H.
  change (Z.ones 5) with 31 in H. change (2^5) with 32 in H.
  unfold YM_MASK_1VOICE. lia.
Qed.

Lemma Forall_of_forallb {A} (f : A -> bool) (P : A -> Prop) (l : list A) :
  (forall x, f x = true -> P x) -> forallb f l = true -> Forall P l.
Proof.
  intros HfP. induction l as [|x l IH]; cbn [forallb]; intros H.
  - constructor.
  - apply andb_true_iff in H as [Hx Hl]. constructor; auto.
Qed.

Lemma YmEnvWaves_shape :
  length YmEnvWaves = 16%nat /\
  Forall (fun row => length row = 96%nat /\
                     Forall (fun v => 0 <= v < 32 * 32 * 32) row) YmEnvWaves.
Proof.
  split; [reflexivity|].
  apply (Forall_of_forallb
           (fun row => Nat.eqb (length row) 96
                       && forallb (fun v => (0 <=? v) && (v <? 32 * 32 * 32)) row)).
  - intros row H. apply andb_true_iff in H as [Hl Hr]. split.
    + now apply Nat.eqb_eq.
    + revert Hr. apply Forall_of_forallb. intros v Hv.
      apply andb_true_iff in Hv as [H0 H1]. lia.
  - now vm_compute.
Qed.

Lemma amp_write_fits15 k data v :
  0 <= k < 3 -> fits15 (EnvMask3Voices v) -> fits15 (Vol3Voices v) ->
  fits15 (EnvMask3Voices (amp_write k data v)) /\
  fits15 (Vol3Voices (amp_write k data v)).
Proof.
  unfold fits15. intros Hk He Hv.
  pose proof (volume_entry_range (Z.to_nat (Z.land data 0x1f))) as Ht.
  unfold amp_write.
  set (t := YmVolume4to5 !!! _) in *.
  set (e := EnvMask3Voices v) in *. set (w := Vol3Voices v) in *.
  assert (Et : Z.land t (Z.ones 5) = t)
    by (rewrite Z.land_ones by lia; apply Z.mod_small;
        change (2^5) with 32; lia).
  destruct (negb (Z.land data 16 =? 0)); cbn [EnvMask3Voices Vol3Voices];
    unfold voice_mask; rewrite !u16_land; change 0x1f with (Z.ones 5); split.
  - rewrite <- He. Z.bitblast.
  - rewrite <- Hv. Z.bitblast.
  - rewrite <- He. Z.bitblast.
  - rewrite <- Hv, <- Et. Z.bitblast.
Qed.

Lemma write_fits15 freq r data y :
  regs_ok y -> fits15 (EnvMask3Voices (vols y)) -> fits15 (Vol3Voices (vols y)) ->
  fits15 (EnvMask3Voices (vols (Sound_WriteReg freq r data y))) /\
  fits15 (Vol3Voices (vols (Sound_WriteReg freq r data y))).
Proof.
  intros Hy He Hv.
  destruct (Z.eq_dec r 8) as [-> | H8];
    [ pose proof (write_amp_vols freq 0 data y Hy ltac:(lia)) as E;
      change (8 + 0) with 8 in E; rewrite E;
      apply amp_write_fits15; [lia | assumption | assumption] |].
  destruct (Z.eq_dec r 9) as [-> | H9];
    [ pose proof (write_amp_vols freq 1 data y Hy ltac:(lia)) as E;
      change (8 + 1) with 9 in E; rewrite E;
      apply amp_write_fits15; [lia | assumption | assumption] |].
  destruct (Z.eq_dec r 10) as [-> | H10];
    [ pose proof (write_amp_vols freq 2 data y Hy ltac:(lia)) as E;
      change (8 + 2) with 10 in E; rewrite E;
      apply amp_write_fits15; [lia | assumption | assumption] |].
  rewrite write_other_vols by assumption. now split.
Qed.

Lemma write_regs_fits15 freq ws y :
  regs_ok y -> fits15 (EnvMask3Voices (vols y)) -> fits15 (Vol3Voices (vols y)) ->
  fits15 (EnvMask3Voices (vols (write_regs freq ws y))) /\
  fits15 (Vol3Voices (vols (write_regs freq ws y))).
Proof.
  revert y. induction ws as [|[r data] ws IH]; intros y Hy He Hv.
  - now split.
  - cbn [write_regs fold_left fst snd].
    destruct (write_fits15 freq r data y Hy He Hv) as [He' Hv'].
    apply IH; [now apply write_regs_ok | assumption | assumption].
Qed.

Lemma next_sample_unfiltered ymout5 y :
  UseLowPassFilter y = false ->
  fst (YM2149_NextSample ymout5 y)
  = ymout5 (Tone3Voices (set_noise (noise_tick (noise y)) y)).
Proof.
  intros Hf. unfold YM2149_NextSample. cbv zeta.
  cbn [UseLowPassFilter set_env set_noise set_tone].
  rewrite Hf. reflexivity.
Qed.

(** C10: the value of Tone3Voices that indexes ymout5 is at least 0 and
    below 32*32*32 in every state, so the sample returned without the
    low-pass filter is an entry of the table; the words it is made from
    stay inside the three 5-bit fields: each voice contributes 0..31, every
    YmEnvWaves entry is below 32*32*32, and so are EnvMask3Voices and
    Vol3Voices after every run of register writes from start-up. *)
Theorem dac_index_in_bounds :
  (forall y, 0 <= Tone3Voices y < 32 * 32 * 32) /\
  (forall ymout5 y, UseLowPassFilter y = false ->
     exists i, 0 <= i < 32 * 32 * 32 /\ fst (YM2149_NextSample ymout5 y) = ymout5 i) /\
  (forall bt, 0 <= Z.land bt YM_MASK_1VOICE <= 31) /\
  Forall (Forall (fun v => 0 <= v < 32 * 32 * 32)) YmEnvWaves /\
  (forall freq ws,
     0 <= EnvMask3Voices (vols (write_regs freq ws ym_zero)) < 32 * 32 * 32 /\
     0 <= Vol3Voices (vols (write_regs freq ws ym_zero)) < 32 * 32 * 32).
Proof.
  repeat apply conj.
  - intros y. apply fits15_range, Tone3Voices_fits15.
  - intros ymout5 y Hf. eexists. split; [|now apply next_sample_unfiltered].
    apply fits15_range, Tone3Voices_fits15.
  - apply voice_bits_range.
  - eapply Forall_impl; [apply (proj2 YmEnvWaves_shape)|].
    intros row [_ H]. exact H.
  - intros freq ws.
    destruct (write_regs_fits15 freq ws ym_zero) as [He Hv];
      try reflexivity.
    split; now apply fits15_range.
Qed.

Lemma dac_index_in_bounds_witness :
  UseLowPassFilter ym_zero = false /\
  exists i, 0 <= i < 32 * 32 * 32 /\
            fst (YM2149_NextSample (fun i => i) ym_zero) = i.
Proof.
  split; [reflexivity|].
  exact (proj1 (proj2 dac_index_in_bounds) (fun i => i) ym_zero eq_refl).
Defined.

(** ** Envelope position *)

Lemma env_step_range freq rHigh rLow :
  7813 <= freq < 2^29 -> is_byte rHigh -> is_byte rLow ->
  0 <= Ym2149_EnvStepCompute freq rHigh rLow < Z.shiftl (2 * 32) 24.
Proof.
  intros Hf Hh Hl. change (2^29) with 536870912 in Hf.
  change (Z.shiftl (2 * 32) 24) with 1073741824.
  assert (Hc : env_clock = 33554432000000) by reflexivity.
  unfold is_byte in *.
  destruct (Z.eq_dec (rHigh * 256 + rLow) 0) as [E|E].
  - assert (rHigh = 0 /\ rLow = 0) as [-> ->] by lia.
    rewrite env_step_period0 by (change (2^29) with 536870912; lia).
    assert (H0 : 0 <= env_clock / (4 * freq) < 1073741824).
    { split; [apply Z.div_pos; lia|].
      apply Z.div_lt_upper_bound; [lia|]. rewrite Hc. lia. }
    rewrite u32_small by (change (2^32) with 4294967296; lia). exact H0.
  - rewrite env_step_period by (unfold is_byte; lia).
    set (p := rHigh * 256 + rLow) in *.
    assert (Hp : 8 * 1 * 7813 <= 8 * p * freq)
      by (apply Z.mul_le_mono_nonneg; lia).
    assert (H0 : 0 <= env_clock / (8 * p * freq) < 1073741824).
    { split; [apply Z.div_pos; lia|].
      apply Z.div_lt_upper_bound; [lia|]. rewrite Hc. lia. }
    rewrite u32_small by (change (2^32) with 4294967296; lia). exact H0.
Qed.

Lemma shiftr24_bounds p lo hi :
  lo * 16777216 <= p < (hi + 1) * 16777216 -> lo <= Z.shiftr p 24 <= hi.
Proof.
  intros H. rewrite Z.shiftr_div_pow2 by lia. change (2^24) with 16777216.
  split.
  - apply Z.div_le_lower_bound; lia.
  - assert (p / 16777216 < hi + 1) by (apply Z.div_lt_upper_bound; lia). lia.
Qed.

Lemma shiftr24_lower p lo : lo <= Z.shiftr p 24 -> lo * 16777216 <= p.
Proof.
  rewrite Z.shiftr_div_pow2 by lia. change (2^24) with 16777216. intros H.
  pose proof (Z.mul_div_le p 16777216 ltac:(lia)). lia.
Qed.

Lemma env_advance_spec e :
  env_pos_ok e -> env_step_ok e ->
  envStep (env_advance e) = envStep e /\
  envShape (env_advance e) = envShape e /\
  env_pos_ok (env_advance e) /\
  (Z.shiftl (3 * 32) 24 <= envPos e + envStep e ->
     envPos (env_advance e) = envPos e + envStep e - Z.shiftl (2 * 32) 24 /\
     32 <= env_index (env_advance e) <= 95) /\
  (envPos e + envStep e < Z.shiftl (3 * 32) 24 ->
     envPos (env_advance e) = envPos e + envStep e) /\
  (32 <= env_index e -> 32 <= env_index (env_advance e) <= 95).
Proof.
  unfold env_pos_ok, env_step_ok, env_index, env_advance.
  change (Z.shiftl (3 * 32) 24) with 1610612736.
  change (Z.shiftl (2 * 32) 24) with 1073741824.
  intros Hp Hs. cbn [envStep envShape envPos].
  rewrite (u32_small (envPos e + envStep e))
    by (change (2^32) with 4294967296; lia).
  destruct (Z.leb_spec 1610612736 (envPos e + envStep e)) as [Hw|Hw].
  - rewrite u32_small by (change (2^32) with 4294967296; lia).
    assert (Hi : 32 <= Z.shiftr (envPos e + envStep e - 1073741824) 24 <= 95)
      by (apply shiftr24_bounds; lia).
    split; [reflexivity|]. split; [reflexivity|]. split; [lia|].
    split; [intros _; split; [reflexivity | exact Hi]|].
    split; [intros Hc; lia|]. intros _. exact Hi.
  - split; [reflexivity|]. split; [reflexivity|]. split; [lia|].
    split; [intros Hc; lia|]. split; [intros _; reflexivity|].
    intros H32. apply shiftr24_lower in H32. apply shiftr24_bounds. lia.
Qed.

Lemma next_sample_env ymout5 y :
  env (snd (YM2149_NextSample ymout5 y)) = env_advance (env y).
Proof.
  unfold YM2149_NextSample. cbv zeta.
  destruct (UseLowPassFilter _); [|reflexivity].
  destruct (LowPassFilter _ _). reflexivity.
Qed.

Lemma next_samples_env ymout5 n y :
  env (snd (next_samples ymout5 n y)) = Nat.iter n env_advance (env y).
Proof.
  revert y. induction n as [|n IH]; intros y; [reflexivity|].
  cbn [next_samples].
  pose proof (next_sample_env ymout5 y) as E.
  destruct (YM2149_NextSample ymout5 y) as [s y1]. cbn [snd] in E.
  specialize (IH y1).
  destruct (next_samples ymout5 n y1) as [l y2]. cbn [snd] in *.
  rewrite IH, E. symmetry. apply Nat.iter_succ_r.
Qed.

Lemma env_iter_spec n e :
  env_pos_ok e -> env_step_ok e ->
  env_pos_ok (Nat.iter n env_advance e) /\
  env_step_ok (Nat.iter n env_advance e) /\
  (32 <= env_index e -> 32 <= env_index (Nat.iter n env_advance e) <= 95).
Proof.
  intros Hp Hs. induction n as [|n (IHp & IHs & IH32)].
  - change (Nat.iter 0 env_advance e) with e.
    split; [assumption|]. split; [assumption|]. intros H32.
    split; [assumption|]. unfold env_index, env_pos_ok in *.
    change (Z.shiftl (3 * 32) 24) with (96 * 16777216) in Hp.
    apply (shiftr24_bounds _ 0 95). lia.
  - change (Nat.iter (S n) env_advance e)
      with (env_advance (Nat.iter n env_advance e)).
    destruct (env_advance_spec _ IHp IHs) as (Es & _ & Hp' & _ & _ & H32).
    split; [exact Hp'|]. split.
    + unfold env_step_ok in *. rewrite Es. exact IHs.
    + intros H. apply H32. now apply IH32.
Qed.

(** C5: for a replay frequency from 7813 Hz up to 2^29 Hz every step that
    Ym2149_EnvStepCompute returns is below two blocks of phase.  With such
    a step, a call of YM2149_NextSample that takes envPos to the end of
    the third block or beyond subtracts exactly (2*32)<<24, which leaves
    the integer position in 32..95; over any number of calls the position
    stays in 0..95, and once it is at or above 32 it stays in 32..95,
    whatever the envelope shape. *)
Theorem envelope_wrap_skips_attack
    (freq rHigh rLow : Z) (ymout5 : Z -> Z) (y : ym2149) :
  7813 <= freq < 2^29 -> is_byte rHigh -> is_byte rLow ->
  envStep (env y) = Ym2149_EnvStepCompute freq rHigh rLow ->
  0 <= envPos (env y) < Z.shiftl (3 * 32) 24 ->
  (Z.shiftl (3 * 32) 24 <= envPos (env y) + envStep (env y) ->
     envPos (env (snd (YM2149_NextSample ymout5 y)))
       = envPos (env y) + envStep (env y) - Z.shiftl (2 * 32) 24 /\
     32 <= env_index (env (snd (YM2149_NextSample ymout5 y))) <= 95) /\
  (forall n : nat,
     0 <= env_index (env (snd (next_samples ymout5 n y))) <= 95 /\
     (32 <= env_index (env y) ->
      32 <= env_index (env (snd (next_samples ymout5 n y))) <= 95)).
Proof.
  intros Hf Hh Hl Hstep Hpos.
  assert (Hs : env_step_ok (env y)).
  { unfold env_step_ok. rewrite Hstep. now apply env_step_range. }
  assert (Hp : env_pos_ok (env y)) by exact Hpos.
  split.
  - intros Hw. rewrite next_sample_env.
    destruct (env_advance_spec _ Hp Hs) as (_ & _ & _ & Hwrap & _).
    now apply Hwrap.
  - intros n. rewrite next_samples_env.
    destruct (env_iter_spec n _ Hp Hs) as (Hpn & _ & H32).
    split; [|exact H32].
    unfold env_pos_ok, env_index in *.
    change (Z.shiftl (3 * 32) 24) with (96 * 16777216) in Hpn.
    apply (shiftr24_bounds _ 0 95). lia.
Qed.

Lemma envelope_wrap_skips_attack_witness :
  7813 <= 44100 < 2^29 /\
  Z.shiftl (3 * 32) 24
    <= envPos (env (set_env (mkEnv 190217868 1593835520 10) ym_zero))
       + envStep (env (set_env (mkEnv 190217868 1593835520 10) ym_zero)) /\
  32 <= env_index (env (snd (YM2149_NextSample (fun i => i)
                               (set_env (mkEnv 190217868 1593835520 10) ym_zero))))
     <= 95.
Proof.
  assert (Hf : 7813 <= 44100 < 2^29) by (change (2^29) with 536870912; lia).
  assert (Hw : Z.shiftl (3 * 32) 24
    <= envPos (env (set_env (mkEnv 190217868 1593835520 10) ym_zero))
       + envStep (env (set_env (mkEnv 190217868 1593835520 10) ym_zero)))
    by (vm_compute; discriminate).
  split; [exact Hf|]. split; [exact Hw|].
  refine (proj2 (proj1 (envelope_wrap_skips_attack 44100 0 0 (fun i => i)
            (set_env (mkEnv 190217868 1593835520 10) ym_zero)
            Hf _ _ _ _) Hw)).
  - unfold is_byte; lia.
  - unfold is_byte; lia.
  - vm_compute; reflexivity.
  - vm_compute. split; [discriminate | reflexivity].
Defined.

(** ** Frame scheduler *)

Lemma s32_wrap z :
  exists k, s32 z = z + k * 2^32 /\ - 2^31 <= s32 z < 2^31.
Proof.
  unfold s32. exists (- ((z + 2^31) / 2^32)).
  pose proof (Z.div_mod (z + 2^31) (2^32) ltac:(lia)) as Hd.
  pose proof (Z.mod_pos_bound (z + 2^31) (2^32) ltac:(lia)) as Hb.
  change (2^31) with 2147483648 in *. change (2^32) with 4294967296 in *.
  lia.
Qed.

Section SchedulerFacts.

Variables (freq refresh cpf MIX : Z).

Local Abbreviation SPF := (SAMPLES_PER_FRAME freq refresh).
Local Abbreviation SSP := (Sound_SetSamplesPassed freq refresh cpf MIX).

Lemma frame_samples_min c :
  0 < SPF -> 0 < cpf -> 0 <= c -> c * SPF < 2^31 ->
  frame_samples freq refresh cpf c = Z.min (c * SPF / cpf) SPF.
Proof.
  intros HS HC Hc Hov. unfold frame_samples. cbv zeta.
  rewrite s32_small by (change (2^31) with 2147483648 in *; nia).
  rewrite Z.quot_div_nonneg by nia.
  destruct (Z.ltb_spec SPF (c * SPF / cpf)); lia.
Qed.

Lemma frame_samples_range c :
  0 < SPF -> 0 < cpf -> 0 <= c -> c * SPF < 2^31 ->
  0 <= frame_samples freq refresh cpf c <= SPF /\
  frame_samples freq refresh cpf c * cpf <= c * SPF.
Proof.
  intros HS HC Hc Hov. rewrite frame_samples_min by assumption.
  assert (H0 : 0 <= c * SPF / cpf) by (apply Z.div_pos; nia).
  pose proof (Z.mul_div_le (c * SPF) cpf HC) as Hle.
  split; [lia|].
  apply Z.le_trans with (c * SPF / cpf * cpf); [|lia].
  apply Z.mul_le_mono_nonneg_r; lia.
Qed.

Lemma set_samples_cycles s :
  0 < SPF -> 0 < cpf -> 0 <= nSoundCycles s ->
  nSoundCycles s * SPF < 2^31 -> SPF * cpf < 2^31 ->
  nSoundCycles (SSP s)
  = nSoundCycles s - frame_samples freq refresh cpf (nSoundCycles s) * cpf / SPF /\
  0 <= nSoundCycles (SSP s).
Proof.
  intros HS HC Hc Hov Hov2.
  destruct (frame_samples_range (nSoundCycles s) HS HC Hc Hov) as [Hn Hle].
  set (n := frame_samples freq refresh cpf (nSoundCycles s)) in *.
  assert (Hnc : 0 <= n * cpf <= SPF * cpf)
    by (split; [nia | apply Z.mul_le_mono_nonneg_r; lia]).
  assert (Hused : 0 <= n * cpf / SPF <= nSoundCycles s).
  { split; [apply Z.div_pos; lia|].
    apply Z.div_le_upper_bound; [lia|]. lia. }
  assert (Hc31 : nSoundCycles s < 2^31) by nia.
  unfold Sound_SetSamplesPassed. cbv zeta. cbn [nSoundCycles]. fold n.
  rewrite (s32_small (n * cpf)) by (change (2^31) with 2147483648 in *; lia).
  rewrite Z.quot_div_nonneg by lia.
  rewrite s32_small by (change (2^31) with 2147483648 in *; lia).
  split; [reflexivity | lia].
Qed.

Lemma set_samples_remainder s :
  0 < SPF -> 0 < cpf -> 0 <= nSoundCycles s ->
  nSoundCycles s * SPF < 2^31 -> SPF * cpf < 2^31 ->
  nSoundCycles s * SPF / cpf <= SPF ->
  nSoundCycles (SSP s) * SPF < cpf + SPF.
Proof.
  intros HS HC Hc Hov Hov2 Hfit.
  destruct (set_samples_cycles s HS HC Hc Hov Hov2) as [-> _].
  rewrite frame_samples_min by assumption. rewrite Z.min_l by assumption.
  set (c := nSoundCycles s) in *. set (n := c * SPF / cpf) in *.
  pose proof (Z.div_mod (c * SPF) cpf ltac:(lia)) as H1. fold n in H1.
  pose proof (Z.mod_pos_bound (c * SPF) cpf HC) as H2.
  pose proof (Z.div_mod (n * cpf) SPF ltac:(lia)) as H3.
  pose proof (Z.mod_pos_bound (n * cpf) SPF HS) as H4.
  nia.
Qed.

Lemma set_samples_count s :
  nSamplesToGenerate (SSP s)
  = (let n := frame_samples freq refresh cpf (nSoundCycles s) in
     let room := s32 (MIX - nGeneratedSamples s) in
     if room <? n then Z.max 0 room else n).
Proof.
  unfold Sound_SetSamplesPassed. cbv zeta. cbn [nSamplesToGenerate].
  destruct (_ <? frame_samples _ _ _ _); [|reflexivity].
  destruct (Z.ltb_spec (s32 (MIX - nGeneratedSamples s)) 0); lia.
Qed.

Lemma set_samples_keeps s :
  nGeneratedSamples (SSP s) = nGeneratedSamples s /\
  ActiveSndBufIdx (SSP s) = ActiveSndBufIdx s /\
  ym (SSP s) = ym s /\ MixBuffer (SSP s) = MixBuffer s.
Proof. repeat split. Qed.

Lemma generated_slots_length s :
  Z.of_nat (length (generated_slots MIX s)) = Z.max 0 (nSamplesToGenerate s).
Proof.
  unfold generated_slots.
  destruct (Z.leb_spec (nSamplesToGenerate s) 0); [cbn; lia|].
  rewrite length_map, length_seq. lia.
Qed.

Lemma set_samples_clamped s :
  0 < MIX < 2^31 -> - 2^31 <= nGeneratedSamples s < 2^31 ->
  nSamplesToGenerate (SSP s) <= Z.max 0 (MIX - nGeneratedSamples s) /\
  (0 < nSamplesToGenerate (SSP s) ->
   nSamplesToGenerate (SSP s) <= MIX - nGeneratedSamples s).
Proof.
  intros HM Hg. rewrite set_samples_count. cbv zeta.
  destruct (s32_wrap (MIX - nGeneratedSamples s)) as (k & Ek & Hr).
  change (2^31) with 2147483648 in *. change (2^32) with 4294967296 in *.
  destruct (Z.ltb_spec (s32 (MIX - nGeneratedSamples s))
                       (frame_samples freq refresh cpf (nSoundCycles s))); lia.
Qed.

End SchedulerFacts.

Lemma generate_samples_counter MIX ymout5 dma s :
  nGeneratedSamples (Sound_GenerateSamples MIX ymout5 dma s)
  = (if nSamplesToGenerate s <=? 0 then nGeneratedSamples s
     else s32 (nGeneratedSamples s + nSamplesToGenerate s)).
Proof.
  unfold Sound_GenerateSamples.
  destruct (nSamplesToGenerate s <=? 0); [reflexivity|].
  destruct (fold_left _ _ _) as [y buf]. reflexivity.
Qed.

(** C3, as the code has it: with no integer overflow, the sample count is
    cycles * samples_per_frame / cycles_per_frame clamped to one frame;
    the cycles of that frame-clamped count (taken before the clamp to the
    room in the ring buffer) are subtracted from the sound cycle counter,
    which never goes negative and, when the frame clamp did not apply,
    keeps a remainder of less than one sample plus one cycle; the count
    left in nSamplesToGenerate is then clamped to the room, and this last
    clamp does not change the counter. *)
Theorem samples_passed_cycle_accounting (freq refresh cpf MIX : Z) (s : sound) :
  0 < SAMPLES_PER_FRAME freq refresh -> 0 < cpf ->
  0 <= nSoundCycles s ->
  nSoundCycles s * SAMPLES_PER_FRAME freq refresh < 2^31 ->
  SAMPLES_PER_FRAME freq refresh * cpf < 2^31 ->
  frame_samples freq refresh cpf (nSoundCycles s)
    = Z.min (nSoundCycles s * SAMPLES_PER_FRAME freq refresh / cpf)
            (SAMPLES_PER_FRAME freq refresh) /\
  nSoundCycles (Sound_SetSamplesPassed freq refresh cpf MIX s)
    = nSoundCycles s
      - frame_samples freq refresh cpf (nSoundCycles s) * cpf
        / SAMPLES_PER_FRAME freq refresh /\
  0 <= nSoundCycles (Sound_SetSamplesPassed freq refresh cpf MIX s) /\
  (nSoundCycles s * SAMPLES_PER_FRAME freq refresh / cpf
     <= SAMPLES_PER_FRAME freq refresh ->
   nSoundCycles (Sound_SetSamplesPassed freq refresh cpf MIX s)
     * SAMPLES_PER_FRAME freq refresh
   < cpf + SAMPLES_PER_FRAME freq refresh) /\
  nSamplesToGenerate (Sound_SetSamplesPassed freq refresh cpf MIX s)
    = (if s32 (MIX - nGeneratedSamples s)
          <? frame_samples freq refresh cpf (nSoundCycles s)
       then Z.max 0 (s32 (MIX - nGeneratedSamples s))
       else frame_samples freq refresh cpf (nSoundCycles s)).
Proof.
  intros HS HC Hc Hov Hov2.
  destruct (set_samples_cycles freq refresh cpf MIX s HS HC Hc Hov Hov2)
    as [Hcy Hnn].
  split; [now apply frame_samples_min|].
  split; [exact Hcy|]. split; [exact Hnn|].
  split; [now apply set_samples_remainder|].
  apply set_samples_count.
Qed.

Lemma samples_passed_cycle_accounting_witness :
  0 < SAMPLES_PER_FRAME 44100 50 /\
  0 <= nSoundCycles
         (Sound_SetSamplesPassed 44100 50 160256 8192
            (mkSound ym_zero [] 0 0 0 100000)).
Proof.
  assert (HS : 0 < SAMPLES_PER_FRAME 44100 50) by (vm_compute; reflexivity).
  split; [exact HS|].
  refine (proj1 (proj2 (proj2 (samples_passed_cycle_accounting
            44100 50 160256 8192 (mkSound ym_zero [] 0 0 0 100000)
            HS _ _ _ _)))).
  - lia.
  - cbn [nSoundCycles]. lia.
  - vm_compute; reflexivity.
  - vm_compute; reflexivity.
Defined.

(** With a whole frame of cycles pending and room for 192 samples only,
    192 samples are generated, yet the cycles of all 882 are taken from
    the counter: it drops to 0, not to 160256 - 192*160256/882. *)
Lemma cycles_follow_frame_count_not_ring_count :
  nSamplesToGenerate
    (Sound_SetSamplesPassed 44100 50 160256 8192
       (mkSound ym_zero [] 8000 0 0 160256)) = 192 /\
  nSoundCycles
    (Sound_SetSamplesPassed 44100 50 160256 8192
       (mkSound ym_zero [] 8000 0 0 160256)) = 0 /\
  160256 - Z.quot (192 * 160256) (SAMPLES_PER_FRAME 44100 50) = 125371 /\
  nSoundCycles
    (Sound_SetSamplesPassed 44100 50 160256 8192
       (mkSound ym_zero [] 8000 0 0 160256))
  <> 160256 - Z.quot (192 * 160256) (SAMPLES_PER_FRAME 44100 50).
Proof. vm_compute. repeat split; discriminate. Qed.

(** C4, as the code has it: whatever the cycle counter holds, the number
    of ring-buffer slots written in one update is never negative and never
    above max(0, MIXBUFFER_SIZE - nGeneratedSamples); nGeneratedSamples
    grows by exactly that number, so it stays at or below MIXBUFFER_SIZE
    when it started there. *)
Theorem ring_buffer_clamp
    (freq refresh cpf MIX : Z) (ymout5 : Z -> Z)
    (dma : Z -> Z -> list (Z * Z) -> list (Z * Z)) (s : sound) :
  0 < MIX < 2^31 -> - 2^31 <= nGeneratedSamples s < 2^31 ->
  0 <= Z.of_nat (length (generated_slots MIX
                           (Sound_SetSamplesPassed freq refresh cpf MIX s)))
    <= Z.max 0 (MIX - nGeneratedSamples s) /\
  nGeneratedSamples (Sound_Update freq refresh cpf MIX ymout5 dma s)
    = nGeneratedSamples s
      + Z.of_nat (length (generated_slots MIX
                            (Sound_SetSamplesPassed freq refresh cpf MIX s))) /\
  (nGeneratedSamples s <= MIX ->
   Z.of_nat (length (generated_slots MIX
                       (Sound_SetSamplesPassed freq refresh cpf MIX s)))
     <= MIX - nGeneratedSamples s /\
   nGeneratedSamples (Sound_Update freq refresh cpf MIX ymout5 dma s) <= MIX).
Proof.
  intros HM Hg.
  destruct (set_samples_clamped freq refresh cpf MIX s HM Hg) as [Hmax Hpos].
  pose proof (generated_slots_length MIX
                (Sound_SetSamplesPassed freq refresh cpf MIX s)) as Hlen.
  assert (Hupd : nGeneratedSamples (Sound_Update freq refresh cpf MIX ymout5 dma s)
                 = nGeneratedSamples s
                   + Z.max 0 (nSamplesToGenerate
                                (Sound_SetSamplesPassed freq refresh cpf MIX s))).
  { unfold Sound_Update. rewrite generate_samples_counter.
    change (nGeneratedSamples (Sound_SetSamplesPassed freq refresh cpf MIX s))
      with (nGeneratedSamples s).
    destruct (Z.leb_spec (nSamplesToGenerate
                (Sound_SetSamplesPassed freq refresh cpf MIX s)) 0) as [H|H];
      [lia|].
    specialize (Hpos H).
    rewrite s32_small by (change (2^31) with 2147483648 in *; lia). lia. }
  rewrite Hlen, Hupd. repeat split; lia.
Qed.

Lemma ring_buffer_clamp_witness :
  0 < 8192 < 2^31 /\
  Z.of_nat (length (generated_slots 8192
                      (Sound_SetSamplesPassed 44100 50 160256 8192
                         (mkSound ym_zero [] 8000 0 0 160256))))
  <= Z.max 0 (8192 - 8000).
Proof.
  assert (HM : 0 < 8192 < 2^31) by (change (2^31) with 2147483648; lia).
  split; [exact HM|].
  refine (proj2 (proj1 (ring_buffer_clamp 44100 50 160256 8192
            (fun i => i) (fun _ _ b => b)
            (mkSound ym_zero [] 8000 0 0 160256) HM _))).
  cbn [nGeneratedSamples]. change (2^31) with 2147483648. lia.
Defined.

(** With nGeneratedSamples one above MIXBUFFER_SIZE the room is -1; no
    sample is written, and 0 is above the room. *)
Lemma no_samples_when_room_negative :
  Z.of_nat (length (generated_slots 8192
                      (Sound_SetSamplesPassed 44100 50 160256 8192
                         (mkSound ym_zero [] 8193 0 0 160256)))) = 0 /\
  8192 - nGeneratedSamples (mkSound ym_zero [] 8193 0 0 160256) = -1 /\
  ~ (Z.of_nat (length (generated_slots 8192
                         (Sound_SetSamplesPassed 44100 50 160256 8192
                            (mkSound ym_zero [] 8193 0 0 160256))))
     <= 8192 - nGeneratedSamples (mkSound ym_zero [] 8193 0 0 160256)).
Proof. vm_compute. repeat split; intros H; apply H; reflexivity. Qed.

(** ** Recording entry point *)

Section RecordingFacts.

Variable recorder : Type.
Variable ext_match : string -> string -> bool.
Variable ym_begin : string -> recorder -> bool * recorder.
Variable wav_open : string -> recorder -> bool * recorder.

Local Abbreviation begin_rec :=
  (Sound_BeginRecording recorder ext_match ym_begin wav_open).

(** C9, as the code has it: Sound_BeginRecording returns FALSE with one
    log line and leaves the emulator and recorder states alone when no name
    is given, when the name has three characters or fewer, and when a
    longer name matches neither .ym nor .wav; for a longer name that
    matches, the result and the recorder state are those of the recorder
    that was called (YMFormat_BeginRecording first, else
    WAVFormat_OpenFile), so a failure there is returned as well; the
    emulator state is unchanged in every case. *)
Theorem begin_recording_outcomes
    (name : option string) (s : sound) (r : recorder) :
  ((name = None \/ exists n, name = Some n /\ (String.length n <= 3)%nat) ->
   begin_rec name s r
   = (false, s, r, [Log_Printf "Illegal sound recording file name!"])) /\
  (forall n, name = Some n -> (3 < String.length n)%nat ->
     (ext_match n ".ym" = false -> ext_match n ".wav" = false ->
      begin_rec name s r
      = (false, s, r, [Log_AlertDlg "Unknown Sound Recording format."])) /\
     (ext_match n ".ym" = true ->
      begin_rec name s r = (fst (ym_begin n r), s, snd (ym_begin n r), [])) /\
     (ext_match n ".ym" = false -> ext_match n ".wav" = true ->
      begin_rec name s r = (fst (wav_open n r), s, snd (wav_open n r), []))) /\
  snd (fst (fst (begin_rec name s r))) = s.
Proof.
  split; [|split].
  - intros [-> | (n & -> & Hn)]; [reflexivity|].
    unfold Sound_BeginRecording.
    destruct (Nat.leb_spec (String.length n) 3); [reflexivity | lia].
  - intros n -> Hn. unfold Sound_BeginRecording.
    destruct (Nat.leb_spec (String.length n) 3) as [H|_]; [lia|].
    split; [|split].
    + intros -> ->. reflexivity.
    + intros ->. now destruct (ym_begin n r).
    + intros -> ->. now destruct (wav_open n r).
  - unfold Sound_BeginRecording. destruct name as [n|]; [|reflexivity].
    destruct (String.length n <=? 3)%nat; [reflexivity|].
    destruct (ext_match n ".ym"); [now destruct (ym_begin n r)|].
    destruct (ext_match n ".wav"); [now destruct (wav_open n r)|].
    reflexivity.
Qed.

End RecordingFacts.

Lemma begin_recording_outcomes_witness :
  (3 < String.length "tune.mp3")%nat /\
  file_ext_match "tune.mp3" ".ym" = false /\
  file_ext_match "tune.mp3" ".wav" = false /\
  Sound_BeginRecording unit file_ext_match
    (fun _ r => (true, r)) (fun _ r => (true, r))
    (Some "tune.mp3"%string) (mkSound ym_zero [] 0 0 0 0) tt
  = (false, mkSound ym_zero [] 0 0 0 0, tt,
     [Log_AlertDlg "Unknown Sound Recording format."]).
Proof.
  assert (Hn : (3 < String.length "tune.mp3")%nat) by (cbn; lia).
  assert (H1 : file_ext_match "tune.mp3" ".ym" = false) by reflexivity.
  assert (H2 : file_ext_match "tune.mp3" ".wav" = false) by reflexivity.
  repeat (split; [assumption|]).
  destruct (begin_recording_outcomes unit file_ext_match
              (fun _ r => (true, r)) (fun _ r => (true, r))
              (Some "tune.mp3"%string) (mkSound ym_zero [] 0 0 0 0) tt)
    as (_ & H & _).
  exact (proj1 (H _ eq_refl Hn) H1 H2).
Defined.

(** The name ".ym" is supplied and matches the .ym extension, and so does
    "song.ym" when the recorder cannot open its file; both calls return
    FALSE. *)
Lemma begin_recording_fails_with_matching_name :
  file_ext_match ".ym" ".ym" = true /\
  fst (fst (fst (Sound_BeginRecording unit file_ext_match
                   (fun _ r => (true, r)) (fun _ r => (true, r))
                   (Some ".ym"%string) (mkSound ym_zero [] 0 0 0 0) tt)))
  = false /\
  file_ext_match "song.ym" ".ym" = true /\
  fst (fst (fst (Sound_BeginRecording unit file_ext_match
                   (fun _ r => (false, r)) (fun _ r => (true, r))
                   (Some "song.ym"%string) (mkSound ym_zero [] 0 0 0 0) tt)))
  = false.
Proof. repeat split. Qed.

(** * Further properties of the code *)

(** ** Register file contents *)

Lemma s16_small z : - 32768 <= z <= 32767 -> s16 z = z.
Proof.
  intros H. unfold s16. change (2^15) with 32768. change (2^16) with 65536.
  rewrite Z.mod_small; lia.
Qed.

Lemma land_byte data : is_byte data -> Z.land data 0xff = data.
Proof.
  unfold is_byte. intros H. change 0xff with (Z.ones 8).
  rewrite Z.land_ones by lia. apply Z.mod_small. change (2^8) with 256. lia.
Qed.

Lemma land_mask_range data m n :
  m = Z.ones n -> 0 <= n -> 0 <= Z.land data m <= m.
Proof.
  intros -> Hn. pose proof (land_low_bits data n Hn) as H.
  rewrite Z.ones_equiv in *. lia.
Qed.

Lemma reg_mask_range r data : 0 <= Z.land data (reg_mask r) <= reg_mask r.
Proof.
  unfold reg_mask.
  destruct r as [|p|p];
    try (apply (land_mask_range data _ 8); [reflexivity | lia]).
  do 4 (try destruct p as [p|p|]);
    first [ apply (land_mask_range data _ 8); [reflexivity | lia]
          | apply (land_mask_range data _ 4); [reflexivity | lia]
          | apply (land_mask_range data _ 5); [reflexivity | lia]
          | apply (land_mask_range data _ 6); [reflexivity | lia] ].
Qed.

Lemma write_reg_array freq r data y :
  is_byte data -> 0 <= r <= 13 ->
  SoundRegs (Sound_WriteReg freq r data y)
  = <[Z.to_nat r := Z.land data (reg_mask r)]> (SoundRegs y).
Proof.
  intros Hd Hr.
  assert (Hc : r = 0 \/ r = 1 \/ r = 2 \/ r = 3 \/ r = 4 \/ r = 5 \/ r = 6 \/
               r = 7 \/ r = 8 \/ r = 9 \/ r = 10 \/ r = 11 \/ r = 12 \/ r = 13)
    by lia.
  repeat (destruct Hc as [-> | Hc]); try subst r;
    unfold Sound_WriteReg, reg_mask; cbv zeta;
    rewrite ?(land_byte data Hd);
    repeat match goal with |- context [if ?c then _ else _] => destruct c end;
    reflexivity.
Qed.

Lemma write_reg_lookup (freq r data : Z) (y : ym2149) :
  regs_ok y -> is_byte data -> 0 <= r <= 13 ->
  reg (Sound_WriteReg freq r data y) (Z.to_nat r) = Z.land data (reg_mask r) /\
  0 <= reg (Sound_WriteReg freq r data y) (Z.to_nat r) <= reg_mask r /\
  (forall i : nat, i <> Z.to_nat r ->
     reg (Sound_WriteReg freq r data y) i = reg y i).
Proof.
  intros Hy Hd Hr. unfold reg. rewrite write_reg_array by assumption.
  unfold regs_ok in Hy.
  rewrite list_lookup_total_insert_eq by lia.
  split; [reflexivity|]. split; [apply reg_mask_range|].
  intros i Hi. now rewrite list_lookup_total_insert_ne by congruence.
Qed.

(** X1: a write of a byte to register r in 0..13 stores data masked to the
    register's width (4 bits for the coarse tone and shape registers, 5 for
    noise and amplitude, 6 for the mixer, 8 otherwise) in SoundRegs[r] and
    leaves the thirteen other entries as they were. *)
Theorem write_reg_stores_masked (freq r data : Z) (y : ym2149) :
  regs_ok y -> is_byte data -> 0 <= r <= 13 ->
  reg (Sound_WriteReg freq r data y) (Z.to_nat r) = Z.land data (reg_mask r) /\
  0 <= reg (Sound_WriteReg freq r data y) (Z.to_nat r) <= reg_mask r /\
  (forall i : nat, i <> Z.to_nat r ->
     reg (Sound_WriteReg freq r data y) i = reg y i).
Proof. intros; now apply write_reg_lookup. Qed.

Lemma write_reg_stores_masked_witness :
  regs_ok ym_zero /\ is_byte 0xff /\
  reg (Sound_WriteReg 44100 6 0xff ym_zero) (Z.to_nat 6) = 0x1f.
Proof.
  assert (Hy : regs_ok ym_zero) by reflexivity.
  assert (Hd : is_byte 0xff) by (unfold is_byte; lia).
  split; [exact Hy|]. split; [exact Hd|].
  exact (proj1 (write_reg_stores_masked 44100 6 0xff ym_zero Hy Hd ltac:(lia))).
Defined.

Lemma write_reg_out_of_range (freq r data : Z) (y : ym2149) :
  r < 0 \/ 13 < r -> Sound_WriteReg freq r data y = y.
Proof.
  intros Hr. destruct r as [|p|p]; [lia | | reflexivity].
  do 4 (try destruct p as [p|p|]); try reflexivity; lia.
Qed.

(** X2: a register number outside 0..13 falls through the switch of
    Sound_WriteReg: the whole state is returned unchanged. *)
Theorem write_reg_ignores_unknown_register (freq r data : Z) (y : ym2149) :
  r < 0 \/ 13 < r -> Sound_WriteReg freq r data y = y.
Proof. apply write_reg_out_of_range. Qed.

Lemma write_reg_ignores_unknown_register_witness :
  Sound_WriteReg 44100 14 0xff ym_zero = ym_zero /\
  Sound_WriteReg 44100 (-1) 0xff ym_zero = ym_zero.
Proof.
  split; apply write_reg_ignores_unknown_register; lia.
Defined.

Lemma write_regs_in_width freq r data y :
  is_byte data -> regs_in_width y ->
  regs_in_width (Sound_WriteReg freq r data y).
Proof.
  intros Hd [Hy Hw].
  destruct (Z_le_dec 0 r) as [H0|H0];
    [|rewrite write_reg_out_of_range by lia; now split].
  destruct (Z_le_dec r 13) as [H13|H13];
    [|rewrite write_reg_out_of_range by lia; now split].
  split; [now apply write_regs_ok|].
  intros q Hq.
  destruct (write_reg_lookup freq r data y Hy Hd ltac:(lia))
    as (_ & Hsame & Hother).
  destruct (Z.eq_dec q r) as [-> | Hne]; [exact Hsame|].
  rewrite Hother by lia. now apply Hw.
Qed.

(** X3: starting from the zeroed start-up state, after any run of
    Sound_WriteReg calls with byte data the register array still has 14
    entries and every register r holds a value between 0 and the mask of
    its width. *)
Theorem register_file_stays_in_width (freq : Z) (ws : list (Z * Z)) :
  Forall (fun w => is_byte (snd w)) ws ->
  regs_in_width (write_regs freq ws ym_zero).
Proof.
  assert (H0 : regs_in_width ym_zero).
  { split; [reflexivity|]. intros r Hr.
    assert (Hc : r = 0 \/ r = 1 \/ r = 2 \/ r = 3 \/ r = 4 \/ r = 5 \/ r = 6 \/
                 r = 7 \/ r = 8 \/ r = 9 \/ r = 10 \/ r = 11 \/ r = 12 \/ r = 13)
      by lia.
    repeat (destruct Hc as [-> | Hc]); try subst r; vm_compute;
      split; discriminate. }
  revert H0. generalize ym_zero.
  induction ws as [|[r data] ws IH]; intros y Hy Hws; [exact Hy|].
  cbn [write_regs fold_left fst snd].
  apply Forall_cons in Hws as [Hd Hws].
  apply IH; [|exact Hws]. now apply write_regs_in_width.
Qed.

Lemma register_file_stays_in_width_witness :
  regs_in_width (write_regs 44100 [(7, 0xff); (1, 0xff)] ym_zero).
Proof.
  apply register_file_stays_in_width.
  repeat (apply Forall_cons; split; [unfold is_byte; cbn; lia|]).
  apply Forall_nil. exact I.
Defined.

(** ** Envelope shape register *)

(** X4: a write to register 13 sets envPos to 0 whatever it was, selects
    shape data & 15 (a row of YmEnvWaves), raises bEnvelopeFreqFlag and
    keeps envStep; the next sample then reads entry 0 of that row. *)
Theorem shape_write_restarts_envelope (freq data : Z) (y : ym2149) :
  regs_ok y ->
  envPos (env (Sound_WriteReg freq 13 data y)) = 0 /\
  envShape (env (Sound_WriteReg freq 13 data y)) = Z.land data 0xf /\
  0 <= envShape (env (Sound_WriteReg freq 13 data y)) <= 15 /\
  envStep (env (Sound_WriteReg freq 13 data y)) = envStep (env y) /\
  bEnvelopeFreqFlag (Sound_WriteReg freq 13 data y) = true /\
  env_lookup (env (Sound_WriteReg freq 13 data y))
  = (YmEnvWaves !!! Z.to_nat (Z.land data 0xf)) !!! 0%nat.
Proof.
  intros Hy. unfold regs_ok in Hy.
  unfold Sound_WriteReg. cbv zeta.
  rewrite reg_store_same by lia.
  cbn [env set_flag set_env envPos envShape envStep bEnvelopeFreqFlag store_reg
       set_regs].
  pose proof (land_mask_range data 0xf 4 eq_refl ltac:(lia)) as Hr.
  repeat split; try reflexivity; lia.
Qed.

Lemma shape_write_restarts_envelope_witness :
  regs_ok ym_zero /\
  envPos (env (Sound_WriteReg 44100 13 0xfa
                 (set_env (mkEnv 5 77 3) ym_zero))) = 0.
Proof.
  split; [reflexivity|].
  exact (proj1 (shape_write_restarts_envelope 44100 0xfa
                  (set_env (mkEnv 5 77 3) ym_zero) eq_refl)).
Defined.

(** ** Mixer *)

Lemma sign_word pos :
  0 <= pos < 2^32 ->
  u32 (Z.shiftr (s32 pos) 31) = if 2^31 <=? pos then 0xffffffff else 0.
Proof.
  intros Hp. change (2^32) with 4294967296 in Hp.
  destruct (Z.leb_spec (2^31) pos) as [H|H]; change (2^31) with 2147483648 in H.
  - assert (E : s32 pos = pos - 4294967296).
    { unfold s32. change (2^31) with 2147483648. change (2^32) with 4294967296.
      replace (pos + 2147483648) with (pos - 2147483648 + 1 * 4294967296) by lia.
      rewrite Z_mod_plus_full, Z.mod_small; lia. }
    rewrite E, Z.shiftr_div_pow2 by lia. change (2^31) with 2147483648.
    assert (Eq : (pos - 4294967296) / 2147483648 = -1)
      by (symmetry; apply Z.div_unique with (pos - 2147483648); lia).
    rewrite Eq. reflexivity.
  - rewrite s32_small by (change (2^31) with 2147483648; lia).
    rewrite Z.shiftr_div_pow2 by lia. change (2^31) with 2147483648.
    rewrite Z.div_small by lia. reflexivity.
Qed.

Lemma voice_bit_boolean pos mT mN bn :
  0 <= pos < 2^32 -> gate_word mT -> gate_word mN -> gate_word bn ->
  Z.land (voice_bt pos mT mN bn) YM_MASK_1VOICE
  = if ((2^31 <=? pos) || negb (mT =? 0)) && (negb (bn =? 0) || negb (mN =? 0))
    then 0x1f else 0.
Proof.
  intros Hp HT HN Hb. unfold voice_bt. rewrite (sign_word pos Hp).
  destruct (2^31 <=? pos);
    destruct HT as [-> | ->], HN as [-> | ->], Hb as [-> | ->];
    reflexivity.
Qed.

(** X5: the branch-free mixing of YM2149_NextSample is the boolean mixer:
    when the gate words and currentNoise are 0 or 0xffff and the tone
    positions are 32-bit values, the 5-bit field of voice k in Tone3Voices
    is the field of (envelope volume masked by EnvMask3Voices) | Vol3Voices
    if (square wave high or tone disabled) and (noise high or noise
    disabled), and 0 otherwise. *)
Theorem mixing_is_boolean (y : ym2149) (k : Z) :
  0 <= k < 3 -> mixer_ok (mixer y) -> gate_word (currentNoise (noise y)) ->
  (forall j, 0 <= j < 3 -> 0 <= voice_pos j (tone y) < 2^32) ->
  voice_field k (Tone3Voices y)
  = if voice_on k y
    then voice_field k (Z.lor (Z.land (env_lookup (env y))
                                      (EnvMask3Voices (vols y)))
                              (Vol3Voices (vols y)))
    else 0.
Proof.
  intros Hk Hm Hn Hpos.
  destruct (Hm 0 ltac:(lia)) as [HTA HNA].
  destruct (Hm 1 ltac:(lia)) as [HTB HNB].
  destruct (Hm 2 ltac:(lia)) as [HTC HNC].
  pose proof (Hpos 0 ltac:(lia)) as HpA.
  pose proof (Hpos 1 ltac:(lia)) as HpB.
  pose proof (Hpos 2 ltac:(lia)) as HpC.
  cbn [voice_gateT voice_gateN voice_pos] in *.
  unfold Tone3Voices. cbv zeta.
  rewrite !voice_bit_boolean by assumption.
  assert (Hc : k = 0 \/ k = 1 \/ k = 2) by lia.
  set (E := env_lookup (env y)). set (M := EnvMask3Voices (vols y)).
  set (V := Vol3Voices (vols y)).
  destruct Hc as [-> | [-> | ->]]; unfold voice_on;
    cbn [voice_gateT voice_gateN voice_pos];
    set (bA := ((2^31 <=? posA (tone y)) || _) && _);
    set (bB := ((2^31 <=? posB (tone y)) || _) && _);
    set (bC := ((2^31 <=? posC (tone y)) || _) && _);
    clearbody bA bB bC; clear;
    unfold voice_field; rewrite !u16_land;
    destruct bA, bB, bC;
    change 31 with (Z.ones 5); Z.bitblast.
Qed.

Lemma mixing_is_boolean_witness :
  mixer_ok (mixer (write_regs 44100 [(7, 0x3f); (8, 0x0f)] ym_zero)) /\
  voice_field 0 (Tone3Voices (write_regs 44100 [(7, 0x3f); (8, 0x0f)] ym_zero))
  = 0x1f.
Proof.
  assert (Hm : mixer_ok (mixer (write_regs 44100 [(7, 0x3f); (8, 0x0f)] ym_zero))).
  { intros k Hk. assert (Hc : k = 0 \/ k = 1 \/ k = 2) by lia.
    destruct Hc as [-> | [-> | ->]]; split; right; reflexivity. }
  split; [exact Hm|].
  rewrite (mixing_is_boolean _ 0 ltac:(lia) Hm).
  - reflexivity.
  - left. reflexivity.
  - intros j Hj. assert (Hc : j = 0 \/ j = 1 \/ j = 2) by lia.
    destruct Hc as [-> | [-> | ->]]; vm_compute;
      (split; [discriminate | reflexivity]).
Defined.

(** ** Noise generator *)

Lemma low_bit_cases x : Z.land x 1 = 0 \/ Z.land x 1 = 1.
Proof.
  pose proof (land_low_bits x 1 ltac:(lia)) as H.
  change (Z.ones 1) with 1 in H. change (2^1) with 2 in H. lia.
Qed.

Lemma rnd_step R :
  0 <= R < 2^17 ->
  gate_word (fst (YM2149_RndCompute (mkNoise 0 0 0 R))) /\
  forall s p c,
    0 <= RndRack (snd (YM2149_RndCompute (mkNoise s p c R))) < 2^17 /\
    (0 < R -> 0 < RndRack (snd (YM2149_RndCompute (mkNoise s p c R)))) /\
    noiseStep (snd (YM2149_RndCompute (mkNoise s p c R))) = s /\
    noisePos (snd (YM2149_RndCompute (mkNoise s p c R))) = p /\
    currentNoise (snd (YM2149_RndCompute (mkNoise s p c R))) = c /\
    fst (YM2149_RndCompute (mkNoise s p c R))
    = fst (YM2149_RndCompute (mkNoise 0 0 0 R)).
Proof.
  intros HR. unfold YM2149_RndCompute.
  cbn [RndRack noiseStep noisePos currentNoise fst snd].
  set (bit := Z.lxor (Z.land R 1) (Z.land (Z.shiftr R 2) 1)).
  assert (Hbit : bit = 0 \/ bit = 1).
  { unfold bit. destruct (low_bit_cases R) as [-> | ->],
      (low_bit_cases (Z.shiftr R 2)) as [-> | ->]; vm_compute; auto. }
  assert (Hone : R = 1 -> bit = 1) by (intros ->; reflexivity).
  clearbody bit. split.
  - destruct Hbit as [-> | ->]; [right | left]; reflexivity.
  - intros s p c.
    assert (Hhalf : 0 <= Z.shiftr R 1 < 2^16).
    { rewrite Z.shiftr_div_pow2 by lia. change (2^1) with 2.
      change (2^17) with 131072 in HR. change (2^16) with 65536.
      split; [apply Z.div_pos; lia | apply Z.div_lt_upper_bound; lia]. }
    assert (Hdis : Z.land (Z.shiftr R 1) (Z.shiftl bit 16) = 0).
    { destruct Hbit as [-> | ->]; [now rewrite Z.shiftl_0_l, Z.land_0_r|].
      replace (Z.shiftr R 1) with (Z.land (Z.shiftr R 1) (Z.ones 16))
        by (rewrite Z.land_ones by lia; now apply Z.mod_small).
      change 1 with (Z.ones 1) at 2. Z.bitblast. }
    rewrite (Z.or_to_plus _ _ Hdis).
    rewrite Z.shiftl_mul_pow2 by lia.
    change (2^16) with 65536 in *. change (2^17) with 131072 in *.
    rewrite u32_small by (change (2^32) with 4294967296; lia).
    split; [lia|]. split; [|repeat split; reflexivity].
    intros Hpos. destruct (Z.eq_dec R 1) as [E | Hne].
    + rewrite (Hone E). lia.
    + assert (1 <= Z.shiftr R 1); [|lia].
      rewrite Z.shiftr_div_pow2 by lia. change (2^1) with 2.
      apply Z.div_le_lower_bound; lia.
Qed.

(** ** What each register write touches *)

Lemma reg_store_other i j v y : i <> j -> reg (store_reg i v y) j = reg y j.
Proof.
  intros Hij. unfold reg, store_reg, set_regs. cbn [SoundRegs].
  now apply list_lookup_total_insert_ne.
Qed.

Lemma write_frame freq r data y :
  (r <> 7 -> mixer (Sound_WriteReg freq r data y) = mixer y) /\
  (r <> 6 -> noise (Sound_WriteReg freq r data y) = noise y) /\
  (r < 0 \/ 5 < r -> tone (Sound_WriteReg freq r data y) = tone y) /\
  (r < 11 \/ 13 < r -> env (Sound_WriteReg freq r data y) = env y) /\
  filt (Sound_WriteReg freq r data y) = filt y /\
  UseLowPassFilter (Sound_WriteReg freq r data y) = UseLowPassFilter y.
Proof.
  destruct r as [|p|p];
    [ | do 4 (try destruct p as [p|p|]) | ];
    unfold Sound_WriteReg; cbv zeta;
    repeat match goal with |- context [if ?c then _ else _] => destruct c end;
    repeat split; intros; try reflexivity; lia.
Qed.

Lemma write_tone_fine freq k data y :
  regs_ok y -> 0 <= k < 3 ->
  tone (Sound_WriteReg freq (2 * k) data y)
  = tone_set k (Ym2149_ToneStepCompute freq (reg y (Z.to_nat (2 * k + 1))) data)
             (tone y).
Proof.
  intros Hy Hk. unfold regs_ok in Hy.
  assert (Hc : k = 0 \/ k = 1 \/ k = 2) by lia.
  destruct Hc as [-> | [-> | ->]];
    [ change (2 * 0) with 0 | change (2 * 1) with 2 | change (2 * 2) with 4 ];
    unfold Sound_WriteReg; cbv zeta;
    rewrite reg_store_same by lia; rewrite reg_store_other by lia;
    reflexivity.
Qed.

Lemma write_tone_coarse freq k data y :
  regs_ok y -> 0 <= k < 3 ->
  tone (Sound_WriteReg freq (2 * k + 1) data y)
  = tone_set k (Ym2149_ToneStepCompute freq (Z.land data 0x0f)
                                       (reg y (Z.to_nat (2 * k))))
             (tone y).
Proof.
  intros Hy Hk. unfold regs_ok in Hy.
  assert (Hc : k = 0 \/ k = 1 \/ k = 2) by lia.
  destruct Hc as [-> | [-> | ->]];
    [ change (2 * 0 + 1) with 1 | change (2 * 1 + 1) with 3
    | change (2 * 2 + 1) with 5 ];
    unfold Sound_WriteReg; cbv zeta;
    rewrite reg_store_same by lia; rewrite reg_store_other by lia;
    reflexivity.
Qed.

Lemma write_noise freq data y :
  regs_ok y ->
  noise (Sound_WriteReg freq 6 data y)
  = (let s := Ym2149_NoiseStepCompute freq data in
     if s =? 0
     then mkNoise s 0 0xffff (RndRack (noise y))
     else mkNoise s (noisePos (noise y)) (currentNoise (noise y))
                  (RndRack (noise y))).
Proof.
  intros Hy. unfold regs_ok in Hy. unfold Sound_WriteReg. cbv zeta.
  rewrite reg_store_same by lia. rewrite noise_step_masked.
  destruct (_ =? 0); reflexivity.
Qed.

Lemma write_mixer freq data y :
  mixer (Sound_WriteReg freq 7 data y)
  = mkMixer (mixer_mask data 0) (mixer_mask data 1) (mixer_mask data 2)
            (mixer_mask data 3) (mixer_mask data 4) (mixer_mask data 5).
Proof. reflexivity. Qed.

Lemma write_env_fine freq data y :
  regs_ok y ->
  env (Sound_WriteReg freq 11 data y)
  = mkEnv (Ym2149_EnvStepCompute freq (reg y 12) data)
          (envPos (env y)) (envShape (env y)).
Proof.
  intros Hy. unfold regs_ok in Hy. unfold Sound_WriteReg. cbv zeta.
  rewrite reg_store_same by lia. rewrite reg_store_other by lia. reflexivity.
Qed.

Lemma write_env_coarse freq data y :
  regs_ok y ->
  env (Sound_WriteReg freq 12 data y)
  = mkEnv (Ym2149_EnvStepCompute freq data (reg y 11))
          (envPos (env y)) (envShape (env y)).
Proof.
  intros Hy. unfold regs_ok in Hy. unfold Sound_WriteReg. cbv zeta.
  rewrite reg_store_same by lia. rewrite reg_store_other by lia. reflexivity.
Qed.

Lemma write_env_shape freq data y :
  regs_ok y ->
  env (Sound_WriteReg freq 13 data y)
  = mkEnv (envStep (env y)) 0 (Z.land data 0xf).
Proof.
  intros Hy. unfold regs_ok in Hy. unfold Sound_WriteReg. cbv zeta.
  rewrite reg_store_same by lia. reflexivity.
Qed.

Lemma mixer_mask_gate data bit : gate_word (mixer_mask data bit).
Proof. unfold mixer_mask, gate_word. destruct (_ =? 0); auto. Qed.

Lemma tone_set_voice k j s t :
  0 <= k < 3 -> 0 <= j < 3 ->
  voice_pos j (tone_set k s t)
  = (if j =? k then pin_pos s (voice_pos k t) else voice_pos j t) /\
  voice_step j (tone_set k s t)
  = (if j =? k then s else voice_step j t).
Proof.
  intros Hk Hj.
  assert (Hck : k = 0 \/ k = 1 \/ k = 2) by lia.
  assert (Hcj : j = 0 \/ j = 1 \/ j = 2) by lia.
  destruct Hck as [-> | [-> | ->]], Hcj as [-> | [-> | ->]];
    split; reflexivity.
Qed.

Lemma pin_pos_range s p : 0 <= p < 2^32 -> 0 <= pin_pos s p < 2^32.
Proof.
  intros Hp. unfold pin_pos. destruct (s =? 0); [|exact Hp].
  change (Z.shiftl 1 31) with 2147483648. change (2^32) with 4294967296. lia.
Qed.

Lemma reg_is_byte y r :
  regs_in_width y -> 0 <= r <= 13 -> is_byte (reg y (Z.to_nat r)).
Proof.
  intros [_ Hw] Hr. specialize (Hw r Hr). unfold is_byte.
  assert (reg_mask r <= 255); [|lia].
  assert (Hc : r = 0 \/ r = 1 \/ r = 2 \/ r = 3 \/ r = 4 \/ r = 5 \/ r = 6 \/
               r = 7 \/ r = 8 \/ r = 9 \/ r = 10 \/ r = 11 \/ r = 12 \/ r = 13)
    by lia.
  repeat (destruct Hc as [-> | Hc]); try subst r; vm_compute; discriminate.
Qed.

Section Invariant.

Variables (freq : Z) (Hfreq : 7813 <= freq < 2^29).

Lemma write_tone_inv r data y :
  regs_ok y ->
  (forall j, 0 <= j < 3 -> 0 <= voice_pos j (tone y) < 2^32) ->
  forall j, 0 <= j < 3 ->
    0 <= voice_pos j (tone (Sound_WriteReg freq r data y)) < 2^32.
Proof.
  intros Hy Hp j Hj.
  destruct (Z_lt_dec r 0) as [Hlo|Hlo];
    [rewrite (proj1 (proj2 (proj2 (write_frame freq r data y)))) by lia; auto|].
  destruct (Z_lt_dec 5 r) as [Hhi|Hhi];
    [rewrite (proj1 (proj2 (proj2 (write_frame freq r data y)))) by lia; auto|].
  assert (Hc : exists k, 0 <= k < 3 /\ (r = 2 * k \/ r = 2 * k + 1)).
  { exists (r / 2). pose proof (Z.div_mod r 2 ltac:(lia)).
    pose proof (Z.mod_pos_bound r 2 ltac:(lia)). lia. }
  destruct Hc as (k & Hk & [-> | ->]);
    [rewrite write_tone_fine by assumption
    |rewrite write_tone_coarse by assumption];
    rewrite (proj1 (tone_set_voice k j _ _ Hk Hj));
    destruct (j =? k); auto using pin_pos_range.
Qed.

Lemma write_env_inv r data y :
  is_byte data -> regs_in_width y ->
  env_pos_ok (env y) -> env_step_ok (env y) -> 0 <= envShape (env y) <= 15 ->
  env_pos_ok (env (Sound_WriteReg freq r data y)) /\
  env_step_ok (env (Sound_WriteReg freq r data y)) /\
  0 <= envShape (env (Sound_WriteReg freq r data y)) <= 15.
Proof.
  intros Hd Hw Hp Hs Hsh. pose proof (proj1 Hw) as Hy.
  destruct (Z.eq_dec r 11) as [-> | H11].
  { rewrite write_env_fine by assumption. cbn [envPos envStep envShape].
    unfold env_pos_ok, env_step_ok in *. cbn [envPos envStep envShape].
    split; [assumption|]. split; [|assumption].
    apply env_step_range; try assumption.
    apply (reg_is_byte y 12 Hw). lia. }
  destruct (Z.eq_dec r 12) as [-> | H12].
  { rewrite write_env_coarse by assumption.
    unfold env_pos_ok, env_step_ok in *. cbn [envPos envStep envShape].
    split; [assumption|]. split; [|assumption].
    apply env_step_range; try assumption.
    apply (reg_is_byte y 11 Hw). lia. }
  destruct (Z.eq_dec r 13) as [-> | H13].
  { rewrite write_env_shape by assumption.
    unfold env_pos_ok, env_step_ok in *. cbn [envPos envStep envShape].
    split; [change (Z.shiftl (3 * 32) 24) with 1610612736; lia|].
    split; [assumption|].
    apply (land_mask_range data 0xf 4 eq_refl). lia. }
  rewrite (proj1 (proj2 (proj2 (proj2 (write_frame freq r data y))))) by lia.
  auto.
Qed.

Lemma write_noise_inv r data y :
  regs_ok y ->
  gate_word (currentNoise (noise y)) ->
  gate_word (currentNoise (noise (Sound_WriteReg freq r data y))) /\
  RndRack (noise (Sound_WriteReg freq r data y)) = RndRack (noise y).
Proof.
  intros Hy Hg. destruct (Z.eq_dec r 6) as [-> | H6].
  - rewrite write_noise by assumption. cbv zeta.
    destruct (_ =? 0); cbn [currentNoise RndRack]; split; auto.
    now right.
  - rewrite (proj1 (proj2 (write_frame freq r data y))) by assumption. auto.
Qed.

Lemma write_mixer_inv r data y :
  mixer_ok (mixer y) -> mixer_ok (mixer (Sound_WriteReg freq r data y)).
Proof.
  intros Hm. destruct (Z.eq_dec r 7) as [-> | H7].
  - rewrite write_mixer. intros k Hk.
    assert (Hc : k = 0 \/ k = 1 \/ k = 2) by lia.
    destruct Hc as [-> | [-> | ->]]; cbn [voice_gateT voice_gateN mixerTA
      mixerTB mixerTC mixerNA mixerNB mixerNC]; split; apply mixer_mask_gate.
  - now rewrite (proj1 (write_frame freq r data y)) by assumption.
Qed.

Lemma write_inv r data y :
  is_byte data -> ym_inv y -> ym_inv (Sound_WriteReg freq r data y).
Proof.
  intros Hd (Hw & Hm & Hn & HR & Hpos & Hep & Hes & Hsh & He & Hv & Hx).
  pose proof (proj1 Hw) as Hy.
  destruct (write_noise_inv r data y Hy Hn) as [Hn' HR'].
  destruct (write_env_inv r data y Hd Hw Hep Hes Hsh) as (Hep' & Hes' & Hsh').
  destruct (write_fits15 freq r data y Hy He Hv) as [He' Hv'].
  unfold ym_inv. rewrite HR'.
  repeat (split; [first [ now apply write_regs_in_width
                        | now apply write_mixer_inv
                        | now apply write_tone_inv
                        | assumption ] |]).
  now apply write_exclusive.
Qed.

End Invariant.

(** ** What a sample touches *)

Lemma next_sample_parts ymout5 y :
  SoundRegs (snd (YM2149_NextSample ymout5 y)) = SoundRegs y /\
  mixer (snd (YM2149_NextSample ymout5 y)) = mixer y /\
  vols (snd (YM2149_NextSample ymout5 y)) = vols y /\
  tone (snd (YM2149_NextSample ymout5 y))
  = mkTone (stepA (tone y)) (stepB (tone y)) (stepC (tone y))
           (u32 (posA (tone y) + stepA (tone y)))
           (u32 (posB (tone y) + stepB (tone y)))
           (u32 (posC (tone y) + stepC (tone y))) /\
  noise (snd (YM2149_NextSample ymout5 y))
  = mkNoise (noiseStep (noise_tick (noise y)))
            (u32 (noisePos (noise_tick (noise y))
                  + noiseStep (noise_tick (noise y))))
            (currentNoise (noise_tick (noise y)))
            (RndRack (noise_tick (noise y))) /\
  UseLowPassFilter (snd (YM2149_NextSample ymout5 y)) = UseLowPassFilter y /\
  bEnvelopeFreqFlag (snd (YM2149_NextSample ymout5 y)) = bEnvelopeFreqFlag y.
Proof.
  unfold YM2149_NextSample. cbv zeta.
  cbn [UseLowPassFilter set_env set_noise set_tone].
  destruct (UseLowPassFilter y) eqn:E; [destruct (LowPassFilter _ _)|];
    cbn [snd SoundRegs mixer vols tone noise UseLowPassFilter
         bEnvelopeFreqFlag set_filt set_env set_noise set_tone];
    rewrite ?E; repeat split; reflexivity.
Qed.

Lemma u32_range z : 0 <= u32 z < 2^32.
Proof. unfold u32. apply Z.mod_pos_bound. lia. Qed.

Lemma noise_tick_inv n :
  gate_word (currentNoise n) -> 0 <= RndRack n < 2^17 ->
  gate_word (currentNoise (noise_tick n)) /\
  0 <= RndRack (noise_tick n) < 2^17 /\
  (0 < RndRack n -> 0 < RndRack (noise_tick n)) /\
  noiseStep (noise_tick n) = noiseStep n.
Proof.
  destruct n as [s p c R]. cbn [currentNoise RndRack noiseStep].
  intros Hc HR. unfold noise_tick. cbn [noisePos].
  destruct (negb _); [|cbn [currentNoise RndRack noiseStep]; auto].
  destruct (rnd_step R HR) as [Hg Hs].
  destruct (Hs s p c) as (Hr & Hpos & E1 & E2 & E3 & E4).
  destruct (YM2149_RndCompute (mkNoise s p c R)) as [rnd n1].
  cbn [fst snd] in *. cbn [currentNoise RndRack noiseStep].
  rewrite E3, E4. repeat split; try assumption; try lia.
  destruct Hc as [-> | ->], Hg as [-> | ->]; [left | right | right | left];
    reflexivity.
Qed.

Lemma sample_inv ymout5 y :
  ym_inv y -> ym_inv (snd (YM2149_NextSample ymout5 y)).
Proof.
  intros (Hw & Hm & Hn & HR & Hpos & Hep & Hes & Hsh & He & Hv & Hx).
  destruct (next_sample_parts ymout5 y) as (Er & Em & Ev & Et & En & _ & _).
  pose proof (next_sample_env ymout5 y) as Ee.
  destruct (noise_tick_inv (noise y) Hn HR) as (Hn' & HR' & _ & _).
  destruct (env_advance_spec (env y) Hep Hes) as (Es & Esh & Hep' & _).
  unfold ym_inv. rewrite Em, Ev, Et, En, Ee.
  cbn [currentNoise RndRack]. rewrite Esh.
  split.
  { destruct Hw as [Hy Hwd]. split.
    - unfold regs_ok. now rewrite Er.
    - intros r Hr. unfold reg. rewrite Er. now apply Hwd. }
  repeat (split; [assumption|]).
  split.
  { intros j Hj. assert (Hc : j = 0 \/ j = 1 \/ j = 2) by lia.
    destruct Hc as [-> | [-> | ->]]; cbn [voice_pos posA posB posC];
      apply u32_range. }
  split; [assumption|]. split; [unfold env_step_ok in *; now rewrite Es|].
  auto.
Qed.

Lemma zero_writes_inv freq rs y :
  7813 <= freq < 2^29 -> ym_inv y ->
  ym_inv (fold_left (fun y i => Sound_WriteReg freq i 0 y) rs y).
Proof.
  intros Hf. revert y. induction rs as [|r rs IH]; intros y Hy; [exact Hy|].
  cbn [fold_left]. apply IH. apply write_inv; [assumption | | assumption].
  unfold is_byte. lia.
Qed.

Lemma reset_inv freq y :
  7813 <= freq < 2^29 -> ym_inv y ->
  ym_inv (Ym2149_Reset freq y) /\ RndRack (noise (Ym2149_Reset freq y)) = 1.
Proof.
  intros Hf Hy. unfold Ym2149_Reset. cbv zeta.
  set (y1 := fold_left _ _ y).
  assert (H1 : ym_inv (Sound_WriteReg freq 7 0xff y1)).
  { apply write_inv; [assumption | unfold is_byte; lia |].
    now apply zero_writes_inv. }
  revert H1. generalize (Sound_WriteReg freq 7 255 y1). clear. intros y2 H1.
  destruct H1 as (Hw & Hm & Hn & HR & Hpos & Hep & Hes & Hsh & He & Hv & Hx).
  split; [|reflexivity].
  unfold ym_inv.
  cbn [set_filt set_env set_noise mixer noise tone env vols currentNoise
       RndRack envPos envStep envShape].
  split; [exact Hw|]. split; [exact Hm|]. split; [now right|].
  split; [change (2^17) with 131072; lia|]. split; [exact Hpos|].
  split; [unfold env_pos_ok; cbn [envPos];
          change (Z.shiftl (3 * 32) 24) with 1610612736; lia|].
  split; [exact Hes|]. split; [lia|]. auto.
Qed.

Lemma ym_zero_inv : ym_inv ym_zero.
Proof.
  unfold ym_inv.
  split.
  { split; [reflexivity|]. intros r Hr.
    assert (Hc : r = 0 \/ r = 1 \/ r = 2 \/ r = 3 \/ r = 4 \/ r = 5 \/ r = 6 \/
                 r = 7 \/ r = 8 \/ r = 9 \/ r = 10 \/ r = 11 \/ r = 12 \/ r = 13)
      by lia.
    repeat (destruct Hc as [-> | Hc]); try subst r; vm_compute;
      split; discriminate. }
  split.
  { intros k Hk. assert (Hc : k = 0 \/ k = 1 \/ k = 2) by lia.
    destruct Hc as [-> | [-> | ->]]; split; now left. }
  split; [now left|].
  split; [vm_compute; split; [discriminate | reflexivity]|].
  split.
  { intros j Hj. assert (Hc : j = 0 \/ j = 1 \/ j = 2) by lia.
    destruct Hc as [-> | [-> | ->]]; vm_compute;
      (split; [discriminate | reflexivity]). }
  split; [vm_compute; split; [discriminate | reflexivity]|].
  split; [vm_compute; split; [discriminate | reflexivity]|].
  split; [vm_compute; split; discriminate|].
  split; [reflexivity|]. split; [reflexivity|].
  intros k _. left. unfold voice_field, ym_zero.
  cbn [vols EnvMask3Voices]. now rewrite Z.shiftr_0_l.
Qed.

Lemma run_ops_inv freq ymout5 ops y :
  7813 <= freq < 2^29 -> Forall op_is_byte ops -> ym_inv y ->
  ym_inv (run_ops freq ymout5 ops y).
Proof.
  intros Hf Hops. revert y.
  induction Hops as [|o ops Ho Hops IH]; intros y Hy; [exact Hy|].
  cbn [run_ops fold_left]. apply IH.
  destruct o as [r data| |]; cbn [run_op].
  - now apply write_inv.
  - now apply sample_inv.
  - now apply reset_inv.
Qed.

(** ** States reached from start-up *)

Lemma env_lookup_in_table e :
  0 <= envShape e <= 15 -> env_pos_ok e ->
  exists row v,
    YmEnvWaves !! Z.to_nat (envShape e) = Some row /\
    row !! Z.to_nat (env_index e) = Some v /\
    env_lookup e = v /\ 0 <= v < 32 * 32 * 32.
Proof.
  intros Hsh Hp. destruct YmEnvWaves_shape as [Hlen Hrows].
  assert (Hi : 0 <= env_index e <= 95).
  { unfold env_index, env_pos_ok in *.
    change (Z.shiftl (3 * 32) 24) with (96 * 16777216) in Hp.
    apply (shiftr24_bounds _ 0 95). lia. }
  destruct (lookup_lt_is_Some_2 YmEnvWaves (Z.to_nat (envShape e)))
    as [row Hrow]; [lia|].
  pose proof (proj1 (List.Forall_forall _ _) Hrows) as Hall.
  destruct (Hall row) as [Hrl Hrv].
  { apply list_elem_of_In. apply list_elem_of_lookup. eauto. }
  destruct (lookup_lt_is_Some_2 row (Z.to_nat (env_index e))) as [v Hv]; [lia|].
  exists row, v. split; [exact Hrow|]. split; [exact Hv|].
  split.
  - unfold env_lookup. fold (env_index e).
    rewrite (list_lookup_total_correct _ _ _ Hrow).
    now rewrite (list_lookup_total_correct _ _ _ Hv).
  - pose proof (proj1 (List.Forall_forall _ _) Hrv) as Hallv.
    apply Hallv. apply list_elem_of_In. apply list_elem_of_lookup. eauto.
Qed.

(** X6: from the zeroed start-up state, after any run of register writes
    with byte data, samples and resets, at a replay frequency from 7813 Hz
    up to 2^29 Hz: envShape is in 0..15 and envPos>>24 in 0..95, so the
    envelope read YmEnvWaves[envShape][envPos>>24] is an entry of the
    table; the registers hold values of their width; the gate words and
    currentNoise are 0 or 0xffff; the tone positions are 32-bit values;
    and each voice has at most one of its envelope and fixed-volume fields
    nonzero. *)
Theorem reachable_states_are_safe
    (freq : Z) (ymout5 : Z -> Z) (ops : list ym_op) :
  7813 <= freq < 2^29 -> Forall op_is_byte ops ->
  ym_inv (run_ops freq ymout5 ops ym_zero) /\
  exists row v,
    YmEnvWaves !! Z.to_nat (envShape (env (run_ops freq ymout5 ops ym_zero)))
      = Some row /\
    row !! Z.to_nat (env_index (env (run_ops freq ymout5 ops ym_zero)))
      = Some v /\
    env_lookup (env (run_ops freq ymout5 ops ym_zero)) = v /\
    0 <= v < 32 * 32 * 32.
Proof.
  intros Hf Hops.
  assert (Hinv : ym_inv (run_ops freq ymout5 ops ym_zero))
    by (apply run_ops_inv; [assumption | assumption | apply ym_zero_inv]).
  split; [exact Hinv|].
  destruct Hinv as (_ & _ & _ & _ & _ & Hep & _ & Hsh & _).
  now apply env_lookup_in_table.
Qed.

Lemma reachable_states_are_safe_witness :
  7813 <= 44100 < 2^29 /\
  Forall op_is_byte [OpReset; OpWrite 13 0x0a; OpWrite 11 1; OpSample; OpSample] /\
  ym_inv (run_ops 44100 (fun i => i)
            [OpReset; OpWrite 13 0x0a; OpWrite 11 1; OpSample; OpSample] ym_zero).
Proof.
  assert (Hf : 7813 <= 44100 < 2^29) by (change (2^29) with 536870912; lia).
  assert (Hops : Forall op_is_byte
            [OpReset; OpWrite 13 0x0a; OpWrite 11 1; OpSample; OpSample]).
  { repeat (apply Forall_cons; split;
            [first [exact I | unfold op_is_byte, is_byte; lia]|]).
    apply Forall_nil. exact I. }
  split; [exact Hf|]. split; [exact Hops|].
  exact (proj1 (reachable_states_are_safe 44100 (fun i => i) _ Hf Hops)).
Defined.

Lemma run_ops_seeded freq ymout5 ops y :
  7813 <= freq < 2^29 -> Forall op_is_byte ops -> ym_inv y ->
  0 < RndRack (noise y) ->
  0 < RndRack (noise (run_ops freq ymout5 ops y)).
Proof.
  intros Hf Hops. revert y.
  induction Hops as [|o ops Ho Hops IH]; intros y Hy Hs; [exact Hs|].
  cbn [run_ops fold_left]. apply IH.
  - destruct o as [r data| |]; cbn [run_op].
    + now apply write_inv.
    + now apply sample_inv.
    + now apply reset_inv.
  - destruct o as [r data| |]; cbn [run_op].
    + destruct Hy as (Hw & _ & Hn & _).
      now rewrite (proj2 (write_noise_inv freq r data y (proj1 Hw) Hn)).
    + destruct Hy as (_ & _ & Hn & HR & _).
      rewrite (proj1 (proj2 (proj2 (proj2 (proj2 (next_sample_parts ymout5 y)))))).
      cbn [RndRack]. now apply noise_tick_inv.
    + rewrite (proj2 (reset_inv freq y Hf Hy)). lia.
Qed.

(** X7: once Ym2149_Reset has run, the noise shift register RndRack is
    never zero again and stays below 2^17, whatever register writes (with
    byte data), samples and further resets follow. *)
Theorem noise_seed_never_zero
    (freq : Z) (ymout5 : Z -> Z) (before after : list ym_op) :
  7813 <= freq < 2^29 -> Forall op_is_byte before -> Forall op_is_byte after ->
  0 < RndRack (noise (run_ops freq ymout5 (before ++ OpReset :: after) ym_zero))
    < 2^17.
Proof.
  intros Hf Hb Ha. unfold run_ops. rewrite fold_left_app. cbn [fold_left run_op].
  fold (run_ops freq ymout5 before ym_zero).
  set (y0 := run_ops freq ymout5 before ym_zero).
  assert (H0 : ym_inv y0)
    by (apply run_ops_inv; [assumption | assumption | apply ym_zero_inv]).
  destruct (reset_inv freq y0 Hf H0) as [H1 E1].
  fold (run_ops freq ymout5 after (Ym2149_Reset freq y0)).
  split.
  - apply run_ops_seeded; try assumption. rewrite E1. lia.
  - pose proof (run_ops_inv freq ymout5 after _ Hf Ha H1) as (_ & _ & _ & HR & _).
    lia.
Qed.

Lemma noise_seed_never_zero_witness :
  0 < RndRack (noise (run_ops 44100 (fun i => i)
                        ([OpWrite 6 1] ++ OpReset :: [OpWrite 6 3; OpSample])
                        ym_zero)) < 2^17.
Proof.
  apply noise_seed_never_zero.
  - change (2^29) with 536870912; lia.
  - apply Forall_cons; split; [unfold op_is_byte, is_byte; lia|].
    apply Forall_nil. exact I.
  - repeat (apply Forall_cons; split;
            [first [exact I | unfold op_is_byte, is_byte; lia]|]).
    apply Forall_nil. exact I.
Defined.

(** ** Pinned tone output *)

Lemma next_samples_tone ymout5 n y k :
  0 <= k < 3 -> voice_step k (tone y) = 0 -> 0 <= voice_pos k (tone y) < 2^32 ->
  voice_step k (tone (snd (next_samples ymout5 n y))) = 0 /\
  voice_pos k (tone (snd (next_samples ymout5 n y))) = voice_pos k (tone y).
Proof.
  intros Hk. revert y. induction n as [|n IH]; intros y Hs Hp; [now split|].
  cbn [next_samples].
  destruct (next_sample_parts ymout5 y) as (_ & _ & _ & Et & _).
  destruct (YM2149_NextSample ymout5 y) as [s y1]. cbn [snd] in Et.
  assert (H1 : voice_step k (tone y1) = 0 /\
               voice_pos k (tone y1) = voice_pos k (tone y)).
  { rewrite Et. assert (Hc : k = 0 \/ k = 1 \/ k = 2) by lia.
    destruct Hc as [-> | [-> | ->]];
      cbn [voice_step voice_pos stepA stepB stepC posA posB posC] in *;
      rewrite Hs, Z.add_0_r; split; try reflexivity; now apply u32_small. }
  destruct H1 as [Hs1 Hp1].
  specialize (IH y1 Hs1 ltac:(now rewrite Hp1)).
  destruct (next_samples ymout5 n y1) as [l y2]. cbn [snd] in *.
  rewrite <- Hp1. exact IH.
Qed.

(** X8: writing a byte to a fine tone register so that the period of
    voice k is at most 5 sets its step to 0 and its position to 1<<31; any
    number of samples later the position is still 1<<31, so the square wave
    of that voice reads as high in every sample (the level used for
    digitised sound), whatever the replay frequency.  The register itself
    holds the written byte. *)
Theorem low_period_pins_voice_high
    (freq : Z) (ymout5 : Z -> Z) (k data : Z) (n : nat) (y : ym2149) :
  regs_ok y -> 0 <= k < 3 -> is_byte data ->
  tone_period (reg y (Z.to_nat (2 * k + 1))) data <= 5 ->
  voice_step k (tone (Sound_WriteReg freq (2 * k) data y)) = 0 /\
  voice_pos k (tone (Sound_WriteReg freq (2 * k) data y)) = Z.shiftl 1 31 /\
  voice_step k (tone (snd (next_samples ymout5 n
                             (Sound_WriteReg freq (2 * k) data y)))) = 0 /\
  voice_pos k (tone (snd (next_samples ymout5 n
                            (Sound_WriteReg freq (2 * k) data y))))
    = Z.shiftl 1 31 /\
  u32 (Z.shiftr (s32 (voice_pos k (tone (snd (next_samples ymout5 n
                            (Sound_WriteReg freq (2 * k) data y)))))) 31)
    = 0xffffffff /\
  reg (Sound_WriteReg freq (2 * k) data y) (Z.to_nat (2 * k)) = data.
Proof.
  intros Hy Hk Hd Hper.
  assert (Hreg : reg (Sound_WriteReg freq (2 * k) data y) (Z.to_nat (2 * k))
                 = data).
  { destruct (write_reg_lookup freq (2 * k) data y Hy Hd ltac:(lia))
      as (-> & _).
    assert (Hc : k = 0 \/ k = 1 \/ k = 2) by lia.
    destruct Hc as [-> | [-> | ->]]; apply (land_byte data Hd). }
  assert (Hstep : Ym2149_ToneStepCompute freq (reg y (Z.to_nat (2 * k + 1))) data
                  = 0).
  { unfold Ym2149_ToneStepCompute.
    destruct (Z.leb_spec (tone_period (reg y (Z.to_nat (2 * k + 1))) data) 5);
      [reflexivity | lia]. }
  assert (H0 : voice_step k (tone (Sound_WriteReg freq (2 * k) data y)) = 0 /\
               voice_pos k (tone (Sound_WriteReg freq (2 * k) data y))
               = Z.shiftl 1 31).
  { rewrite write_tone_fine by assumption. rewrite Hstep.
    destruct (tone_set_voice k k 0 (tone y) Hk Hk) as [-> ->].
    rewrite Z.eqb_refl. split; reflexivity. }
  destruct H0 as [Hs0 Hp0].
  destruct (next_samples_tone ymout5 n _ k Hk Hs0) as [Hsn Hpn].
  { rewrite Hp0. change (Z.shiftl 1 31) with 2147483648.
    change (2^32) with 4294967296. lia. }
  rewrite Hpn, Hp0. repeat split; try assumption.
Qed.

Lemma low_period_pins_voice_high_witness :
  regs_ok ym_zero /\ is_byte 5 /\
  tone_period (reg ym_zero (Z.to_nat (2 * 1 + 1))) 5 <= 5 /\
  voice_pos 1 (tone (snd (next_samples (fun i => i) 3
                            (Sound_WriteReg 44100 (2 * 1) 5 ym_zero))))
  = Z.shiftl 1 31.
Proof.
  assert (Hy : regs_ok ym_zero) by reflexivity.
  assert (Hd : is_byte 5) by (unfold is_byte; lia).
  assert (Hp : tone_period (reg ym_zero (Z.to_nat (2 * 1 + 1))) 5 <= 5)
    by (vm_compute; discriminate).
  split; [exact Hy|]. split; [exact Hd|]. split; [exact Hp|].
  exact (proj1 (proj2 (proj2 (proj2
    (low_period_pins_voice_high 44100 (fun i => i) 1 5 3 ym_zero Hy
       ltac:(lia) Hd Hp))))).
Defined.

(** ** Running sum and filter taps *)

Lemma zsum_insert (l : list Z) (i : nat) (x : Z) :
  (i < length l)%nat -> zsum (<[i := x]> l) = zsum l - l !!! i + x.
Proof.
  revert i. induction l as [|a l IH]; intros i Hi; [cbn in Hi; lia|].
  destruct i as [|i].
  - change (<[0%nat := x]> (a :: l)) with (x :: l).
    change ((a :: l) !!! 0%nat) with a.
    change (zsum (x :: l)) with (x + zsum l).
    change (zsum (a :: l)) with (a + zsum l). lia.
  - change (<[S i := x]> (a :: l)) with (a :: <[i := x]> l).
    change ((a :: l) !!! S i) with (l !!! i).
    change (zsum (a :: <[i := x]> l)) with (a + zsum (<[i := x]> l)).
    change (zsum (a :: l)) with (a + zsum l).
    cbn [length] in Hi. rewrite IH by lia. lia.
Qed.

Lemma zsum_bounds (l : list Z) :
  Forall is_sample l ->
  - 32768 * Z.of_nat (length l) <= zsum l <= 32767 * Z.of_nat (length l).
Proof.
  induction 1 as [|a l Ha Hl IH]; cbn [zsum fold_right length]; [lia|].
  fold (zsum l). unfold is_sample in Ha. lia.
Qed.

Lemma sample_entry (l : list Z) (i : nat) :
  Forall is_sample l -> is_sample (l !!! i).
Proof.
  intros Hl. destruct (l !! i) as [v|] eqn:E.
  - rewrite (list_lookup_total_correct _ _ _ E).
    apply (proj1 (List.Forall_forall _ _) Hl).
    apply list_elem_of_In, list_elem_of_lookup. eauto.
  - rewrite list_lookup_total_alt, E. cbn. unfold is_sample. lia.
Qed.

Lemma dc_reset_ok f : dc_ok (DcAdjuster_Reset f).
Proof.
  unfold dc_ok, DcAdjuster_Reset. cbn [dc_buffer dc_pos dc_sum].
  split; [apply length_replicate|]. split; [lia|]. split.
  - apply Forall_replicate. unfold is_sample. lia.
  - change (Z.to_nat DC_ADJUST_BUFFERLEN) with 512%nat.
    generalize 512%nat. intros n. induction n as [|n IH]; [reflexivity|].
    cbn [replicate zsum fold_right]. fold (zsum (replicate n 0)). lia.
Qed.

(** X9: the DC adjuster keeps its running sum exact.  When the history has
    512 samples, dc_pos indexes it and dc_sum is the sum of the history,
    adding a 16-bit sample replaces the entry at dc_pos, moves dc_pos to
    (dc_pos + 1) mod 512 and leaves dc_sum equal to the sum of the new
    history without 32-bit overflow; the DC level read back is that sum
    divided by 512 and is itself a 16-bit sample.  DcAdjuster_Reset
    establishes the condition. *)
Theorem dc_adjuster_sum_is_exact (sample : Z) (f : filter_vars) :
  dc_ok f -> is_sample sample ->
  dc_ok (DcAdjuster_AddSample sample f) /\
  dc_buffer (DcAdjuster_AddSample sample f)
    = <[Z.to_nat (dc_pos f) := sample]> (dc_buffer f) /\
  dc_pos (DcAdjuster_AddSample sample f) = (dc_pos f + 1) mod 512 /\
  dc_sum (DcAdjuster_AddSample sample f)
    = dc_sum f - dc_buffer f !!! Z.to_nat (dc_pos f) + sample /\
  DcAdjuster_GetDcLevel (DcAdjuster_AddSample sample f)
    = Z.quot (zsum (dc_buffer (DcAdjuster_AddSample sample f))) 512 /\
  is_sample (DcAdjuster_GetDcLevel (DcAdjuster_AddSample sample f)) /\
  dc_ok (DcAdjuster_Reset f).
Proof.
  intros (Hlen & Hpos & Hall & Hsum) Hs.
  pose proof (zsum_bounds _ Hall) as Hb. rewrite Hlen in Hb.
  pose proof (sample_entry _ (Z.to_nat (dc_pos f)) Hall) as He.
  unfold is_sample in *.
  assert (Hsum' : dc_sum (DcAdjuster_AddSample sample f)
                  = dc_sum f - dc_buffer f !!! Z.to_nat (dc_pos f) + sample).
  { unfold DcAdjuster_AddSample. cbv zeta. cbn [dc_sum].
    rewrite (s32_small (dc_sum f - _))
      by (change (2^31) with 2147483648; lia).
    rewrite s32_small by (change (2^31) with 2147483648; lia). reflexivity. }
  assert (Hpos' : dc_pos (DcAdjuster_AddSample sample f) = (dc_pos f + 1) mod 512).
  { unfold DcAdjuster_AddSample. cbv zeta. cbn [dc_pos].
    change (DC_ADJUST_BUFFERLEN - 1) with (Z.ones 9).
    now rewrite Z.land_ones by lia. }
  assert (Hok : dc_ok (DcAdjuster_AddSample sample f)).
  { unfold dc_ok. rewrite Hpos', Hsum'.
    unfold DcAdjuster_AddSample. cbv zeta. cbn [dc_buffer].
    split; [now rewrite length_insert|].
    split; [apply Z.mod_pos_bound; lia|].
    split.
    - apply Forall_insert; [exact Hall | unfold is_sample; lia].
    - rewrite zsum_insert by lia. lia. }
  split; [exact Hok|]. split; [reflexivity|]. split; [exact Hpos'|].
  split; [exact Hsum'|].
  destruct Hok as (Hlen2 & _ & Hall2 & Hsum2).
  pose proof (zsum_bounds _ Hall2) as Hb2. rewrite Hlen2 in Hb2.
  assert (Hq : - 32768 <= Z.quot (zsum (dc_buffer (DcAdjuster_AddSample sample f))) 512
               <= 32767).
  { set (z := zsum (dc_buffer (DcAdjuster_AddSample sample f))) in *.
    clearbody z.
    pose proof (Z.quot_rem' z 512) as Hqr.
    pose proof (Z.rem_bound_abs z 512 ltac:(lia)) as Hr.
    lia. }
  unfold DcAdjuster_GetDcLevel. rewrite Hsum2.
  change DC_ADJUST_BUFFERLEN with 512.
  rewrite (s16_small _ Hq).
  split; [reflexivity|]. split; [exact Hq|]. apply dc_reset_ok.
Qed.

Lemma dc_adjuster_sum_is_exact_witness :
  dc_ok (filt ym_zero) /\ is_sample 100 /\
  dc_sum (DcAdjuster_AddSample 100 (filt ym_zero)) = 100.
Proof.
  assert (H0 : dc_ok (filt ym_zero)) by exact (dc_reset_ok (filt ym_zero)).
  assert (Hs : is_sample 100) by (unfold is_sample; lia).
  split; [exact H0|]. split; [exact Hs|].
  destruct (dc_adjuster_sum_is_exact 100 (filt ym_zero) H0 Hs)
    as (_ & _ & _ & E & _).
  rewrite E. reflexivity.
Defined.

(** X10: on 16-bit inputs the two-tap low-pass filter never overflows: its
    output is (prev2 >> 2) + (prev1 >> 1) + (in >> 2) exactly, a 16-bit
    sample, within 8 below four times the weighted sum prev2 + 2*prev1 +
    in; a constant input c comes out as c, c-1 or c-2; the taps become
    (prev1, in). *)
Theorem low_pass_filter_no_overflow (inp : Z) (f : filter_vars) :
  is_sample (fst (m_lowPassFilter f)) -> is_sample (snd (m_lowPassFilter f)) ->
  is_sample inp ->
  fst (LowPassFilter inp f)
    = fst (m_lowPassFilter f) / 4 + snd (m_lowPassFilter f) / 2 + inp / 4 /\
  is_sample (fst (LowPassFilter inp f)) /\
  fst (m_lowPassFilter f) + 2 * snd (m_lowPassFilter f) + inp - 8
    <= 4 * fst (LowPassFilter inp f)
    <= fst (m_lowPassFilter f) + 2 * snd (m_lowPassFilter f) + inp /\
  (fst (m_lowPassFilter f) = inp -> snd (m_lowPassFilter f) = inp ->
   inp - 2 <= fst (LowPassFilter inp f) <= inp) /\
  m_lowPassFilter (snd (LowPassFilter inp f)) = (snd (m_lowPassFilter f), inp) /\
  dc_buffer (snd (LowPassFilter inp f)) = dc_buffer f /\
  dc_sum (snd (LowPassFilter inp f)) = dc_sum f.
Proof.
  unfold LowPassFilter, is_sample. destruct (m_lowPassFilter f) as [l0 l1].
  cbn [fst snd m_lowPassFilter dc_buffer dc_sum]. intros H0 H1 Hi.
  rewrite !Z.shiftr_div_pow2 by lia. change (2^2) with 4. change (2^1) with 2.
  pose proof (Z.div_mod l0 4 ltac:(lia)). pose proof (Z.mod_pos_bound l0 4 ltac:(lia)).
  pose proof (Z.div_mod l1 2 ltac:(lia)). pose proof (Z.mod_pos_bound l1 2 ltac:(lia)).
  pose proof (Z.div_mod inp 4 ltac:(lia)). pose proof (Z.mod_pos_bound inp 4 ltac:(lia)).
  rewrite s16_small by lia.
  repeat split; try reflexivity; lia.
Qed.

Lemma low_pass_filter_no_overflow_witness :
  is_sample 1000 /\
  fst (LowPassFilter 1000 (mkFilter [] 0 0 (1000, 1000))) = 1000.
Proof.
  assert (Hs : is_sample 1000) by (unfold is_sample; lia).
  split; [exact Hs|].
  rewrite (proj1 (low_pass_filter_no_overflow 1000
                    (mkFilter [] 0 0 (1000, 1000)) Hs Hs Hs)).
  reflexivity.
Defined.

(** ** Interpolation of the measured table *)

(** X11: volumetable_interpolate always returns a value in 0..65535, and
    because its division is unsigned the quotient is never negative: the
    test erpolate < 0 never holds, and a negative weighted sum saturates
    at 65535.  For two 16-bit table values the result is exactly
    (4*y1 + 6*y2) / 10, which lies between them, so equal neighbours are
    reproduced. *)
Theorem volumetable_interpolate_range (y1 y2 : Z) :
  0 <= volumetable_interpolate y1 y2 <= 65535 /\
  0 <= s32 (u32 (s32 (y1 * 4 + y2 * 6)) / 10) /\
  (- 2^31 <= y1 * 4 + y2 * 6 < 0 -> volumetable_interpolate y1 y2 = 65535) /\
  (0 <= y1 <= 65535 -> 0 <= y2 <= 65535 ->
   volumetable_interpolate y1 y2 = (4 * y1 + 6 * y2) / 10 /\
   Z.min y1 y2 <= volumetable_interpolate y1 y2 <= Z.max y1 y2 /\
   (y1 = y2 -> volumetable_interpolate y1 y2 = y1)).
Proof.
  assert (Hq : forall x, 0 <= u32 x / 10 < 2^31).
  { intros x. pose proof (u32_range x) as Hx.
    change (2^32) with 4294967296 in Hx. change (2^31) with 2147483648.
    split; [apply Z.div_pos; lia | apply Z.div_lt_upper_bound; lia]. }
  assert (Hs : forall x, s32 (u32 x / 10) = u32 x / 10).
  { intros x. apply s32_small. specialize (Hq x). lia. }
  unfold volumetable_interpolate. cbv zeta. rewrite Hs.
  set (q := u32 (s32 (y1 * 4 + y2 * 6)) / 10).
  pose proof (Hq (s32 (y1 * 4 + y2 * 6))) as Hqq. fold q in Hqq.
  split; [|split; [lia|split]].
  - destruct (Z.ltb_spec 65535 q); [reflexivity + (cbn; lia)|].
    destruct (Z.ltb_spec q 0); lia.
  - intros Hneg. change (2^31) with 2147483648 in Hneg.
    assert (E : u32 (s32 (y1 * 4 + y2 * 6)) = y1 * 4 + y2 * 6 + 4294967296).
    { rewrite s32_small by (change (2^31) with 2147483648; lia).
      unfold u32. change (2^32) with 4294967296.
      replace (y1 * 4 + y2 * 6)
        with (y1 * 4 + y2 * 6 + 4294967296 + (-1) * 4294967296) at 1 by lia.
      rewrite Z_mod_plus_full. apply Z.mod_small. lia. }
    assert (Hbig : 65535 < q).
    { unfold q. rewrite E. apply Z.lt_le_trans with 214748364; [lia|].
      apply Z.div_le_lower_bound; lia. }
    destruct (Z.ltb_spec 65535 q); [reflexivity | lia].
  - intros H1 H2.
    assert (E : q = (4 * y1 + 6 * y2) / 10).
    { unfold q. rewrite s32_small by (change (2^31) with 2147483648; lia).
      rewrite u32_small by (change (2^32) with 4294967296; lia).
      f_equal. lia. }
    pose proof (Z.div_mod (4 * y1 + 6 * y2) 10 ltac:(lia)) as Hd.
    pose proof (Z.mod_pos_bound (4 * y1 + 6 * y2) 10 ltac:(lia)) as Hm.
    rewrite <- E in Hd.
    destruct (Z.ltb_spec 65535 q); [lia|].
    destruct (Z.ltb_spec q 0); [lia|].
    split; [exact E|]. split; lia.
Qed.

Lemma volumetable_interpolate_range_witness :
  (0 <= 1000 <= 65535) /\ (0 <= 2000 <= 65535) /\
  volumetable_interpolate 1000 2000 = 1600.
Proof.
  assert (H1 : 0 <= 1000 <= 65535) by lia.
  assert (H2 : 0 <= 2000 <= 65535) by lia.
  split; [exact H1|]. split; [exact H2|].
  rewrite (proj1 (proj2 (proj2 (proj2 (volumetable_interpolate_range 1000 2000)))
                   H1 H2)).
  reflexivity.
Defined.

(** ** Packing of the three voices *)

(** X12: YM_MERGE_VOICE and the 5-bit fields are inverse: for three
    volumes in 0..31 the merged word is below 32*32*32 and its fields at
    bit offsets 0, 5 and 10 give back A, B and C; a word that only
    occupies those 15 bits is the merge of its three fields. *)
Theorem merge_voice_round_trip (C B A w : Z) :
  (0 <= A < 32 -> 0 <= B < 32 -> 0 <= C < 32 ->
   voice_field 0 (YM_MERGE_VOICE C B A) = A /\
   voice_field 1 (YM_MERGE_VOICE C B A) = B /\
   voice_field 2 (YM_MERGE_VOICE C B A) = C /\
   0 <= YM_MERGE_VOICE C B A < 32 * 32 * 32) /\
  (fits15 w ->
   YM_MERGE_VOICE (voice_field 2 w) (voice_field 1 w) (voice_field 0 w) = w).
Proof.
  split.
  - intros HA HB HC.
    assert (EA : Z.land A (Z.ones 5) = A)
      by (rewrite Z.land_ones by lia; apply Z.mod_small; change (2^5) with 32; lia).
    assert (EB : Z.land B (Z.ones 5) = B)
      by (rewrite Z.land_ones by lia; apply Z.mod_small; change (2^5) with 32; lia).
    assert (EC : Z.land C (Z.ones 5) = C)
      by (rewrite Z.land_ones by lia; apply Z.mod_small; change (2^5) with 32; lia).
    assert (Hf : fits15 (YM_MERGE_VOICE C B A)).
    { unfold fits15, YM_MERGE_VOICE. rewrite <- EA, <- EB, <- EC. Z.bitblast. }
    split; [|split; [|split; [|now apply fits15_range]]];
      unfold voice_field, YM_MERGE_VOICE; change 0x1f with (Z.ones 5);
      rewrite <- EA, <- EB, <- EC; Z.bitblast.
  - unfold fits15. intros Hw.
    assert (H : forall x,
      YM_MERGE_VOICE (voice_field 2 (Z.land x (Z.ones 15)))
                     (voice_field 1 (Z.land x (Z.ones 15)))
                     (voice_field 0 (Z.land x (Z.ones 15)))
      = Z.land x (Z.ones 15)).
    { intros x. unfold voice_field, YM_MERGE_VOICE.
      change 0x1f with (Z.ones 5). Z.bitblast;
        rewrite !Z.land_spec, !Z.testbit_ones_nonneg by lia;
        match goal with |- context [?i <? 15] =>
          destruct (Z.ltb_spec i 15); [|lia];
          destruct (Z.testbit x i); reflexivity end. }
    rewrite <- Hw. apply H.
Qed.

Lemma merge_voice_round_trip_witness :
  voice_field 1 (YM_MERGE_VOICE 7 21 30) = 21 /\
  YM_MERGE_VOICE (voice_field 2 12345) (voice_field 1 12345)
                 (voice_field 0 12345) = 12345.
Proof.
  split.
  - exact (proj1 (proj2 (proj1 (merge_voice_round_trip 7 21 30 0)
                           ltac:(lia) ltac:(lia) ltac:(lia)))).
  - exact (proj2 (merge_voice_round_trip 0 0 0 12345) eq_refl).
Defined.

(** ** Envelope table contents *)

Lemma forallb_seq (f : nat -> bool) (n i : nat) :
  forallb f (seq 0 n) = true -> (i < n)%nat -> f i = true.
Proof.
  intros H Hi. apply (proj1 (forallb_forall f (seq 0 n)) H).
  apply in_seq. lia.
Qed.

(** X13: YM2149_EnvBuild leaves in entry 32*b + i of shape s the merge of
    one volume v for all three voices, where v is read off block b of the
    shape in YmEnvDef: 31 - i going down, i going up, 0 or 31 when held; v
    never leaves 0..31, so the running volume needs no clamping. *)
Theorem envelope_table_closed_form (s b i : nat) :
  (s < 16)%nat -> (b < 3)%nat -> (i < 32)%nat ->
  YmEnvWaves = YM2149_EnvBuild /\
  0 <= env_block_vol (env_def s b) i <= 31 /\
  (YmEnvWaves !!! s) !!! (32 * b + i)%nat
  = YM_MERGE_VOICE (env_block_vol (env_def s b) i)
                   (env_block_vol (env_def s b) i)
                   (env_block_vol (env_def s b) i).
Proof.
  intros Hs Hb Hi. split; [reflexivity|].
  assert (Hall : forallb (fun s => forallb (fun b => forallb (env_entry_ok s b)
                   (seq 0 32)) (seq 0 3)) (seq 0 16) = true)
    by (vm_compute; reflexivity).
  pose proof (forallb_seq _ _ _ (forallb_seq _ _ _ (forallb_seq _ _ _ Hall Hs) Hb) Hi)
    as H.
  unfold env_entry_ok in H. cbv zeta in H.
  apply andb_true_iff in H as [H Heq]. apply andb_true_iff in H as [H0 H1].
  apply Z.eqb_eq in Heq. split; [lia | exact Heq].
Qed.

Lemma envelope_table_closed_form_witness :
  (YmEnvWaves !!! 10%nat) !!! (32 * 1 + 4)%nat = YM_MERGE_VOICE 4 4 4.
Proof.
  exact (proj2 (proj2 (envelope_table_closed_form 10 1 4
                         ltac:(lia) ltac:(lia) ltac:(lia)))).
Defined.

(** ** Envelope step range *)

(** X14: for a replay frequency from 1954 Hz to 64000000 Hz and a nonzero
    envelope period, the envelope step is never 0 and a longer period never
    gives a larger step; at 44100 Hz every nonzero period gives a step from
    0x5ab to 0x5ab3f46, both reached (periods 65535 and 1). *)
Theorem env_step_range_and_order (freq rHigh rLow rHigh' rLow' : Z) :
  1954 <= freq <= 64000000 ->
  is_byte rHigh -> is_byte rLow -> is_byte rHigh' -> is_byte rLow' ->
  0 < rHigh * 256 + rLow <= rHigh' * 256 + rLow' ->
  0 < Ym2149_EnvStepCompute freq rHigh' rLow'
    <= Ym2149_EnvStepCompute freq rHigh rLow /\
  (freq = 44100 ->
   0x5ab <= Ym2149_EnvStepCompute freq rHigh rLow <= 0x5ab3f46) /\
  Ym2149_EnvStepCompute 44100 255 255 = 0x5ab /\
  Ym2149_EnvStepCompute 44100 0 1 = 0x5ab3f46.
Proof.
  intros Hf Hh Hl Hh' Hl' Hp.
  assert (Hc : env_clock = 33554432000000) by reflexivity.
  assert (Hstep : forall h l, is_byte h -> is_byte l -> 0 < h * 256 + l ->
            Ym2149_EnvStepCompute freq h l = env_clock / (8 * (h * 256 + l) * freq) /\
            0 < env_clock / (8 * (h * 256 + l) * freq)).
  { intros h l Hbh Hbl Hpos.
    rewrite env_step_period by (assumption || lia).
    unfold is_byte in *.
    set (p := h * 256 + l) in *.
    assert (Hlo : 8 * 1 * 1954 <= 8 * p * freq)
      by (apply Z.mul_le_mono_nonneg; lia).
    assert (Hhi : 8 * p * freq <= 8 * 65535 * 64000000)
      by (apply Z.mul_le_mono_nonneg; lia).
    assert (Hq : 0 < env_clock / (8 * p * freq) < 2^32).
    { split; [apply Z.div_str_pos; rewrite Hc; lia|].
      apply Z.div_lt_upper_bound; [lia|]. rewrite Hc.
      change (2^32) with 4294967296. lia. }
    rewrite u32_small by lia. split; [reflexivity | lia]. }
  destruct (Hstep rHigh rLow Hh Hl ltac:(lia)) as [E Hpos].
  destruct (Hstep rHigh' rLow' Hh' Hl' ltac:(lia)) as [E' Hpos'].
  unfold is_byte in *.
  split; [|split; [|split; reflexivity]].
  - rewrite E, E'. split; [exact Hpos'|].
    apply Z.div_le_compat_l; [rewrite Hc; lia|].
    split; [nia|]. apply Z.mul_le_mono_nonneg_r; lia.
  - intros ->. rewrite E. rewrite Hc.
    set (p := rHigh * 256 + rLow) in *.
    split.
    + apply Z.div_le_lower_bound; [lia|]. lia.
    + apply Z.lt_succ_r. apply Z.div_lt_upper_bound; [lia|]. lia.
Qed.

Lemma env_step_range_and_order_witness :
  0 < Ym2149_EnvStepCompute 44100 2 0 <= Ym2149_EnvStepCompute 44100 1 255.
Proof.
  refine (proj1 (env_step_range_and_order 44100 1 255 2 0 _ _ _ _ _ _));
    unfold is_byte; lia.
Defined.

(** ** Frame clamp *)

(** X15: when at least one frame of cycles is pending (and nothing
    overflows), Sound_SetSamplesPassed asks for exactly one frame of
    samples and takes exactly CYCLES_PER_FRAME cycles off the counter, so
    the cycles of later frames stay in the counter; with exactly one frame
    pending the counter returns to 0. *)
Theorem full_frame_takes_one_frame (freq refresh cpf MIX : Z) (s : sound) :
  0 < SAMPLES_PER_FRAME freq refresh -> 0 < cpf ->
  cpf <= nSoundCycles s ->
  nSoundCycles s * SAMPLES_PER_FRAME freq refresh < 2^31 ->
  SAMPLES_PER_FRAME freq refresh * cpf < 2^31 ->
  frame_samples freq refresh cpf (nSoundCycles s)
    = SAMPLES_PER_FRAME freq refresh /\
  nSoundCycles (Sound_SetSamplesPassed freq refresh cpf MIX s)
    = nSoundCycles s - cpf /\
  (nSoundCycles s = cpf ->
   nSoundCycles (Sound_SetSamplesPassed freq refresh cpf MIX s) = 0).
Proof.
  intros HS HC Hc Hov Hov2.
  assert (Hc0 : 0 <= nSoundCycles s) by lia.
  destruct (set_samples_cycles freq refresh cpf MIX s HS HC Hc0 Hov Hov2)
    as [Hcy _].
  assert (Hn : frame_samples freq refresh cpf (nSoundCycles s)
               = SAMPLES_PER_FRAME freq refresh).
  { rewrite frame_samples_min by assumption. apply Z.min_r.
    apply Z.div_le_lower_bound; [lia|]. nia. }
  rewrite Hcy, Hn.
  rewrite (Z.mul_comm (SAMPLES_PER_FRAME freq refresh) cpf), Z.div_mul by lia.
  repeat split; lia.
Qed.

Lemma full_frame_takes_one_frame_witness :
  nSoundCycles (Sound_SetSamplesPassed 44100 50 160256 8192
                  (mkSound ym_zero [] 0 0 0 200000)) = 200000 - 160256.
Proof.
  refine (proj1 (proj2 (full_frame_takes_one_frame 44100 50 160256 8192
            (mkSound ym_zero [] 0 0 0 200000) _ _ _ _ _)));
    try (vm_compute; reflexivity); cbn [nSoundCycles]; lia.
Defined.

(** ** Ring buffer slots *)

Lemma slot_value MIX A i :
  0 < MIX < 2^30 -> 0 <= A < MIX -> 0 <= i <= MIX ->
  Z.rem (s32 (A + i)) MIX = (A + i) mod MIX.
Proof.
  intros HM HA Hi. change (2^30) with 1073741824 in HM.
  rewrite s32_small by (change (2^31) with 2147483648; lia).
  apply Z.rem_mod_nonneg; lia.
Qed.

Lemma generated_slots_spec MIX s :
  0 < MIX < 2^30 -> 0 <= ActiveSndBufIdx s < MIX ->
  0 < nSamplesToGenerate s <= MIX ->
  generated_slots MIX s
  = map (fun i => (ActiveSndBufIdx s + Z.of_nat i) mod MIX)
        (seq 0 (Z.to_nat (nSamplesToGenerate s))).
Proof.
  intros HM HA Hn. unfold generated_slots.
  destruct (Z.leb_spec (nSamplesToGenerate s) 0); [lia|].
  apply map_ext_in. intros i Hi. apply in_seq in Hi.
  apply slot_value; lia.
Qed.

Lemma generated_slots_facts
    (MIX : Z) (ymout5 : Z -> Z)
    (dma : Z -> Z -> list (Z * Z) -> list (Z * Z)) (s : sound) :
  0 < MIX < 2^30 -> 0 <= ActiveSndBufIdx s < MIX ->
  0 < nSamplesToGenerate s <= MIX ->
  length (generated_slots MIX s) = Z.to_nat (nSamplesToGenerate s) /\
  (forall i : nat, (i < Z.to_nat (nSamplesToGenerate s))%nat ->
     generated_slots MIX s !!! i = (ActiveSndBufIdx s + Z.of_nat i) mod MIX) /\
  Forall (fun idx => 0 <= idx < MIX) (generated_slots MIX s) /\
  NoDup (generated_slots MIX s) /\
  ActiveSndBufIdx (Sound_GenerateSamples MIX ymout5 dma s)
    = (ActiveSndBufIdx s + nSamplesToGenerate s) mod MIX /\
  0 <= ActiveSndBufIdx (Sound_GenerateSamples MIX ymout5 dma s) < MIX.
Proof.
  intros HM HA Hn. rewrite generated_slots_spec by assumption.
  set (n := Z.to_nat (nSamplesToGenerate s)).
  set (f := fun i : nat => (ActiveSndBufIdx s + Z.of_nat i) mod MIX).
  assert (Hidx : ActiveSndBufIdx (Sound_GenerateSamples MIX ymout5 dma s)
                 = (ActiveSndBufIdx s + nSamplesToGenerate s) mod MIX).
  { unfold Sound_GenerateSamples.
    destruct (Z.leb_spec (nSamplesToGenerate s) 0); [lia|].
    destruct (fold_left _ _ _) as [y buf]. cbn [ActiveSndBufIdx].
    apply slot_value; lia. }
  split; [now rewrite length_map, length_seq|].
  split.
  { intros i Hi. rewrite list_lookup_total_alt, <- nth_lookup.
    rewrite (nth_indep _ _ (f 0%nat)) by (now rewrite length_map, length_seq).
    rewrite map_nth, seq_nth by exact Hi. reflexivity. }
  split.
  { apply List.Forall_forall. intros x Hx. apply in_map_iff in Hx as (i & <- & _).
    apply Z.mod_pos_bound. lia. }
  split.
  { apply NoDup_ListNoDup.
    apply List.NoDup_map_NoDup_ForallPairs; [|apply List.seq_NoDup].
    intros a b Ha Hb Hab. apply in_seq in Ha. apply in_seq in Hb.
    unfold f in Hab. subst n.
    assert (Hmod : forall x, 0 <= x < 2 * MIX ->
              x mod MIX = if x <? MIX then x else x - MIX).
    { intros x Hx. destruct (Z.ltb_spec x MIX).
      - apply Z.mod_small. lia.
      - symmetry. apply Z.mod_unique with 1; lia. }
    rewrite !Hmod in Hab by lia.
    destruct (Z.ltb_spec (ActiveSndBufIdx s + Z.of_nat a) MIX),
             (Z.ltb_spec (ActiveSndBufIdx s + Z.of_nat b) MIX); lia. }
  split; [exact Hidx|]. rewrite Hidx. apply Z.mod_pos_bound. lia.
Qed.

(** X16: with the write index inside the buffer and a count between 1 and
    MIXBUFFER_SIZE, the slots written by Sound_GenerateSamples are
    (ActiveSndBufIdx + i) mod MIXBUFFER_SIZE for i = 0 .. count-1: all
    inside the buffer and pairwise different, so no sample of the update is
    overwritten by a later one; the write index afterwards is
    (ActiveSndBufIdx + count) mod MIXBUFFER_SIZE, again inside the
    buffer. *)
Theorem generated_slots_wrap_without_overlap
    (MIX : Z) (ymout5 : Z -> Z)
    (dma : Z -> Z -> list (Z * Z) -> list (Z * Z)) (s : sound) :
  0 < MIX < 2^30 -> 0 <= ActiveSndBufIdx s < MIX ->
  0 < nSamplesToGenerate s <= MIX ->
  length (generated_slots MIX s) = Z.to_nat (nSamplesToGenerate s) /\
  (forall i : nat, (i < Z.to_nat (nSamplesToGenerate s))%nat ->
     generated_slots MIX s !!! i = (ActiveSndBufIdx s + Z.of_nat i) mod MIX) /\
  Forall (fun idx => 0 <= idx < MIX) (generated_slots MIX s) /\
  NoDup (generated_slots MIX s) /\
  ActiveSndBufIdx (Sound_GenerateSamples MIX ymout5 dma s)
    = (ActiveSndBufIdx s + nSamplesToGenerate s) mod MIX /\
  0 <= ActiveSndBufIdx (Sound_GenerateSamples MIX ymout5 dma s) < MIX.
Proof. intros; now apply generated_slots_facts. Qed.

Lemma generated_slots_wrap_without_overlap_witness :
  generated_slots 8 (mkSound ym_zero [] 0 3 6 0) !!! 2%nat = (6 + 2) mod 8.
Proof.
  refine (proj1 (proj2 (generated_slots_wrap_without_overlap 8
            (fun i => i) (fun _ _ b => b) (mkSound ym_zero [] 0 3 6 0) _ _ _))
            2%nat _);
    cbn [ActiveSndBufIdx nSamplesToGenerate];
    try (change (2^30) with 1073741824); lia.
Defined.

(** ** The generation loop *)

Section GenerationLoop.

Variable ymout5 : Z -> Z.

Lemma gen_step_eq y buf idx :
  gen_step ymout5 (y, buf) idx
  = (snd (YM2149_NextSample ymout5 y),
     <[Z.to_nat idx := (fst (YM2149_NextSample ymout5 y),
                        fst (YM2149_NextSample ymout5 y))]> buf).
Proof. unfold gen_step. now destruct (YM2149_NextSample ymout5 y). Qed.

Lemma next_samples_S n y :
  fst (next_samples ymout5 (S n) y)
    = fst (YM2149_NextSample ymout5 y)
      :: fst (next_samples ymout5 n (snd (YM2149_NextSample ymout5 y))) /\
  snd (next_samples ymout5 (S n) y)
    = snd (next_samples ymout5 n (snd (YM2149_NextSample ymout5 y))).
Proof.
  cbn [next_samples]. destruct (YM2149_NextSample ymout5 y) as [s0 y1].
  cbn [fst snd]. now destruct (next_samples ymout5 n y1).
Qed.

Lemma gen_fold_state slots y buf :
  fst (fold_left (gen_step ymout5) slots (y, buf))
    = snd (next_samples ymout5 (length slots) y) /\
  length (snd (fold_left (gen_step ymout5) slots (y, buf))) = length buf /\
  (forall j : nat, ~ In j (map Z.to_nat slots) ->
     snd (fold_left (gen_step ymout5) slots (y, buf)) !!! j = buf !!! j).
Proof.
  revert y buf. induction slots as [|a rest IH]; intros y buf.
  - repeat split; reflexivity.
  - cbn [fold_left length]. rewrite gen_step_eq.
    rewrite (proj2 (next_samples_S (length rest) y)).
    destruct (IH (snd (YM2149_NextSample ymout5 y))
                 (<[Z.to_nat a := (fst (YM2149_NextSample ymout5 y),
                                   fst (YM2149_NextSample ymout5 y))]> buf))
      as (E1 & E2 & E3).
    split; [exact E1|]. split; [now rewrite E2, length_insert|].
    intros j Hj. cbn [map In] in Hj. rewrite E3 by tauto.
    apply list_lookup_total_insert_ne. tauto.
Qed.

Lemma gen_fold_samples slots y buf :
  List.NoDup (map Z.to_nat slots) ->
  Forall (fun idx => (Z.to_nat idx < length buf)%nat) slots ->
  forall i : nat, (i < length slots)%nat ->
    snd (fold_left (gen_step ymout5) slots (y, buf)) !!! Z.to_nat (slots !!! i)
    = (fst (next_samples ymout5 (length slots) y) !!! i,
       fst (next_samples ymout5 (length slots) y) !!! i).
Proof.
  revert y buf. induction slots as [|a rest IH]; intros y buf Hnd Hin i Hi;
    [cbn in Hi; lia|].
  cbn [map] in Hnd. apply List.NoDup_cons_iff in Hnd as [Ha Hnd].
  apply Forall_cons in Hin as [Hain Hin].
  cbn [fold_left length]. rewrite gen_step_eq.
  rewrite (proj1 (next_samples_S (length rest) y)).
  set (s0 := fst (YM2149_NextSample ymout5 y)).
  set (y1 := snd (YM2149_NextSample ymout5 y)).
  destruct (gen_fold_state rest y1 (<[Z.to_nat a := (s0, s0)]> buf))
    as (_ & _ & E3).
  specialize (IH y1 (<[Z.to_nat a := (s0, s0)]> buf) Hnd).
  destruct i as [|i].
  - change ((a :: rest) !!! 0%nat) with a.
    change ((s0 :: fst (next_samples ymout5 (length rest) y1)) !!! 0%nat) with s0.
    rewrite E3 by exact Ha. now apply list_lookup_total_insert_eq.
  - change ((a :: rest) !!! S i) with (rest !!! i).
    change ((s0 :: fst (next_samples ymout5 (length rest) y1)) !!! S i)
      with (fst (next_samples ymout5 (length rest) y1) !!! i).
    apply IH; [|cbn [length] in Hi; lia].
    eapply Forall_impl; [exact Hin|]. intros x Hx. cbn beta in *.
    now rewrite length_insert.
Qed.

(** X17: a call of Sound_GenerateSamples with a count n between 1 and
    MIXBUFFER_SIZE runs YM2149_NextSample exactly n times on the emulator
    state, stores sample i in both channels of slot
    (ActiveSndBufIdx + i) mod MIXBUFFER_SIZE, leaves every other slot as it
    was and keeps the buffer length, before handing the range to
    DmaSnd_GenerateSamples; the cycle counter is not touched. *)
Theorem generate_samples_fills_both_channels
    (MIX : Z) (dma : Z -> Z -> list (Z * Z) -> list (Z * Z)) (s : sound) :
  0 < MIX < 2^30 -> 0 <= ActiveSndBufIdx s < MIX ->
  0 < nSamplesToGenerate s <= MIX ->
  length (MixBuffer s) = Z.to_nat MIX ->
  ym (Sound_GenerateSamples MIX ymout5 dma s)
    = snd (next_samples ymout5 (Z.to_nat (nSamplesToGenerate s)) (ym s)) /\
  nSoundCycles (Sound_GenerateSamples MIX ymout5 dma s) = nSoundCycles s /\
  exists buf,
    MixBuffer (Sound_GenerateSamples MIX ymout5 dma s)
      = dma (ActiveSndBufIdx s) (nSamplesToGenerate s) buf /\
    length buf = Z.to_nat MIX /\
    (forall i : nat, (i < Z.to_nat (nSamplesToGenerate s))%nat ->
       buf !!! Z.to_nat ((ActiveSndBufIdx s + Z.of_nat i) mod MIX)
       = (fst (next_samples ymout5 (Z.to_nat (nSamplesToGenerate s)) (ym s)) !!! i,
          fst (next_samples ymout5 (Z.to_nat (nSamplesToGenerate s)) (ym s)) !!! i)) /\
    (forall j : nat, ~ In j (map Z.to_nat (generated_slots MIX s)) ->
       buf !!! j = MixBuffer s !!! j).
Proof.
  intros HM HA Hn Hlen.
  destruct (generated_slots_facts MIX ymout5 dma s HM HA Hn)
    as (Hl & Hval & Hb & Hnd & _).
  unfold Sound_GenerateSamples.
  destruct (Z.leb_spec (nSamplesToGenerate s) 0); [lia|].
  change (fun '(y, buf) idx =>
            let '(sample, y0) := YM2149_NextSample ymout5 y in
            (y0, <[Z.to_nat idx := (sample, sample)]> buf)) with (gen_step ymout5).
  destruct (gen_fold_state (generated_slots MIX s) (ym s) (MixBuffer s))
    as (E1 & E2 & E3).
  pose proof (gen_fold_samples (generated_slots MIX s) (ym s) (MixBuffer s))
    as E4.
  destruct (fold_left (gen_step ymout5) (generated_slots MIX s) (ym s, MixBuffer s))
    as [y buf].
  cbn [fst snd ym nSoundCycles MixBuffer] in *. rewrite Hl in *.
  split; [exact E1|]. split; [reflexivity|].
  exists buf. split; [reflexivity|]. split; [congruence|]. split; [|exact E3].
  intros i Hi. rewrite <- (Hval i Hi). apply E4; [| |exact Hi].
  - apply NoDup_ListNoDup in Hnd.
    apply List.NoDup_map_NoDup_ForallPairs; [|exact Hnd].
    intros a b Ha Hb' Hab.
    pose proof (proj1 (List.Forall_forall _ _) Hb a Ha) as Ha0.
    pose proof (proj1 (List.Forall_forall _ _) Hb b Hb') as Hb0.
    cbn beta in Ha0, Hb0. lia.
  - eapply Forall_impl; [exact Hb|]. intros x Hx. cbn beta in Hx |- *. lia.
Qed.

End GenerationLoop.

Lemma generate_samples_fills_both_channels_witness :
  length (MixBuffer (mkSound ym_zero (replicate 8 (0, 0)) 0 3 6 0)) = Z.to_nat 8 /\
  ym (Sound_GenerateSamples 8 (fun i => i) (fun _ _ b => b)
        (mkSound ym_zero (replicate 8 (0, 0)) 0 3 6 0))
  = snd (next_samples (fun i => i) 3 ym_zero).
Proof.
  split; [reflexivity|].
  refine (proj1 (generate_samples_fills_both_channels (fun i => i) 8
            (fun _ _ b => b) (mkSound ym_zero (replicate 8 (0, 0)) 0 3 6 0)
            _ _ _ _));
    cbn [ActiveSndBufIdx nSamplesToGenerate MixBuffer];
    try (change (2^30) with 1073741824); try reflexivity; lia.
Defined.

(** ** Linear volume table *)

Lemma fold_left_seq_inv {S : Type} (f : S -> nat -> S) (Inv : nat -> S -> Prop)
    (n : nat) (s0 : S) :
  Inv 0%nat s0 ->
  (forall i s, (i < n)%nat -> Inv i s -> Inv (Datatypes.S i) (f s i)) ->
  Inv n (fold_left f (seq 0 n) s0).
Proof.
  intros H0 Hstep. induction n as [|n IH]; [exact H0|].
  rewrite seq_S, fold_left_app. cbn [fold_left Nat.add].
  apply Hstep; [lia|]. apply IH. intros i s Hi. apply Hstep. lia.
Qed.

Lemma vol_index_inj a b c a' b' c' :
  0 <= a < 32 -> 0 <= b < 32 -> 0 <= c < 32 ->
  0 <= a' < 32 -> 0 <= b' < 32 -> 0 <= c' < 32 ->
  vol_index a b c = vol_index a' b' c' -> a = a' /\ b = b' /\ c = c'.
Proof. unfold vol_index. lia. Qed.

Lemma vol_index_bound a b c :
  0 <= a < 32 -> 0 <= b < 32 -> 0 <= c < 32 ->
  (vol_index a b c < 32 * 32 * 32)%nat.
Proof. unfold vol_index. lia. Qed.

Section LinearTable.

Local Abbreviation in_range a := (0 <= a < 32) (only parsing).

Lemma linear_k_loop (i j : nat) (out : list Z) :
  (i < 32)%nat -> (j < 32)%nat -> length out = (32 * 32 * 32)%nat ->
  let res :=
    fold_left (fun out k =>
                 volumetable_set out (Z.of_nat i) (Z.of_nat j) (Z.of_nat k)
                   (linear_mean (Z.of_nat i) (Z.of_nat j) (Z.of_nat k)))
              (seq 0 32) out in
  length res = (32 * 32 * 32)%nat /\
  forall a b c, in_range a -> in_range b -> in_range c ->
    res !!! vol_index a b c
    = if (a =? Z.of_nat i) && (b =? Z.of_nat j)
      then u16 (linear_mean a b c) else out !!! vol_index a b c.
Proof.
  intros Hi Hj Hl res. subst res.
  pose (Inv := fun (k' : nat) (o : list Z) =>
    length o = (32 * 32 * 32)%nat /\
    forall a b c, in_range a -> in_range b -> in_range c ->
      o !!! vol_index a b c
      = if (a =? Z.of_nat i) && (b =? Z.of_nat j) && (c <? Z.of_nat k')
        then u16 (linear_mean a b c) else out !!! vol_index a b c).
  assert (H : Inv 32%nat (fold_left (fun out k =>
                 volumetable_set out (Z.of_nat i) (Z.of_nat j) (Z.of_nat k)
                   (linear_mean (Z.of_nat i) (Z.of_nat j) (Z.of_nat k)))
              (seq 0 32) out)).
  { apply fold_left_seq_inv.
    - split; [exact Hl|]. intros a b c _ _ Hc.
      destruct (c <? Z.of_nat 0) eqn:E; [apply Z.ltb_lt in E; lia|].
      now rewrite andb_false_r.
    - intros k o Hk [Hlo Ho]. unfold volumetable_set. split.
      + now rewrite length_insert.
      + intros a b c Ha Hb Hc.
        destruct (decide (vol_index (Z.of_nat i) (Z.of_nat j) (Z.of_nat k)
                          = vol_index a b c)) as [E|E].
        * apply vol_index_inj in E as (Ea & Eb & Ec); try lia. subst a b c.
          rewrite list_lookup_total_insert_eq
            by (rewrite Hlo; apply vol_index_bound; lia).
          rewrite !Z.eqb_refl.
          destruct (Z.ltb_spec (Z.of_nat k) (Z.of_nat (S k))); [reflexivity | lia].
        * rewrite list_lookup_total_insert_ne by exact E.
          rewrite Ho by assumption.
          destruct (Z.eqb_spec a (Z.of_nat i)), (Z.eqb_spec b (Z.of_nat j));
            cbn [andb]; try reflexivity.
          destruct (Z.ltb_spec c (Z.of_nat k)), (Z.ltb_spec c (Z.of_nat (S k)));
            try reflexivity; try lia.
          exfalso. apply E. subst a b. f_equal. unfold vol_index. lia. }
  destruct H as [Hl' H]. split; [exact Hl'|].
  intros a b c Ha Hb Hc. rewrite (H a b c Ha Hb Hc).
  destruct (Z.ltb_spec c (Z.of_nat 32)); [|lia]. now rewrite andb_true_r.
Qed.

Lemma linear_j_loop (i : nat) (out : list Z) :
  (i < 32)%nat -> length out = (32 * 32 * 32)%nat ->
  let res :=
    fold_left (fun out j =>
      fold_left (fun out k =>
                   volumetable_set out (Z.of_nat i) (Z.of_nat j) (Z.of_nat k)
                     (linear_mean (Z.of_nat i) (Z.of_nat j) (Z.of_nat k)))
                (seq 0 32) out)
      (seq 0 32) out in
  length res = (32 * 32 * 32)%nat /\
  forall a b c, in_range a -> in_range b -> in_range c ->
    res !!! vol_index a b c
    = if a =? Z.of_nat i
      then u16 (linear_mean a b c) else out !!! vol_index a b c.
Proof.
  intros Hi Hl res. subst res.
  pose (Inv := fun (j' : nat) (o : list Z) =>
    length o = (32 * 32 * 32)%nat /\
    forall a b c, in_range a -> in_range b -> in_range c ->
      o !!! vol_index a b c
      = if (a =? Z.of_nat i) && (b <? Z.of_nat j')
        then u16 (linear_mean a b c) else out !!! vol_index a b c).
  assert (H : Inv 32%nat (fold_left (fun out j =>
      fold_left (fun out k =>
                   volumetable_set out (Z.of_nat i) (Z.of_nat j) (Z.of_nat k)
                     (linear_mean (Z.of_nat i) (Z.of_nat j) (Z.of_nat k)))
                (seq 0 32) out) (seq 0 32) out)).
  { apply fold_left_seq_inv.
    - split; [exact Hl|]. intros a b c _ Hb _.
      destruct (b <? Z.of_nat 0) eqn:E; [apply Z.ltb_lt in E; lia|].
      now rewrite andb_false_r.
    - intros j o Hj [Hlo Ho].
      destruct (linear_k_loop i j o Hi Hj Hlo) as [Hl' Hk].
      split; [exact Hl'|].
      intros a b c Ha Hb Hc. rewrite (Hk a b c Ha Hb Hc), (Ho a b c Ha Hb Hc).
      destruct (Z.eqb_spec a (Z.of_nat i)); cbn [andb]; [|reflexivity].
      destruct (Z.eqb_spec b (Z.of_nat j)), (Z.ltb_spec b (Z.of_nat j)),
               (Z.ltb_spec b (Z.of_nat (S j))); try reflexivity; lia. }
  destruct H as [Hl' H]. split; [exact Hl'|].
  intros a b c Ha Hb Hc. rewrite (H a b c Ha Hb Hc).
  destruct (Z.ltb_spec b (Z.of_nat 32)); [|lia]. now rewrite andb_true_r.
Qed.

Lemma linear_table_entries (out : list Z) :
  length out = (32 * 32 * 32)%nat ->
  length (YM2149_BuildLinearVolumeTable out) = (32 * 32 * 32)%nat /\
  forall a b c, in_range a -> in_range b -> in_range c ->
    YM2149_BuildLinearVolumeTable out !!! vol_index a b c
    = u16 (linear_mean a b c).
Proof.
  intros Hl. unfold YM2149_BuildLinearVolumeTable. cbv zeta.
  pose (Inv := fun (i' : nat) (o : list Z) =>
    length o = (32 * 32 * 32)%nat /\
    forall a b c, in_range a -> in_range b -> in_range c ->
      o !!! vol_index a b c
      = if a <? Z.of_nat i'
        then u16 (linear_mean a b c) else out !!! vol_index a b c).
  match goal with |- length ?t = _ /\ _ => assert (H : Inv 32%nat t) end.
  { apply fold_left_seq_inv.
    - split; [exact Hl|]. intros a b c Ha _ _.
      destruct (Z.ltb_spec a (Z.of_nat 0)); [lia | reflexivity].
    - intros i o Hi [Hlo Ho].
      destruct (linear_j_loop i o Hi Hlo) as [Hl' Hj].
      split; [exact Hl'|].
      intros a b c Ha Hb Hc. rewrite (Hj a b c Ha Hb Hc), (Ho a b c Ha Hb Hc).
      destruct (Z.eqb_spec a (Z.of_nat i)), (Z.ltb_spec a (Z.of_nat i)),
               (Z.ltb_spec a (Z.of_nat (S i))); try reflexivity; lia. }
  destruct H as [Hl' H]. split; [exact Hl'|].
  intros a b c Ha Hb Hc. rewrite (H a b c Ha Hb Hc).
  destruct (Z.ltb_spec a (Z.of_nat 32)); [reflexivity | lia].
Qed.

End LinearTable.

Lemma ymout1c5bit_facts :
  forall i j : nat, (i <= j)%nat -> (j < 32)%nat ->
    0 <= ymout1c5bit !!! i <= ymout1c5bit !!! j /\ ymout1c5bit !!! j <= 65535.
Proof.
  intros i j Hij Hj.
  assert (Hall : forallb (fun j => forallb (fun i =>
             (0 <=? ymout1c5bit !!! i)
             && (ymout1c5bit !!! i <=? ymout1c5bit !!! j)
             && (ymout1c5bit !!! j <=? 65535)) (seq 0 (S j))) (seq 0 32) = true)
    by (vm_compute; reflexivity).
  pose proof (forallb_seq _ _ _ (forallb_seq _ _ _ Hall Hj) (proj2 (Nat.lt_succ_r i j) Hij))
    as H.
  apply andb_true_iff in H as [H H2]. apply andb_true_iff in H as [H0 H1]. lia.
Qed.

Lemma linear_mean_range a b c :
  0 <= a < 32 -> 0 <= b < 32 -> 0 <= c < 32 ->
  linear_mean a b c
  = (ymout1c5bit !!! Z.to_nat a + ymout1c5bit !!! Z.to_nat b
     + ymout1c5bit !!! Z.to_nat c) / 3 /\
  0 <= linear_mean a b c <= 65535.
Proof.
  intros Ha Hb Hc. unfold linear_mean.
  destruct (ymout1c5bit_facts (Z.to_nat a) (Z.to_nat a)) as [? ?]; [lia..|].
  destruct (ymout1c5bit_facts (Z.to_nat b) (Z.to_nat b)) as [? ?]; [lia..|].
  destruct (ymout1c5bit_facts (Z.to_nat c) (Z.to_nat c)) as [? ?]; [lia..|].
  rewrite Z.quot_div_nonneg by lia. split; [reflexivity|].
  split; [apply Z.div_pos; lia|].
  apply Z.div_le_upper_bound; lia.
Qed.

Lemma linear_table_facts (out : list Z) (a b c a' : Z) :
  length out = (32 * 32 * 32)%nat ->
  0 <= a < 32 -> 0 <= b < 32 -> 0 <= c < 32 ->
  length (YM2149_BuildLinearVolumeTable out) = (32 * 32 * 32)%nat /\
  YM2149_BuildLinearVolumeTable out !!! vol_index a b c
    = (ymout1c5bit !!! Z.to_nat a + ymout1c5bit !!! Z.to_nat b
       + ymout1c5bit !!! Z.to_nat c) / 3 /\
  0 <= YM2149_BuildLinearVolumeTable out !!! vol_index a b c <= 65535 /\
  YM2149_BuildLinearVolumeTable out !!! vol_index b a c
    = YM2149_BuildLinearVolumeTable out !!! vol_index a b c /\
  YM2149_BuildLinearVolumeTable out !!! vol_index a c b
    = YM2149_BuildLinearVolumeTable out !!! vol_index a b c /\
  (a <= a' < 32 ->
   YM2149_BuildLinearVolumeTable out !!! vol_index a b c
   <= YM2149_BuildLinearVolumeTable out !!! vol_index a' b c) /\
  YM2149_BuildLinearVolumeTable out !!! vol_index 0 0 0 = 0 /\
  YM2149_BuildLinearVolumeTable out !!! vol_index 31 31 31 = 65535.
Proof.
  intros Hl Ha Hb Hc.
  destruct (linear_table_entries out Hl) as [Hl' He].
  assert (Hv : forall x y z, 0 <= x < 32 -> 0 <= y < 32 -> 0 <= z < 32 ->
            YM2149_BuildLinearVolumeTable out !!! vol_index x y z
            = (ymout1c5bit !!! Z.to_nat x + ymout1c5bit !!! Z.to_nat y
               + ymout1c5bit !!! Z.to_nat z) / 3 /\
            0 <= (ymout1c5bit !!! Z.to_nat x + ymout1c5bit !!! Z.to_nat y
                  + ymout1c5bit !!! Z.to_nat z) / 3 <= 65535).
  { intros x y z Hx Hy Hz. rewrite (He x y z Hx Hy Hz).
    destruct (linear_mean_range x y z Hx Hy Hz) as [E R].
    rewrite u16_small by (change (2^16) with 65536; lia).
    rewrite <- E. split; [reflexivity | exact R]. }
  destruct (Hv a b c Ha Hb Hc) as [E R].
  split; [exact Hl'|]. split; [exact E|]. split; [rewrite E; exact R|].
  split; [rewrite E, (proj1 (Hv b a c Hb Ha Hc)); f_equal; lia|].
  split; [rewrite E, (proj1 (Hv a c b Ha Hc Hb)); f_equal; lia|].
  split.
  - intros Ha'. rewrite E, (proj1 (Hv a' b c ltac:(lia) Hb Hc)).
    apply Z.div_le_mono; [lia|].
    destruct (ymout1c5bit_facts (Z.to_nat a) (Z.to_nat a')) as [? ?]; lia.
  - split.
    + rewrite (proj1 (Hv 0 0 0 ltac:(lia) ltac:(lia) ltac:(lia))). reflexivity.
    + rewrite (proj1 (Hv 31 31 31 ltac:(lia) ltac:(lia) ltac:(lia))). reflexivity.
Qed.

(** X18: YM2149_BuildLinearVolumeTable overwrites all 32*32*32 entries of
    a table of that size: entry i + 32*j + 1024*k becomes the mean (sum of
    the three ymout1c5bit levels divided by 3), a value in 0..65535 that
    does not depend on the order of the three voices and does not decrease
    when a voice's volume increases; entry 0 is 0 and the last entry
    65535. *)
Theorem linear_volume_table_is_mean (out : list Z) (a b c a' : Z) :
  length out = (32 * 32 * 32)%nat ->
  0 <= a < 32 -> 0 <= b < 32 -> 0 <= c < 32 ->
  length (YM2149_BuildLinearVolumeTable out) = (32 * 32 * 32)%nat /\
  YM2149_BuildLinearVolumeTable out !!! vol_index a b c
    = (ymout1c5bit !!! Z.to_nat a + ymout1c5bit !!! Z.to_nat b
       + ymout1c5bit !!! Z.to_nat c) / 3 /\
  0 <= YM2149_BuildLinearVolumeTable out !!! vol_index a b c <= 65535 /\
  YM2149_BuildLinearVolumeTable out !!! vol_index b a c
    = YM2149_BuildLinearVolumeTable out !!! vol_index a b c /\
  YM2149_BuildLinearVolumeTable out !!! vol_index a c b
    = YM2149_BuildLinearVolumeTable out !!! vol_index a b c /\
  (a <= a' < 32 ->
   YM2149_BuildLinearVolumeTable out !!! vol_index a b c
   <= YM2149_BuildLinearVolumeTable out !!! vol_index a' b c) /\
  YM2149_BuildLinearVolumeTable out !!! vol_index 0 0 0 = 0 /\
  YM2149_BuildLinearVolumeTable out !!! vol_index 31 31 31 = 65535.
Proof. intros; now apply linear_table_facts. Qed.

Lemma linear_volume_table_is_mean_witness :
  length (replicate (32 * 32 * 32) 0) = (32 * 32 * 32)%nat /\
  YM2149_BuildLinearVolumeTable (replicate (32 * 32 * 32) 0) !!! vol_index 31 0 0
  = 21845.
Proof.
  assert (Hl : length (replicate (32 * 32 * 32) 0) = (32 * 32 * 32)%nat)
    by apply length_replicate.
  split; [exact Hl|].
  rewrite (proj1 (proj2 (linear_volume_table_is_mean _ 31 0 0 31 Hl
                           ltac:(lia) ltac:(lia) ltac:(lia)))).
  reflexivity.
Defined.

(** ** Normalisation of the D/A table *)

Lemma normalise_loop (tin : list Z) (Level Max : Z) (DoCenter : bool) (n : nat) :
  (n <= length tin)%nat ->
  let res := fold_left (fun arr h =>
                 <[h := normalise_entry Level Max DoCenter (arr !!! h)]> arr)
              (seq 0 n) tin in
  length res = length tin /\
  forall h : nat, (h < length tin)%nat ->
    res !!! h = if (h <? n)%nat
                then normalise_entry Level Max DoCenter (tin !!! h)
                else tin !!! h.
Proof.
  intros Hn res. subst res.
  pose (Inv := fun (n' : nat) (o : list Z) =>
    length o = length tin /\
    forall h : nat, (h < length tin)%nat ->
      o !!! h = if (h <? n')%nat
                then normalise_entry Level Max DoCenter (tin !!! h)
                else tin !!! h).
  apply (fold_left_seq_inv _ Inv).
  - split; [reflexivity|]. intros h Hh. reflexivity.
  - intros i o Hi [Hlo Ho]. split; [now rewrite length_insert|].
    intros h Hh. destruct (decide (i = h)) as [-> | Hne].
    + rewrite list_lookup_total_insert_eq by lia. rewrite (Ho h Hh).
      destruct (Nat.ltb_spec h h); [lia|].
      destruct (Nat.ltb_spec h (S h)); [reflexivity | lia].
    + rewrite list_lookup_total_insert_ne by exact Hne. rewrite (Ho h Hh).
      destruct (Nat.ltb_spec h i), (Nat.ltb_spec h (S i)); try reflexivity; lia.
Qed.

Lemma normalise_entry_plain Level Max tmp :
  0 < Level <= 0x7fff -> 0 < Max <= 65535 -> 0 <= tmp <= Max ->
  normalise_entry Level Max false tmp = tmp * Level / Max /\
  0 <= tmp * Level / Max <= Level.
Proof.
  intros HL HM Ht. unfold normalise_entry. cbv zeta.
  assert (Hp : 0 <= tmp * Level <= 65535 * 32767) by nia.
  assert (Hq : 0 <= tmp * Level / Max <= Level).
  { split; [apply Z.div_pos; lia|].
    apply Z.div_le_upper_bound; [lia|]. nia. }
  rewrite (u32_small (tmp * Level)) by (change (2^32) with 4294967296; lia).
  rewrite (u32_small Max) by (change (2^32) with 4294967296; lia).
  rewrite s32_small by (change (2^31) with 2147483648; lia).
  rewrite s16_small by lia. split; [reflexivity | exact Hq].
Qed.

Lemma normalise_facts (tin : list Z) (Level : Z) (h h' : nat) :
  length tin = (32 * 32 * 32)%nat ->
  0 < Level <= 0x7fff ->
  0 < tin !!! Z.to_nat 0x7fff <= 65535 ->
  Forall (fun v => 0 <= v <= tin !!! Z.to_nat 0x7fff) tin ->
  (h < 32 * 32 * 32)%nat -> (h' < 32 * 32 * 32)%nat ->
  length (YM2149_Normalise_5bit_Table tin Level false) = (32 * 32 * 32)%nat /\
  YM2149_Normalise_5bit_Table tin Level false !!! h
    = tin !!! h * Level / tin !!! Z.to_nat 0x7fff /\
  0 <= YM2149_Normalise_5bit_Table tin Level false !!! h <= Level /\
  (tin !!! h <= tin !!! h' ->
   YM2149_Normalise_5bit_Table tin Level false !!! h
   <= YM2149_Normalise_5bit_Table tin Level false !!! h') /\
  YM2149_Normalise_5bit_Table tin Level false !!! Z.to_nat 0x7fff = Level.
Proof.
  intros Hl HL HM Hall Hh Hh'.
  set (Max := tin !!! Z.to_nat 0x7fff) in *.
  unfold YM2149_Normalise_5bit_Table. cbv zeta.
  destruct (Z.eqb_spec Level 0) as [E|_]; [lia|]. fold Max.
  destruct (normalise_loop tin Level Max false (32 * 32 * 32)) as [Hl' He];
    [lia|].
  assert (Hin : forall i : nat, (i < 32 * 32 * 32)%nat -> 0 <= tin !!! i <= Max).
  { intros i Hi.
    destruct (lookup_lt_is_Some_2 tin i) as [v Hv]; [lia|].
    rewrite (list_lookup_total_correct _ _ _ Hv).
    apply (proj1 (List.Forall_forall _ _) Hall).
    apply list_elem_of_In, list_elem_of_lookup. eauto. }
  assert (Hv : forall i : nat, (i < 32 * 32 * 32)%nat ->
    fold_left (fun arr h0 =>
                 <[h0 := normalise_entry Level Max false (arr !!! h0)]> arr)
              (seq 0 (32 * 32 * 32)) tin !!! i
    = tin !!! i * Level / Max /\ 0 <= tin !!! i * Level / Max <= Level).
  { intros i Hi. rewrite He by lia.
    destruct (Nat.ltb_spec i (32 * 32 * 32)); [|lia].
    apply normalise_entry_plain; auto. }
  destruct (Hv h Hh) as [Eh Rh]. destruct (Hv h' Hh') as [Eh' Rh'].
  split; [congruence|]. split; [exact Eh|]. split; [rewrite Eh; exact Rh|].
  split.
  - intros Hle. rewrite Eh, Eh'. apply Z.div_le_mono; [lia|].
    apply Z.mul_le_mono_nonneg_r; lia.
  - destruct (Hv (Z.to_nat 0x7fff) ltac:(lia)) as [Et _]. rewrite Et.
    fold Max. rewrite Z.mul_comm. apply Z.div_mul. lia.
Qed.

(** X19: YM2149_Normalise_5bit_Table without centring, for 0 < Level <=
    0x7fff and a table of 32*32*32 unsigned entries none above its last
    entry Max > 0: every entry h becomes in[h] * Level / Max, a value in
    0..Level; the order of entries is kept and the last entry becomes
    exactly Level.  Each entry is read before it is overwritten, so
    building the result in the same array changes nothing. *)
Theorem normalise_scales_into_level (tin : list Z) (Level : Z) (h h' : nat) :
  length tin = (32 * 32 * 32)%nat ->
  0 < Level <= 0x7fff ->
  0 < tin !!! Z.to_nat 0x7fff <= 65535 ->
  Forall (fun v => 0 <= v <= tin !!! Z.to_nat 0x7fff) tin ->
  (h < 32 * 32 * 32)%nat -> (h' < 32 * 32 * 32)%nat ->
  length (YM2149_Normalise_5bit_Table tin Level false) = (32 * 32 * 32)%nat /\
  YM2149_Normalise_5bit_Table tin Level false !!! h
    = tin !!! h * Level / tin !!! Z.to_nat 0x7fff /\
  0 <= YM2149_Normalise_5bit_Table tin Level false !!! h <= Level /\
  (tin !!! h <= tin !!! h' ->
   YM2149_Normalise_5bit_Table tin Level false !!! h
   <= YM2149_Normalise_5bit_Table tin Level false !!! h') /\
  YM2149_Normalise_5bit_Table tin Level false !!! Z.to_nat 0x7fff = Level.
Proof. intros; now apply normalise_facts. Qed.

Lemma normalise_scales_into_level_witness :
  length (replicate (32 * 32 * 32) 5) = (32 * 32 * 32)%nat /\
  length (YM2149_Normalise_5bit_Table (replicate (32 * 32 * 32) 5) 0x7fff false)
  = (32 * 32 * 32)%nat.
Proof.
  assert (Hl : length (replicate (32 * 32 * 32) 5) = (32 * 32 * 32)%nat)
    by apply length_replicate.
  split; [exact Hl|].
  refine (proj1 (normalise_scales_into_level (replicate (32 * 32 * 32) 5) 0x7fff
                   0 0 Hl _ _ _ _ _)).
  - lia.
  - rewrite lookup_total_replicate_2 by lia. lia.
  - rewrite lookup_total_replicate_2 by lia. apply Forall_replicate. lia.
  - lia.
  - lia.
Defined.

Lemma vol_index_decompose (h : nat) :
  (h < 32 * 32 * 32)%nat ->
  exists a b c, 0 <= a < 32 /\ 0 <= b < 32 /\ 0 <= c < 32 /\ h = vol_index a b c.
Proof.
  intros Hh. exists (Z.of_nat h mod 32), (Z.of_nat h / 32 mod 32), (Z.of_nat h / 1024).
  unfold vol_index.
  pose proof (Z.div_mod (Z.of_nat h) 32 ltac:(lia)).
  pose proof (Z.mod_pos_bound (Z.of_nat h) 32 ltac:(lia)).
  pose proof (Z.div_mod (Z.of_nat h / 32) 32 ltac:(lia)).
  pose proof (Z.mod_pos_bound (Z.of_nat h / 32) 32 ltac:(lia)).
  assert (E : Z.of_nat h / 1024 = Z.of_nat h / 32 / 32)
    by (rewrite Z.div_div by lia; reflexivity).
  assert (0 <= Z.of_nat h / 32 / 32 < 32).
  { split; [apply Z.div_pos; [apply Z.div_pos|]; lia|].
    apply Z.div_lt_upper_bound; [lia|]. apply Z.div_lt_upper_bound; lia. }
  rewrite E. repeat split; try lia.
Qed.

(** X20: the table Ym2149_Init builds with linear mixing (level 0x7fff,
    not centred) holds, for the volumes a, b, c of the three voices,
    mean(a,b,c) * 32767 / 65535 where mean is the entry of the linear
    table; all 32*32*32 entries lie in 0..32767, silence (0,0,0) gives 0,
    full volume (31,31,31) gives 32767, and raising one voice's volume
    never lowers the entry.  Hence every sample YM2149_NextSample returns
    from this table without the low-pass filter lies in 0..32767. *)
Theorem linear_dac_table_range (a b c a' : Z) (y : ym2149) :
  0 <= a < 32 -> 0 <= b < 32 -> 0 <= c < 32 ->
  linear_ymout5 !!! vol_index a b c
    = (ymout1c5bit !!! Z.to_nat a + ymout1c5bit !!! Z.to_nat b
       + ymout1c5bit !!! Z.to_nat c) / 3 * 32767 / 65535 /\
  0 <= linear_ymout5 !!! vol_index a b c <= 32767 /\
  (a <= a' < 32 ->
   linear_ymout5 !!! vol_index a b c <= linear_ymout5 !!! vol_index a' b c) /\
  linear_ymout5 !!! vol_index 0 0 0 = 0 /\
  linear_ymout5 !!! vol_index 31 31 31 = 32767 /\
  (UseLowPassFilter y = false ->
   0 <= fst (YM2149_NextSample (fun i => linear_ymout5 !!! Z.to_nat i) y)
     <= 32767).
Proof.
  intros Ha Hb Hc. unfold linear_ymout5, YM_OUTPUT_LEVEL, YM_OUTPUT_CENTERED.
  set (zero := replicate (32 * 32 * 32) 0).
  assert (Hz : length zero = (32 * 32 * 32)%nat) by apply length_replicate.
  set (tin := YM2149_BuildLinearVolumeTable zero).
  assert (Hlin : forall x y z, 0 <= x < 32 -> 0 <= y < 32 -> 0 <= z < 32 ->
            tin !!! vol_index x y z
            = (ymout1c5bit !!! Z.to_nat x + ymout1c5bit !!! Z.to_nat y
               + ymout1c5bit !!! Z.to_nat z) / 3 /\
            0 <= tin !!! vol_index x y z <= 65535).
  { intros x y0 z Hx Hy Hz0.
    destruct (linear_table_facts zero x y0 z x Hz Hx Hy Hz0)
      as (_ & E & R & _). now split. }
  assert (Hmono : a <= a' < 32 ->
            tin !!! vol_index a b c <= tin !!! vol_index a' b c)
    by exact (proj1 (proj2 (proj2 (proj2 (proj2 (proj2
               (linear_table_facts zero a b c a' Hz Ha Hb Hc))))))).
  assert (Hl : length tin = (32 * 32 * 32)%nat)
    by exact (proj1 (linear_table_facts zero 0 0 0 0 Hz
                       ltac:(lia) ltac:(lia) ltac:(lia))).
  assert (Hmax : tin !!! Z.to_nat 0x7fff = 65535).
  { change (Z.to_nat 0x7fff) with (vol_index 31 31 31).
    exact (proj2 (proj2 (proj2 (proj2 (proj2 (proj2 (proj2
             (linear_table_facts zero 0 0 0 0 Hz
                ltac:(lia) ltac:(lia) ltac:(lia))))))))). }
  clearbody tin. clear Hz. clearbody zero.
  assert (Hall : Forall (fun v => 0 <= v <= tin !!! Z.to_nat 0x7fff) tin).
  { rewrite Hmax. apply Forall_lookup_2. intros i v Hv.
    assert (Hi : (i < 32 * 32 * 32)%nat)
      by (rewrite <- Hl; eapply lookup_lt_Some; eauto).
    destruct (vol_index_decompose i Hi) as (x & y0 & z & Hx & Hy & Hz0 & ->).
    rewrite <- (list_lookup_total_correct _ _ _ Hv).
    apply Hlin; assumption. }
  assert (Hn : forall h h' : nat, (h < 32 * 32 * 32)%nat -> (h' < 32 * 32 * 32)%nat ->
    YM2149_Normalise_5bit_Table tin 32767 false !!! h = tin !!! h * 32767 / 65535 /\
    0 <= YM2149_Normalise_5bit_Table tin 32767 false !!! h <= 32767 /\
    (tin !!! h <= tin !!! h' ->
     YM2149_Normalise_5bit_Table tin 32767 false !!! h
     <= YM2149_Normalise_5bit_Table tin 32767 false !!! h')).
  { intros h h' Hh Hh'.
    destruct (normalise_facts tin 32767 h h' Hl ltac:(lia)
                ltac:(rewrite Hmax; lia) Hall Hh Hh') as (_ & E & R & M & _).
    rewrite Hmax in E. auto. }
  assert (Hi : forall x y z, 0 <= x < 32 -> 0 <= y < 32 -> 0 <= z < 32 ->
            (vol_index x y z < 32 * 32 * 32)%nat)
    by (intros; now apply vol_index_bound).
  destruct (Hn (vol_index a b c) (vol_index a b c)
              (Hi a b c Ha Hb Hc) (Hi a b c Ha Hb Hc)) as (E & R & _).
  split; [rewrite E, (proj1 (Hlin a b c Ha Hb Hc)); reflexivity|].
  split; [exact R|]. split.
  { intros Ha'.
    apply (proj2 (proj2 (Hn (vol_index a b c) (vol_index a' b c)
                           (Hi a b c Ha Hb Hc) (Hi a' b c ltac:(lia) Hb Hc)))).
    exact (Hmono Ha'). }
  split.
  { rewrite (proj1 (Hn (vol_index 0 0 0) (vol_index 0 0 0)
                       ltac:(apply Hi; lia) ltac:(apply Hi; lia))).
    rewrite (proj1 (Hlin 0 0 0 ltac:(lia) ltac:(lia) ltac:(lia))). reflexivity. }
  split.
  { rewrite (proj1 (Hn (vol_index 31 31 31) (vol_index 31 31 31)
                       ltac:(apply Hi; lia) ltac:(apply Hi; lia))).
    rewrite (proj1 (Hlin 31 31 31 ltac:(lia) ltac:(lia) ltac:(lia))). reflexivity. }
  intros Hf.
  rewrite (next_sample_unfiltered _ y Hf). cbn beta.
  pose proof (fits15_range _ (Tone3Voices_fits15
                (set_noise (noise_tick (noise y)) y))) as Hidx.
  apply (Hn _ 0%nat); lia.
Qed.

Lemma linear_dac_table_range_witness :
  0 <= linear_ymout5 !!! vol_index 31 0 0 <= 32767.
Proof.
  exact (proj1 (proj2 (linear_dac_table_range 31 0 0 31 ym_zero
                         ltac:(lia) ltac:(lia) ltac:(lia)))).
Defined.
